(** * TabexReminder: the dosing state machine and reminder scheduler of
      [main.py], embedded in Rocq.

    The embedding follows [src/main.py] function by function and keeps its
    names.

    - Python integers are [Z]; the float intervals of the schedule are the
      rationals they denote.
    - A user record is the JSON object that [json.load] reads from
      [data.json], a [gmap string value]: keys may be missing, and a value
      may have any JSON type.  Where Python would raise on an ill-typed
      value, the model raises too.
    - A raised exception is the left injection of [result].  The code that
      works on one user record runs in the monad [M], which threads the
      record, the trace of the calls to the collaborators (messages sent,
      [save_data]) and the exception.  What is on disk after a handler is
      the record of its last [save_data].
    - Instants are Python [datetime] values: calendar fields and an
      optional [tzinfo].  [datetime.utcnow()] is naive; the text
      [now.isoformat() + "Z"] that the program stores is read back, through
      [fromisoformat(ts.replace("Z", "+00:00"))], as an aware value.
    - The clock is an input: each reading of [datetime.utcnow()] is an
      argument of the function that makes it.
    - [tick_user] is the body of the loop of [tick] for one user; the
      callbacks are modelled from the look-up of the user on.  Message
      texts and keyboards are left out: a message is modelled by its kind
      and by the numbers or the date it carries.
    - [tick] runs that body over the users in the order of the file; an
      exception ends the run, as it does in [run_scheduler].
    - The onboarding dialogue runs on the sessions of [pending_onboarding]
      and on the user records on disk.  Whether a text contains one of
      [TAKEN_PHRASES] is an input of [on_text].
    - The texts that [parse_timezone], [parse_date] and
      [format_date_dd_mm_yyyy] read are lists of code points, with the
      white space and the decimal digits of Unicode; the strings of a
      record and the messages that the handlers of the dialogue get are
      strings of code points below 256. *)

From Stdlib Require Import ZArith QArith Qround String Ascii List Lia.
From stdpp Require Import base option gmap strings list pretty.

Local Open Scope string_scope.
Local Open Scope Z_scope.

(** ** The dosing schedule table ([main.py], lines 40-66) *)

(** [get_required_doses].  Python's [int] is unbounded, hence [Z]. *)
Definition get_required_doses (day : Z) : Z :=
  if (day <? 1) || (day >? 25) then 0
  else if day <=? 3 then 6
  else if day <=? 12 then 5
  else if day <=? 16 then 4
  else if day <=? 20 then 3
  else 2.

(** [get_interval_hours].  The five float literals of the source are dyadic
    rationals, exactly representable as binary floats, so they are kept as
    the rationals they denote. *)
Definition get_interval_hours (day : Z) : Q :=
  if (day <? 1) || (day >? 25) then 2.0%Q
  else if day <=? 3 then 2.0%Q
  else if day <=? 12 then 2.5%Q
  else if day <=? 16 then 3.0%Q
  else if day <=? 20 then 5.0%Q
  else 12.0%Q.

(** ** Exceptions *)

(** The exception classes the modelled code can raise.  A computation that
    may raise returns a [result]: [inl e] when [e] was raised. *)
Inductive exn := TypeError | ValueError | OverflowError | AttributeError.

Definition result (A : Type) : Type := (exn + A)%type.

Abbreviation ok := (@inr exn _).
Abbreviation throw := (@inl exn _).

#[global] Instance result_ret : MRet result := fun _ a => inr a.
#[global] Instance result_bind : MBind result := fun _ _ f r =>
  match r with
  | inl e => inl e
  | inr a => f a
  end.

(** ** Python strings

    A Python [str] that is read from a record or written by the program is
    modelled by a Rocq [string] whose characters are the code points below
    256.  On that range [str.strip] removes exactly the characters of
    [is_space]. *)

Definition is_space (c : ascii) : bool :=
  let n := N_of_ascii c in
  ((9 <=? n) && (n <=? 13) || (28 <=? n) && (n <=? 32)
   || (n =? 133) || (n =? 160))%N.

Fixpoint lstrip (s : string) : string :=
  match s with
  | String c r => if is_space c then lstrip r else s
  | EmptyString => EmptyString
  end.

Fixpoint rstrip (s : string) : string :=
  match s with
  | String c r =>
      match rstrip r with
      | EmptyString => if is_space c then EmptyString else String c EmptyString
      | r' => String c r'
      end
  | EmptyString => EmptyString
  end.

(** [s.strip()] *)
Definition strip (s : string) : string := rstrip (lstrip s).

Definition digit_val (c : ascii) : option Z :=
  let n := N_of_ascii c in
  if ((48 <=? n) && (n <=? 57))%N then Some (Z.of_N n - 48) else None.

Definition is_digit (c : ascii) : bool :=
  match digit_val c with Some _ => true | None => false end.

Definition digit_char (d : Z) : ascii := ascii_of_N (Z.to_N (48 + d)).

(** Reads exactly [n] decimal digits; returns their value and the rest. *)
Fixpoint take_digits (n : nat) (acc : Z) (s : string) : option (Z * string) :=
  match n with
  | O => Some (acc, s)
  | S n' =>
      match s with
      | String c r =>
          match digit_val c with
          | Some d => take_digits n' (10 * acc + d) r
          | None => None
          end
      | EmptyString => None
      end
  end.

(** [s.replace(old, new)] for a non-empty [old]: the occurrences are found
    left to right and do not overlap.  [skip] counts the characters of the
    occurrence just replaced that are still to be passed over. *)
Fixpoint replace_from (old new : string) (skip : nat) (s : string) : string :=
  match s with
  | EmptyString => EmptyString
  | String c r =>
      match skip with
      | S k => replace_from old new k r
      | O =>
          if String.prefix old s
          then new +:+ replace_from old new (String.length old - 1) r
          else String c (replace_from old new O r)
      end
  end.

Definition replace (old new s : string) : string := replace_from old new O s.

(** ["%0wd" % n] for [0 <= n < 10^w]: exactly [w] digits. *)
Fixpoint pad (w : nat) (n : Z) : string :=
  match w with
  | O => EmptyString
  | S w' => pad w' (n / 10) +:+ String (digit_char (n mod 10)) EmptyString
  end.

(** ** Texts of any characters

    A text that the user types is a Python [str] of any characters; it is
    modelled by the list of its code points.  On such a text [str.strip]
    removes the characters of [str.isspace], and the class [\d] of [re] and
    the function [int] read the decimal digits of every script, not only
    the ten ASCII digits. *)

Definition text := list N.

(** The text of a string of code points below 256, and the string of such
    a text: the handlers apply [string_of_text] to what [parse_date]
    returns on a message of code points below 256, which is the message
    trimmed. *)
Definition text_of_string (s : string) : text :=
  N_of_ascii <$> list_ascii_of_string s.

Definition string_of_text (t : text) : string :=
  string_of_list_ascii (ascii_of_N <$> t).

(** The characters of [str.isspace]: those of bidirectional type WS, B or
    S and those of category Zs of the Unicode database. *)
Definition whitespace : list N :=
  [ 0x9; 0xA; 0xB; 0xC; 0xD; 0x1C; 0x1D; 0x1E; 0x1F; 0x20; 0x85; 0xA0;
    0x1680; 0x2000; 0x2001; 0x2002; 0x2003; 0x2004; 0x2005; 0x2006;
    0x2007; 0x2008; 0x2009; 0x200A; 0x2028; 0x2029; 0x202F; 0x205F;
    0x3000 ]%N.

Definition isspace (c : N) : bool := existsb (N.eqb c) whitespace.

Fixpoint lstrip_by (P : N → bool) (s : text) : text :=
  match s with
  | c :: r => if P c then lstrip_by P r else s
  | [] => []
  end.

Fixpoint rstrip_by (P : N → bool) (s : text) : text :=
  match s with
  | c :: r =>
      match rstrip_by P r with
      | [] => if P c then [] else [c]
      | r' => c :: r'
      end
  | [] => []
  end.

(** [s.strip()] *)
Definition strip_text (s : text) : text :=
  rstrip_by isspace (lstrip_by isspace s).

(** The value of an ASCII digit. *)
Definition ascii_digit (c : N) : option Z :=
  if ((48 <=? c) && (c <=? 57))%N then Some (Z.of_N c - 48) else None.

(** The value of [c] as a digit of one of the runs of ten characters that
    start at the code points [zs]. *)
Fixpoint decimal_in (zs : list N) (c : N) : option Z :=
  match zs with
  | [] => None
  | z :: zs' =>
      if ((z <=? c) && (c <? z + 10))%N then Some (Z.of_N (c - z))
      else decimal_in zs' c
  end.

(** The white space of C, which [int] skips around the number. *)
Definition c_isspace (c : N) : bool :=
  ((9 <=? c) && (c <=? 13) || (c =? 32))%N.

(** The digits of an [int] literal, where single underscores may separate
    digits. *)
Fixpoint int_digits (prev_digit : bool) (acc : Z) (s : text) : option Z :=
  match s with
  | [] => if prev_digit then Some acc else None
  | c :: r =>
      match ascii_digit c with
      | Some d => int_digits true (10 * acc + d) r
      | None =>
          if (c =? 95)%N && prev_digit then int_digits false acc r
          else None
      end
  end.

Section Digits.

(** The decimal digits beyond ASCII (category Nd of the Unicode database)
    come in runs of ten, from the digit zero of a script to its digit
    nine.  [zeros] lists the code points of the digits zero: the list
    depends on the version of the database, and so on that of Python. *)
Variable zeros : list N.

(** [Py_UNICODE_TODECIMAL]: the value of a decimal digit. *)
Definition todecimal (c : N) : option Z :=
  if (c <? 128)%N then ascii_digit c else decimal_in zeros c.

(** [c.isdecimal()], which is the class [\d] of [re]. *)
Definition isdecimal (c : N) : bool :=
  match todecimal c with Some _ => true | None => false end.

(** What [int] makes of a character before it reads the number: from 127
    on, a white space becomes a space, a decimal digit its ASCII digit,
    and any other character is refused (["?"]). *)
Definition int_char (c : N) : N :=
  if (c <? 127)%N then c
  else if isspace c then 32%N
  else match todecimal c with
       | Some d => (48 + Z.to_N d)%N
       | None => 63%N
       end.

(** [int(s)] for a text [s], base ten. *)
Definition int_text (s : text) : result Z :=
  let s := int_char <$> s in
  let s := rstrip_by c_isspace (lstrip_by c_isspace s) in
  let '(neg, body) :=
    match s with
    | c :: r =>
        if (c =? 45)%N then (true, r)
        else if (c =? 43)%N then (false, r)
        else (false, s)
    | [] => (false, s)
    end in
  match int_digits false 0 body with
  | Some n => ok (if neg then - n else n)
  | None => throw ValueError
  end.

End Digits.

(** The digits zero beyond ASCII in version 14.0 of the Unicode database,
    that of Python 3.11. *)
Definition unicode_zeros : list N :=
  [ 0x660; 0x6F0; 0x7C0; 0x966; 0x9E6; 0xA66; 0xAE6; 0xB66; 0xBE6; 0xC66;
    0xCE6; 0xD66; 0xDE6; 0xE50; 0xED0; 0xF20; 0x1040; 0x1090; 0x17E0;
    0x1810; 0x1946; 0x19D0; 0x1A80; 0x1A90; 0x1B50; 0x1BB0; 0x1C40;
    0x1C50; 0xA620; 0xA8D0; 0xA900; 0xA9D0; 0xA9F0; 0xAA50; 0xABF0;
    0xFF10; 0x104A0; 0x10D30; 0x11066; 0x110F0; 0x11136; 0x111D0; 0x112F0;
    0x11450; 0x114D0; 0x11650; 0x116C0; 0x11730; 0x118E0; 0x11950;
    0x11C50; 0x11D50; 0x11DA0; 0x16A60; 0x16AC0; 0x16B50; 0x1D7CE;
    0x1D7D8; 0x1D7E2; 0x1D7EC; 0x1D7F6; 0x1E140; 0x1E2F0; 0x1E950;
    0x1FBF0 ]%N.

(** [int(s)] for a string: among the code points below 256 the only
    decimal digits are the ASCII ones, in every version of the
    database. *)
Definition py_int (s : string) : result Z := int_text [] (text_of_string s).

(** ** Python's [datetime]

    The part of the [datetime] module the program uses, after CPython's
    [Lib/datetime.py]: the proleptic Gregorian calendar, [timedelta]
    arithmetic, [isoformat], [fromisoformat], [strftime] with the two
    formats of the source, and the order comparisons, which raise
    [TypeError] between a naive and an aware value. *)

(** A [timedelta] is its length in microseconds. *)
Definition timedelta := Z.

Definition us_per_second : Z := 1000000.
Definition us_per_minute : Z := 60 * us_per_second.
Definition us_per_hour : Z := 3600 * us_per_second.
Definition us_per_day : Z := 86400 * us_per_second.

(** [tzinfo] is the UTC offset of a fixed-offset [timezone]; [None] makes
    the value naive. *)
Record datetime := mk_datetime {
  year : Z; month : Z; day : Z;
  hour : Z; minute : Z; second : Z; microsecond : Z;
  tzinfo : option timedelta
}.

Definition _is_leap (y : Z) : bool :=
  (y mod 4 =? 0) && (negb (y mod 100 =? 0) || (y mod 400 =? 0)).

Definition _days_before_year (y : Z) : Z :=
  let y := y - 1 in y * 365 + y / 4 - y / 100 + y / 400.

Definition _DAYS_IN_MONTH (m : Z) : Z :=
  match m with
  | 1 => 31 | 2 => 28 | 3 => 31 | 4 => 30 | 5 => 31 | 6 => 30
  | 7 => 31 | 8 => 31 | 9 => 30 | 10 => 31 | 11 => 30 | 12 => 31
  | _ => -1
  end.

Definition _DAYS_BEFORE_MONTH (m : Z) : Z :=
  match m with
  | 1 => 0 | 2 => 31 | 3 => 59 | 4 => 90 | 5 => 120 | 6 => 151
  | 7 => 181 | 8 => 212 | 9 => 243 | 10 => 273 | 11 => 304 | 12 => 334
  | _ => -1
  end.

Definition _days_in_month (y m : Z) : Z :=
  if (m =? 2) && _is_leap y then 29 else _DAYS_IN_MONTH m.

Definition _days_before_month (y m : Z) : Z :=
  _DAYS_BEFORE_MONTH m + (if (m >? 2) && _is_leap y then 1 else 0).

Definition _ymd2ord (y m d : Z) : Z :=
  _days_before_year y + _days_before_month y m + d.

Definition _DI400Y : Z := 146097.
Definition _DI100Y : Z := 36524.
Definition _DI4Y : Z := 1461.
Definition _MAXORDINAL : Z := 3652059.

Definition _ord2ymd (n : Z) : Z * Z * Z :=
  let n := n - 1 in
  let n400 := n / _DI400Y in
  let n := n mod _DI400Y in
  let y := n400 * 400 + 1 in
  let n100 := n / _DI100Y in
  let n := n mod _DI100Y in
  let n4 := n / _DI4Y in
  let n := n mod _DI4Y in
  let n1 := n / 365 in
  let n := n mod 365 in
  let y := y + n100 * 100 + n4 * 4 + n1 in
  if (n1 =? 4) || (n100 =? 4) then (y - 1, 12, 31)
  else
    let leapyear := (n1 =? 3) && (negb (n4 =? 24) || (n100 =? 3)) in
    let m := Z.shiftr (n + 50) 5 in
    let preceding :=
      _DAYS_BEFORE_MONTH m + (if (m >? 2) && leapyear then 1 else 0) in
    if preceding >? n then
      let m := m - 1 in
      let preceding :=
        preceding
        - (_DAYS_IN_MONTH m + (if (m =? 2) && leapyear then 1 else 0)) in
      (y, m, n - preceding + 1)
    else (y, m, n - preceding + 1).

(** The checks of the [datetime] constructor. *)
Definition valid_fields (d : datetime) : bool :=
  (1 <=? year d) && (year d <=? 9999)
  && (1 <=? month d) && (month d <=? 12)
  && (1 <=? day d) && (day d <=? _days_in_month (year d) (month d))
  && (0 <=? hour d) && (hour d <=? 23)
  && (0 <=? minute d) && (minute d <=? 59)
  && (0 <=? second d) && (second d <=? 59)
  && (0 <=? microsecond d) && (microsecond d <=? 999999).

(** A [timezone] offset lies strictly between -24 h and 24 h. *)
Definition valid_offset (off : timedelta) : bool :=
  (- us_per_day <? off) && (off <? us_per_day).

Definition valid_datetime (d : datetime) : bool :=
  valid_fields d
  && match tzinfo d with Some off => valid_offset off | None => true end.

(** Microseconds from 0001-01-01T00:00 on the value's own wall clock, plus
    one day: [toordinal] days and the time of day. *)
Definition wall_us (d : datetime) : Z :=
  _ymd2ord (year d) (month d) (day d) * us_per_day
  + hour d * us_per_hour + minute d * us_per_minute
  + second d * us_per_second + microsecond d.

(** [timedelta(...)]: the constructor refuses more than 999999999 days. *)
Definition mk_timedelta (us : Z) : result timedelta :=
  if (-999999999 <=? us / us_per_day) && (us / us_per_day <=? 999999999)
  then ok us else throw OverflowError.

(** Rounding to the nearest integer, ties to even, as [timedelta] rounds a
    fractional number of microseconds. *)
Definition round_half_even (q : Q) : Z :=
  let f := Qfloor q in
  let r := (q - inject_Z f)%Q in
  match (r ?= 1 # 2)%Q with
  | Lt => f
  | Gt => f + 1
  | Eq => if Z.even f then f else f + 1
  end.

(** [timedelta(hours=h)] for a float [h]. *)
Definition timedelta_hours (h : Q) : result timedelta :=
  mk_timedelta (round_half_even (h * inject_Z us_per_hour)).

(** [timedelta(minutes=m)] for an integer [m]. *)
Definition timedelta_minutes (m : Z) : result timedelta :=
  mk_timedelta (m * us_per_minute).

(** [d + delta] ([datetime.__add__]). *)
Definition datetime_add (d : datetime) (delta : timedelta) : result datetime :=
  let total := wall_us d + delta in
  let days := total / us_per_day in
  let rest := total mod us_per_day in
  if (0 <? days) && (days <=? _MAXORDINAL) then
    let '(y, m, dd) := _ord2ymd days in
    ok {| year := y; month := m; day := dd;
          hour := rest / us_per_hour;
          minute := (rest mod us_per_hour) / us_per_minute;
          second := (rest mod us_per_minute) / us_per_second;
          microsecond := rest mod us_per_second;
          tzinfo := tzinfo d |}
  else throw OverflowError.

(** [now + timedelta(hours=h)] and [now + timedelta(minutes=m)]. *)
Definition plus_hours (now : datetime) (h : Q) : result datetime :=
  delta ← timedelta_hours h; datetime_add now delta.

Definition plus_minutes (now : datetime) (m : Z) : result datetime :=
  delta ← timedelta_minutes m; datetime_add now delta.

(** [_format_offset]. *)
Definition format_offset (off : option timedelta) : string :=
  match off with
  | None => EmptyString
  | Some off =>
      let sign := if off <? 0 then "-" else "+" in
      let a := Z.abs off in
      let hh := a / us_per_hour in
      let mm := (a mod us_per_hour) / us_per_minute in
      let ss := a mod us_per_minute in
      sign +:+ pad 2 hh +:+ ":" +:+ pad 2 mm
      +:+ (if ss =? 0 then EmptyString
           else ":" +:+ pad 2 (ss / us_per_second)
                +:+ (if ss mod us_per_second =? 0 then EmptyString
                     else "." +:+ pad 6 (ss mod us_per_second)))
  end.

(** [d.isoformat()] with the default separator and [timespec]. *)
Definition isoformat (d : datetime) : string :=
  pad 4 (year d) +:+ "-" +:+ pad 2 (month d) +:+ "-" +:+ pad 2 (day d)
  +:+ "T" +:+ pad 2 (hour d) +:+ ":" +:+ pad 2 (minute d)
  +:+ ":" +:+ pad 2 (second d)
  +:+ (if microsecond d =? 0 then EmptyString
       else "." +:+ pad 6 (microsecond d))
  +:+ format_offset (tzinfo d).

(** [d.strftime("%H:%M")] and [d.strftime("%Y-%m-%d")].  The year is
    written with four digits, as it is from the year 1000 on (before, the
    C library may leave the leading zeros out). *)
Definition strftime_HM (d : datetime) : string :=
  pad 2 (hour d) +:+ ":" +:+ pad 2 (minute d).

Definition strftime_Ymd (d : datetime) : string :=
  pad 4 (year d) +:+ "-" +:+ pad 2 (month d) +:+ "-" +:+ pad 2 (day d).

Definition expect (c : ascii) (s : string) : option string :=
  match s with
  | String c' r => if Ascii.eqb c c' then Some r else None
  | EmptyString => None
  end.

(** [_parse_hh_mm_ss_ff]: [HH[:MM[:SS[.fff[fff]]]]], the whole of [s]. *)
Definition parse_hh_mm_ss_ff (s : string) : option (Z * Z * Z * Z) :=
  '(hh, r) ← take_digits 2 0 s;
  match r with
  | EmptyString => Some (hh, 0, 0, 0)
  | String c r =>
      if negb (Ascii.eqb c ":") then None else
      '(mm, r) ← take_digits 2 0 r;
      match r with
      | EmptyString => Some (hh, mm, 0, 0)
      | String c r =>
          if negb (Ascii.eqb c ":") then None else
          '(ss, r) ← take_digits 2 0 r;
          match r with
          | EmptyString => Some (hh, mm, ss, 0)
          | String c r =>
              if negb (Ascii.eqb c ".") then None else
              if (String.length r =? 3)%nat then
                '(f, _) ← take_digits 3 0 r; Some (hh, mm, ss, f * 1000)
              else if (String.length r =? 6)%nat then
                '(f, _) ← take_digits 6 0 r; Some (hh, mm, ss, f)
              else None
          end
      end
  end.

(** The time text up to the first ['+'] or ['-'], and, when there is one,
    whether the sign is ['-'] and the offset text after it. *)
Fixpoint split_at_sign (s : string) : string * option (bool * string) :=
  match s with
  | EmptyString => (EmptyString, None)
  | String c r =>
      if Ascii.eqb c "+" then (EmptyString, Some (false, r))
      else if Ascii.eqb c "-" then (EmptyString, Some (true, r))
      else let '(t, z) := split_at_sign r in (String c t, z)
  end.

Definition parse_offset (neg : bool) (z : string) : option timedelta :=
  let n := String.length z in
  if ((n =? 5) || (n =? 8) || (n =? 15))%nat then
    '(hh, mm, ss, f) ← parse_hh_mm_ss_ff z;
    let off := hh * us_per_hour + mm * us_per_minute + ss * us_per_second + f in
    Some (if neg then - off else off)
  else None.

(** The grammar [YYYY-MM-DD[*HH[:MM[:SS[.fff[fff]]]][+HH:MM[:SS[.ffffff]]]]]
    of [datetime.fromisoformat], the inverse of [isoformat]. *)
Definition parse_isoformat (s : string) : option datetime :=
  '(y, r) ← take_digits 4 0 s;
  r ← expect "-" r;
  '(m, r) ← take_digits 2 0 r;
  r ← expect "-" r;
  '(d, r) ← take_digits 2 0 r;
  match r with
  | EmptyString => Some (mk_datetime y m d 0 0 0 0 None)
  | String _ t =>
      let '(timestr, z) := split_at_sign t in
      '(hh, mm, ss, f) ← parse_hh_mm_ss_ff timestr;
      match z with
      | None => Some (mk_datetime y m d hh mm ss f None)
      | Some (neg, zs) =>
          off ← parse_offset neg zs;
          Some (mk_datetime y m d hh mm ss f (Some off))
      end
  end.

(** [datetime.fromisoformat(s)]: [ValueError] on a malformed text and on
    fields the constructors refuse. *)
Definition fromisoformat (s : string) : result datetime :=
  match parse_isoformat s with
  | Some d => if valid_datetime d then ok d else throw ValueError
  | None => throw ValueError
  end.

(** Order comparison of two datetimes: on the wall clock when both are
    naive, on the UTC instant when both are aware, and
    [TypeError: can't compare offset-naive and offset-aware datetimes]
    otherwise. *)
Definition datetime_cmp (a b : datetime) : result comparison :=
  match tzinfo a, tzinfo b with
  | None, None => ok (wall_us a ?= wall_us b)
  | Some oa, Some ob => ok (wall_us a - oa ?= wall_us b - ob)
  | _, _ => throw TypeError
  end.

(** [a < b] *)
Definition datetime_lt (a b : datetime) : result bool :=
  c ← datetime_cmp a b;
  ok (match c with Lt => true | _ => false end).

(** [a >= b] *)
Definition datetime_ge (a b : datetime) : result bool :=
  c ← datetime_cmp a b;
  ok (match c with Lt => false | _ => true end).

(** ** JSON values and the user record

    [data.json] holds one JSON object per user.  [json.load] yields
    [None], [bool], [int], [str], [list] and [dict] values (the program
    never writes a fractional number). *)

#[local] Set Warnings "-register-all".
Inductive value :=
  | VNone
  | VBool (b : bool)
  | VInt (n : Z)
  | VStr (s : string)
  | VList (l : list value)
  | VDict (d : gmap string value).
#[local] Set Warnings "register-all".

Abbreviation dict := (gmap string value).

(** Truth value of an object ([if v:], [not v]). *)
Definition truthy (v : value) : bool :=
  match v with
  | VNone => false
  | VBool b => b
  | VInt n => negb (n =? 0)
  | VStr s => negb (String.eqb s EmptyString)
  | VList l => match l with [] => false | _ => true end
  | VDict d => negb (bool_decide (d = ∅))
  end.

(** [u.get(k)] and [u.get(k, default)]. *)
Definition get (u : dict) (k : string) : value := default VNone (u !! k).
Definition get_or (u : dict) (k : string) (dflt : value) : value :=
  default dflt (u !! k).

(** [k in u] *)
Definition contains (u : dict) (k : string) : bool :=
  match u !! k with Some _ => true | None => false end.

(** [u.setdefault(k, v)] *)
Definition setdefault (k : string) (v : value) (u : dict) : dict :=
  match u !! k with Some _ => u | None => <[k := v]> u end.

(** An operand of integer arithmetic or of an order comparison with an
    [int]: [bool] is a subclass of [int]; any other JSON value raises
    [TypeError]. *)
Definition as_int (v : value) : result Z :=
  match v with
  | VInt n => ok n
  | VBool b => ok (if b then 1 else 0)
  | _ => throw TypeError
  end.

(** The receiver of a [str] method: another object has no such attribute. *)
Definition as_str (v : value) : result string :=
  match v with
  | VStr s => ok s
  | _ => throw AttributeError
  end.

(** [int(v)] for a JSON value. *)
Definition int_of_value (v : value) : result Z :=
  match v with
  | VInt n => ok n
  | VBool b => ok (if b then 1 else 0)
  | VStr s => py_int s
  | _ => throw TypeError
  end.

(** [v != s] for a string [s]. *)
Definition ne_str (v : value) (s : string) : bool :=
  match v with
  | VStr s' => negb (String.eqb s' s)
  | _ => true
  end.

(** ** Outbound messages and the trace of a handler

    Message texts are not modelled, only which message is sent and the
    numbers it carries. *)
Inductive message :=
  | CompletionNotice
  | MorningPrompt (day required : Z) (interval : Q)
  | MissedPrompt (missed : Z)
  | DoseReminder (day : Z).

Inductive edit_note := NoteTaken | NotePostponed | NoteMissedDone | NoteFirstReady.

(** The calls to the collaborators, in order: [cq.answer] (with or without
    a popup text), [cq.message.edit_text], [bot.send_message] or
    [cq.message.answer], and [save_data], recorded with the user record it
    writes. *)
Inductive event :=
  | Answered (popup : bool)
  | Edited (note : edit_note)
  | Sent (m : message)
  | Saved (snapshot : dict).

(** ** The monad of the code that works on one user record

    The record [u] is mutated in place, calls are appended to the trace,
    and an exception leaves both as they are when it is raised. *)
Record outcome (A : Type) := Outcome {
  o_state : dict;
  o_trace : list event;
  o_result : result A
}.
Arguments Outcome {A} _ _ _.
Arguments o_state {A} _.
Arguments o_trace {A} _.
Arguments o_result {A} _.

Definition M (A : Type) : Type := dict → outcome A.

#[global] Instance M_ret : MRet M := fun _ a u => Outcome u [] (inr a).
#[global] Instance M_bind : MBind M := fun _ _ f m u =>
  let o := m u in
  match o_result o with
  | inl e => Outcome (o_state o) (o_trace o) (inl e)
  | inr a =>
      let o' := f a (o_state o) in
      Outcome (o_state o') (o_trace o ++ o_trace o')%list (o_result o')
  end.

Definition read : M dict := fun u => Outcome u [] (inr u).
Definition modify (f : dict → dict) : M unit := fun u => Outcome (f u) [] (inr tt).
(** [u[k] = v] *)
Definition store (k : string) (v : value) : M unit := modify (insert k v).
(** [del u[k]] for a key that is present. *)
Definition del (k : string) : M unit := modify (delete k).
Definition lift {A} (r : result A) : M A := fun u => Outcome u [] r.
Definition emit (e : event) : M unit := fun u => Outcome u [e] (inr tt).
(** [save_data(data)] *)
Definition save : M unit := fun u => Outcome u [Saved u] (inr tt).

(** The record on disk after a run that started from the stored record
    [u0]: the one written by the last [save_data], if any. *)
Fixpoint persisted (u0 : dict) (tr : list event) : dict :=
  match tr with
  | [] => u0
  | Saved u :: tr' => persisted u tr'
  | _ :: tr' => persisted u0 tr'
  end.

(** The messages sent in a trace. *)
Fixpoint sent (tr : list event) : list message :=
  match tr with
  | [] => []
  | Sent m :: tr' => m :: sent tr'
  | _ :: tr' => sent tr'
  end.

(** ** Legacy records ([main.py], lines 122-151) *)

(** [for pr in pending]: the values the loop visits. *)
Definition iter_values (v : value) : result (list value) :=
  match v with
  | VList l => ok l
  | VStr s => ok ((fun c : ascii => VStr (String c EmptyString)) <$> list_ascii_of_string s)
  | VDict d => ok (VStr <$> (map_to_list d).*1)
  | _ => throw TypeError
  end.

(** [datetime.fromisoformat(t.replace("Z", "+00:00"))] *)
Definition parse_timestamp (t : value) : result datetime :=
  s ← as_str t;
  fromisoformat (replace "Z" "+00:00" s).

(** One turn of the loop of [_migrate_user_reminders]. *)
Definition earliest_step (earliest : option datetime) (pr : value)
  : result (option datetime) :=
  match pr with
  | VDict d =>
      let t := get d "triggerAt" in
      if negb (truthy t) then ok earliest
      else
        let attempt : result (option datetime) :=
          dt ← parse_timestamp t;
          match earliest with
          | None => ok (Some dt)
          | Some e => b ← datetime_lt dt e; ok (if (b : bool) then Some dt else earliest)
          end in
        match attempt with
        | inr e' => ok e'
        | inl _ => ok earliest
        end
  | _ => throw AttributeError
  end.

Fixpoint earliest_loop (earliest : option datetime) (l : list value)
  : result (option datetime) :=
  match l with
  | [] => ok earliest
  | pr :: l' => e ← earliest_step earliest pr; earliest_loop e l'
  end.

Definition _migrate_user_reminders : M bool :=
  modify (setdefault "nextReminderTimestamp" VNone);;
  modify (setdefault "postponedReminderTimestamp" VNone);;
  u ← read;
  if negb (contains u "pendingReminders")
     || negb (truthy (get u "pendingReminders")) then
    if contains u "pendingReminders" then
      del "pendingReminders";; mret true
    else mret false
  else if truthy (get u "nextReminderTimestamp") then
    del "pendingReminders";; mret true
  else
    pending ← lift (iter_values (get u "pendingReminders"));
    earliest ← lift (earliest_loop None pending);
    match earliest with
    | Some dt =>
        store "nextReminderTimestamp" (VStr (replace "+00:00" "Z" (isoformat dt)))
    | None => mret tt
    end;;
    store "postponedReminderTimestamp" VNone;;
    del "pendingReminders";;
    mret true.

(** The same function with [datetime.fromisoformat] as a parameter.  The
    texts that the library reads depend on the version of Python:
    [fromisoformat] above has the grammar of Python 3.7 to 3.10, and Python
    3.11 reads more of ISO 8601.  [_migrate_user_reminders] is
    [migrate_with fromisoformat]. *)
Definition parse_timestamp_with (parse : string → result datetime)
    (t : value) : result datetime :=
  s ← as_str t;
  parse (replace "Z" "+00:00" s).

Definition earliest_step_with (parse : string → result datetime)
    (earliest : option datetime) (pr : value) : result (option datetime) :=
  match pr with
  | VDict d =>
      let t := get d "triggerAt" in
      if negb (truthy t) then ok earliest
      else
        let attempt : result (option datetime) :=
          dt ← parse_timestamp_with parse t;
          match earliest with
          | None => ok (Some dt)
          | Some e => b ← datetime_lt dt e; ok (if (b : bool) then Some dt else earliest)
          end in
        match attempt with
        | inr e' => ok e'
        | inl _ => ok earliest
        end
  | _ => throw AttributeError
  end.

Fixpoint earliest_loop_with (parse : string → result datetime)
    (earliest : option datetime) (l : list value) : result (option datetime) :=
  match l with
  | [] => ok earliest
  | pr :: l' =>
      e ← earliest_step_with parse earliest pr; earliest_loop_with parse e l'
  end.

Definition migrate_with (parse : string → result datetime) : M bool :=
  modify (setdefault "nextReminderTimestamp" VNone);;
  modify (setdefault "postponedReminderTimestamp" VNone);;
  u ← read;
  if negb (contains u "pendingReminders")
     || negb (truthy (get u "pendingReminders")) then
    if contains u "pendingReminders" then
      del "pendingReminders";; mret true
    else mret false
  else if truthy (get u "nextReminderTimestamp") then
    del "pendingReminders";; mret true
  else
    pending ← lift (iter_values (get u "pendingReminders"));
    earliest ← lift (earliest_loop_with parse None pending);
    match earliest with
    | Some dt =>
        store "nextReminderTimestamp" (VStr (replace "+00:00" "Z" (isoformat dt)))
    | None => mret tt
    end;;
    store "postponedReminderTimestamp" VNone;;
    del "pendingReminders";;
    mret true.

(** ** Onboarding input ([main.py], lines 154-165) *)

(** Whether [$] matches at the start of [s]: at the end of the text, or
    just before a newline that ends it. *)
Definition at_end (s : text) : bool :=
  match s with
  | [] => true
  | [c] => (c =? 10)%N
  | _ => false
  end.

Section TimeZoneInput.

Variable zeros : list N.

(** What may follow group 1 in [^([+-]?\d{1,2})(?::(\d{2}))?$]: the
    optional minutes group, then [$].  Returns group 2. *)
Definition match_minutes (s : text) : option (option text) :=
  match s with
  | c :: a :: b :: r =>
      if (c =? 58)%N && isdecimal zeros a && isdecimal zeros b && at_end r
      then Some (Some [a; b])
      else if at_end s then Some None else None
  | _ => if at_end s then Some None else None
  end.

(** [re.match(r"^([+-]?\d{1,2})(?::(\d{2}))?$", s)]: groups 1 and 2 of the
    match.  [\d{1,2}] is greedy: two digits are tried before one. *)
Definition match_timezone (s : text) : option (text * option text) :=
  let '(sign, r) :=
    match s with
    | c :: r' =>
        if (c =? 43)%N || (c =? 45)%N then ([c], r') else ([], s)
    | [] => ([], s)
    end in
  match r with
  | d1 :: r1 =>
      if isdecimal zeros d1 then
        let one :=
          g2 ← match_minutes r1; Some ((sign ++ [d1])%list, g2) in
        match r1 with
        | d2 :: r2 =>
            if isdecimal zeros d2 then
              match match_minutes r2 with
              | Some g2 => Some ((sign ++ [d1; d2])%list, g2)
              | None => one
              end
            else one
        | [] => one
        end
      else None
  | [] => None
  end.

Definition parse_timezone (s : text) : result (option Z) :=
  let s := strip_text s in
  match match_timezone s with
  | None => ok None
  | Some (g1, g2) =>
      h ← int_text zeros g1;
      if match g2 with Some (_ :: _) => true | _ => false end
      then ok None
      else if (h <? -12) || (h >? 14) then ok None
      else ok (Some h)
  end.

End TimeZoneInput.

(** ** New records ([main.py], lines 261-274) *)

(** The record [_save_new_user] creates; [str(tz)] is the decimal text of
    the offset. *)
Definition new_user (start_date : string) (tz : Z) : dict :=
  <["startDate" := VStr start_date]>
  (<["timezone" := VStr (pretty tz)]>
  (<["currentDay" := VInt 1]>
  (<["takenToday" := VInt 0]>
  (<["lastDoseTimestamp" := VNone]>
  (<["courseCompleted" := VBool false]>
  (<["lastMorningMessageDate" := VNone]>
  (<["nextReminderTimestamp" := VNone]>
  (<["postponedReminderTimestamp" := VNone]> ∅)))))))).

(** ** The event processor ([main.py], lines 372-456 and 501-521) *)

(** The text [now.isoformat() + "Z"] the program stores for an instant. *)
Definition stamp (t : datetime) : value := VStr (isoformat t +:+ "Z").

Definition _apply_taken (now : datetime) : M (option message) :=
  u ← read;
  taken ← lift (as_int (get_or u "takenToday" (VInt 0)));
  store "takenToday" (VInt (taken + 1));;
  store "lastDoseTimestamp" (stamp now);;
  store "nextReminderTimestamp" VNone;;
  store "postponedReminderTimestamp" VNone;;
  u ← read;
  day ← lift (as_int (get_or u "currentDay" (VInt 1)));
  let required := get_required_doses day in
  (if taken + 1 >=? required then
     store "currentDay" (VInt (day + 1));;
     store "takenToday" (VInt 0);;
     store "lastMorningMessageDate" VNone
   else mret tt);;
  u ← read;
  next_day ← lift (as_int (get_or u "currentDay" (VInt 1)));
  if next_day >? 25 then
    store "courseCompleted" (VBool true);;
    mret (Some CompletionNotice)
  else
    let interval_h := get_interval_hours next_day in
    at_ ← lift (plus_hours now interval_h);
    store "nextReminderTimestamp" (stamp at_);;
    mret None.

(** The body of [cb_taken] once the user record is found. *)
Definition cb_taken_user (now : datetime) : M unit :=
  _migrate_user_reminders;;
  u ← read;
  if truthy (get u "courseCompleted") then mret tt
  else
    completion ← _apply_taken now;
    save;;
    emit (Edited NoteTaken);;
    match completion with
    | Some m => emit (Sent m)
    | None => mret tt
    end.

(** The body of [cb_postpone] once the user record is found. *)
Definition cb_postpone_user (now : datetime) : M unit :=
  u ← read;
  if truthy (get u "courseCompleted") then mret tt
  else
    trigger_at ← lift (plus_minutes now 15);
    store "postponedReminderTimestamp" (stamp trigger_at);;
    save;;
    emit (Edited NotePostponed).

(** [cb_missed_yes], lines 445-450: both timers are cleared and the day's
    count is topped up. *)
Definition missed_top_up : M (Z * Z) :=
  store "nextReminderTimestamp" VNone;;
  store "postponedReminderTimestamp" VNone;;
  u ← read;
  day ← lift (as_int (get_or u "currentDay" (VInt 1)));
  let required := get_required_doses day in
  taken ← lift (as_int (get_or u "takenToday" (VInt 0)));
  let missed := required - taken in
  store "takenToday" (VInt (taken + missed));;
  mret (day, required).

(** [cb_missed_yes], lines 451-454: the day advance. *)
Definition missed_advance (day required : Z) : M unit :=
  u ← read;
  taken ← lift (as_int (get u "takenToday"));
  if taken >=? required then
    store "currentDay" (VInt (day + 1));;
    store "takenToday" (VInt 0);;
    store "lastMorningMessageDate" VNone
  else mret tt.

(** The body of [cb_missed_yes] once the user record is found. *)
Definition cb_missed_yes_user : M unit :=
  _migrate_user_reminders;;
  '(day, required) ← missed_top_up;
  missed_advance day required;;
  save;;
  emit (Edited NoteMissedDone).

(** The body of [cb_first_ready] once the user record is found. *)
Definition cb_first_ready_user (now : datetime) : M unit :=
  _migrate_user_reminders;;
  u ← read;
  if truthy (get u "courseCompleted") then mret tt
  else
    _ ← lift (as_int (get_or u "currentDay" (VInt 1)));
    emit (Answered true);;
    completion ← _apply_taken now;
    save;;
    emit (Edited NoteFirstReady);;
    match completion with
    | Some m => emit (Sent m)
    | None => mret tt
    end.

(** A callback handler on the stored collection [data["users"]]: the calls
    made before the record is looked up, then the body on the record of
    [uid], if there is one.  What the handler leaves on disk for [uid] is
    the record of its last [save_data]. *)
Definition run_callback (before : list event) (body : M unit)
    (uid : string) (users : gmap string dict)
  : gmap string dict * list event :=
  match users !! uid with
  | None => (users, before)
  | Some u =>
      let o := body u in
      (<[uid := persisted u (o_trace o)]> users, (before ++ o_trace o)%list)
  end.

Definition cb_taken (now : datetime) :=
  run_callback [Answered false] (cb_taken_user now).
Definition cb_postpone (now : datetime) :=
  run_callback [Answered true] (cb_postpone_user now).
Definition cb_missed_yes :=
  run_callback [Answered false] cb_missed_yes_user.
Definition cb_first_ready (now : datetime) :=
  run_callback [] (cb_first_ready_user now).

(** ** The scheduler ([main.py], lines 538-646) *)

(** [user_local_now], on a reading [utcnow] of the clock. *)
Definition user_local_now (utcnow : datetime) (offset_hours : Z) : result datetime :=
  delta ← mk_timedelta (offset_hours * us_per_hour);
  datetime_add utcnow delta.

Definition user_local_time_str (utcnow : datetime) (offset_hours : Z) : result string :=
  t ← user_local_now utcnow offset_hours; ok (strftime_HM t).

Definition user_local_date_str (utcnow : datetime) (offset_hours : Z) : result string :=
  t ← user_local_now utcnow offset_hours; ok (strftime_Ymd t).

(** Lines 553-565: the completion sweep. *)
Definition completion_sweep : M unit :=
  store "courseCompleted" (VBool true);;
  save;;
  emit (Sent CompletionNotice).

(** Lines 570-587: the morning prompt.  A failed delivery is only logged. *)
Definition morning_check (today_user time_user : string) (day required : Z)
  : M unit :=
  if String.leb "07:59" time_user && String.leb time_user "08:01" then
    u ← read;
    if ne_str (get u "lastMorningMessageDate") today_user then
      store "lastMorningMessageDate" (VStr today_user);;
      save;;
      emit (Sent (MorningPrompt day required (get_interval_hours day)))
    else mret tt
  else mret tt.

(** Lines 589-609: the 21:00 check of missed doses. *)
Definition missed_check (today_user time_user : string) (required : Z)
  : M unit :=
  if String.leb "20:59" time_user && String.leb time_user "21:02" then
    u ← read;
    taken ← lift (as_int (get_or u "takenToday" (VInt 0)));
    let missed := required - taken in
    if (missed >? 0) && ne_str (get u "last21Check") today_user then
      store "last21Check" (VStr today_user);;
      save;;
      emit (Sent (MissedPrompt missed))
    else mret tt
  else mret tt.

(** Lines 615-629 and 630-644, the same text for either timer [key] whose
    value [ts] was read before: inside [try], the stored text is parsed and
    compared with [now_utc] and, when due, the reminder is sent and the
    timer cleared; [except Exception] clears the timer as well.
    [delivered] tells whether [bot.send_message] returns rather than
    raises.  The result is whether [need_save] was set. *)
Definition fire_timer (key : string) (ts : value) (now_utc : datetime)
    (day : Z) (delivered : bool) : M bool :=
  if truthy ts then
    match (dt ← parse_timestamp ts; datetime_ge now_utc dt) with
    | inr true =>
        emit (Sent (DoseReminder day));;
        if delivered then store key VNone;; mret true
        else store key VNone;; mret true
    | inr false => mret false
    | inl _ =>
        store key VNone;;
        mret true
    end
  else mret false.

(** Lines 611-646: the two reminder timers. *)
Definition reminders_due (now_utc : datetime) (day : Z)
    (next_delivered post_delivered : bool) : M unit :=
  need_save ← _migrate_user_reminders;
  u ← read;
  let next_ts := get u "nextReminderTimestamp" in
  let post_ts := get u "postponedReminderTimestamp" in
  s1 ← fire_timer "nextReminderTimestamp" next_ts now_utc day next_delivered;
  s2 ← fire_timer "postponedReminderTimestamp" post_ts now_utc day post_delivered;
  if need_save || s1 || s2 then save else mret tt.

(** The body of the loop of [tick] for one user.  [now_utc] is the reading
    of the clock at the start of the tick, [clock_date] and [clock_time]
    the readings inside [user_local_date_str] and [user_local_time_str]. *)
Definition tick_user (now_utc clock_date clock_time : datetime)
    (next_delivered post_delivered : bool) : M unit :=
  u ← read;
  if truthy (get u "courseCompleted") then mret tt
  else
    match int_of_value (get_or u "timezone" (VInt 0)) with
    | inl _ => mret tt
    | inr tz =>
        today_user ← lift (user_local_date_str clock_date tz);
        time_user ← lift (user_local_time_str clock_time tz);
        day ← lift (as_int (get_or u "currentDay" (VInt 1)));
        if day >? 25 then completion_sweep
        else
          let required := get_required_doses day in
          morning_check today_user time_user day required;;
          missed_check today_user time_user required;;
          reminders_due now_utc day next_delivered post_delivered
    end.

(** ** Definitions used to state the properties *)

(** The schedule as the specification tabulates it: inclusive day ranges
    with their number of doses and interval, and the fallback row. *)
Definition schedule_rows : list (Z * Z * Z * Q) :=
  [ (1, 3, 6, 2.0%Q); (4, 12, 5, 2.5%Q); (13, 16, 4, 3.0%Q);
    (17, 20, 3, 5.0%Q); (21, 25, 2, 12.0%Q) ].

Fixpoint lookup_row (rows : list (Z * Z * Z * Q)) (d : Z) : Z * Q :=
  match rows with
  | [] => (0, 2.0%Q)
  | (lo, hi, doses, interval) :: rest =>
      if (lo <=? d) && (d <=? hi) then (doses, interval)
      else lookup_row rest d
  end.

Definition table_row (d : Z) : Z * Q := lookup_row schedule_rows d.

(** Successive dose events: [_apply_taken] at each instant in turn; the
    result is that of the last call. *)
Fixpoint apply_taken_seq (nows : list datetime) : M (option message) :=
  match nows with
  | [] => mret None
  | [now] => _apply_taken now
  | now :: rest => _apply_taken now;; apply_taken_seq rest
  end.

(** A computation that returns. *)
Definition returns {A} (r : result A) : Prop := ∃ a, r = ok a.

(** A legacy list, when the record has one, is [null] or a list of JSON
    objects. *)
Definition is_dict (v : value) : bool :=
  match v with VDict _ => true | _ => false end.

Definition wf_pending (u : dict) : bool :=
  match u !! "pendingReminders" with
  | None => true
  | Some VNone => true
  | Some (VList l) => forallb is_dict l
  | Some _ => false
  end.

(** The trigger time of a legacy entry, when it has a parseable one. *)
Definition trigger_of (pr : value) : option datetime :=
  match pr with
  | VDict d =>
      let t := get d "triggerAt" in
      if truthy t then
        match parse_timestamp t with
        | inr dt => Some dt
        | inl _ => None
        end
      else None
  | _ => None
  end.

Definition triggers (l : list value) : list datetime := omap trigger_of l.

(** The trigger time of a legacy entry, when [parse] reads one. *)
Definition trigger_with (parse : string → result datetime) (pr : value)
  : option datetime :=
  match pr with
  | VDict d =>
      let t := get d "triggerAt" in
      if truthy t then
        match parse_timestamp_with parse t with
        | inr dt => Some dt
        | inl _ => None
        end
      else None
  | _ => None
  end.

Definition triggers_with (parse : string → result datetime) (l : list value)
  : list datetime := omap (trigger_with parse) l.

(** Two datetimes that Python can order: both naive, or both aware. *)
Definition comparable (a b : datetime) : bool :=
  match tzinfo a, tzinfo b with
  | None, None | Some _, Some _ => true
  | _, _ => false
  end.

(** [dt] is the earliest element of [l]: it is in [l], and every element of
    [l] can be compared with it and is not before it. *)
Definition is_earliest (dt : datetime) (l : list datetime) : Prop :=
  dt ∈ l ∧ ∀ d', d' ∈ l → datetime_lt d' dt = ok false.

(** The value of a text of decimal digits, and the texts made of digits
    only. *)
Definition decimal (zeros : list N) (s : text) : Z :=
  fold_left (fun acc c => 10 * acc + default 0 (todecimal zeros c)) s 0.

Definition all_digits (zeros : list N) (s : text) : bool :=
  forallb (isdecimal zeros) s.

(** [t] is an optionally signed number of one or two digits, of value [h]. *)
Definition whole_hours (zeros : list N) (t : text) (h : Z) : Prop :=
  ∃ sgn body : text,
    t = (sgn ++ body)%list
    ∧ (sgn = [] ∨ sgn = [43%N] ∨ sgn = [45%N])
    ∧ (length body = 1 ∨ length body = 2)%nat
    ∧ all_digits zeros body = true
    ∧ h = if bool_decide (sgn = [45%N]) then - decimal zeros body
          else decimal zeros body.

(** A table of digits in which no white space is a decimal digit, as in
    every version of the Unicode database. *)
Definition digits_ok (zeros : list N) : bool :=
  forallb (λ c, negb (isdecimal zeros c)) whitespace.

(** What one legacy entry with trigger time [dt] does to the running
    earliest trigger time. *)
Definition pick (acc : option datetime) (dt : datetime) : option datetime :=
  match acc with
  | None => Some dt
  | Some e =>
      match datetime_lt dt e with
      | inr true => Some dt
      | _ => acc
      end
  end.

(** The record after the two [setdefault] calls of the upgrade. *)
Definition with_timer_keys (u : dict) : dict :=
  setdefault "postponedReminderTimestamp" VNone
    (setdefault "nextReminderTimestamp" VNone u).

(** A text all of whose characters satisfy [P]. *)
Fixpoint string_forall (P : ascii → bool) (s : string) : bool :=
  match s with
  | EmptyString => true
  | String c r => P c && string_forall P r
  end.

(** The characters of the date and time that [isoformat] writes. *)
Definition iso_char (c : ascii) : bool :=
  is_digit c || Ascii.eqb c "-" || Ascii.eqb c "T" || Ascii.eqb c ":"
  || Ascii.eqb c ".".

Definition time_char (c : ascii) : bool :=
  is_digit c || Ascii.eqb c ":" || Ascii.eqb c ".".

(** The time of day as [isoformat] writes it. *)
Definition time_text (h mi s us : Z) : string :=
  pad 2 h +:+ ":" +:+ pad 2 mi +:+ ":" +:+ pad 2 s
  +:+ (if us =? 0 then EmptyString else "." +:+ pad 6 us).

(** [P] holds of every integer from 0 up to [n], excluded. *)
Definition all_below (P : Z → bool) (n : Z) : bool :=
  fst (Z.iter n (λ st : bool * Z, (fst st && P (snd st), snd st + 1))
         (true, 0)).

(** Whether the day [r] of a 400-year cycle (counted from 0) falls on a
    valid date of the cycle's years 1 to 400, and in a year before the
    last when [r] is within what the last cycle of the calendar holds. *)
Definition cycle_day_ok (r : Z) : bool :=
  let '(y, m, dd) := _ord2ymd (r + 1) in
  (1 <=? y) && (y <=? 400)
  && implb (r <=? 145730) (y <=? 399)
  && (1 <=? m) && (m <=? 12) && (1 <=? dd)
  && (dd <=? _days_in_month y m).

(** ** Sample records and instants *)

(** A record on its last day with one of the two doses taken. *)
Definition last_day_user : dict :=
  <["takenToday" := VInt 1]>
    (<["currentDay" := VInt 25]> (new_user "2025-03-01" 5)).

Definition last_dose_time : datetime := mk_datetime 2025 3 25 18 30 0 0 None.

(** The record of a user who has just completed the course. *)
Definition finished_user : dict :=
  o_state (_apply_taken last_dose_time last_day_user).

(** A record one dose into day 1: [_apply_taken] has set its reminder
    timer, to 12:00 UTC. *)
Definition first_dose_time : datetime := mk_datetime 2025 3 1 10 0 0 0 None.

Definition reminded_user : dict :=
  o_state (_apply_taken first_dose_time (new_user "2025-03-01" 5)).

(** One second before and one second after the timer is due. *)
Definition before_due : datetime := mk_datetime 2025 3 1 11 59 59 0 None.
Definition after_due : datetime := mk_datetime 2025 3 1 12 0 1 0 None.

(** The local time lies in the window 07:59-08:01. *)
Definition morning_window (local : datetime) : Prop :=
  (hour local = 7 ∧ minute local = 59)
  ∨ (hour local = 8 ∧ 0 ≤ minute local ≤ 1).

(** Six dose events on day 1, two hours apart. *)
Definition dose_times : list datetime :=
  [ mk_datetime 2025 3 1 8 0 0 0 None; mk_datetime 2025 3 1 10 0 0 0 None;
    mk_datetime 2025 3 1 12 0 0 0 None; mk_datetime 2025 3 1 14 0 0 0 None;
    mk_datetime 2025 3 1 16 0 0 0 None; mk_datetime 2025 3 1 18 0 0 0 None ].

(** A record on day 4 with two of the five doses taken. *)
Definition behind_user : dict :=
  <["takenToday" := VInt 2]>
    (<["currentDay" := VInt 4]> (new_user "2025-03-01" 5)).

(** A record in the legacy shape, with two pending reminders. *)
Definition legacy_user : dict :=
  <["pendingReminders" :=
      VList [ VDict {[ "triggerAt" := VStr "2025-03-01T14:00:00Z" ]};
              VDict {[ "triggerAt" := VStr "2025-03-01T12:00:00Z" ]} ]]>
    (delete "nextReminderTimestamp"
       (delete "postponedReminderTimestamp" (new_user "2025-03-01" 5))).

(** Two records with the same two legacy reminders, one with a UTC offset
    and one without, in either order; and a record whose legacy list holds
    a number. *)
Definition mixed_legacy_user (aware_first : bool) : dict :=
  let aware := VDict {[ "triggerAt" := VStr "2025-03-01T12:00:00Z" ]} in
  let naive := VDict {[ "triggerAt" := VStr "2025-03-01T09:00:00" ]} in
  <["pendingReminders" :=
      VList (if aware_first then [aware; naive] else [naive; aware])]>
    (delete "nextReminderTimestamp"
       (delete "postponedReminderTimestamp" (new_user "2025-03-01" 5))).

Definition malformed_legacy_user : dict :=
  <["pendingReminders" := VList [VInt 7]]>
    (delete "nextReminderTimestamp"
       (delete "postponedReminderTimestamp" (new_user "2025-03-01" 5))).

(** ** Course progress *)

(** The doses of the days [d] to 25, and what is left of them once [k]
    doses of day [d] are taken. *)
Definition doses_from (d : Z) : Z :=
  fold_right Z.add 0 (get_required_doses <$> seqZ d (26 - d)).

Definition doses_left (d k : Z) : Z := doses_from d - k.

(** A record in the course: on day [d] of 1 to 25 with [k] doses taken,
    fewer than the day requires. *)
Definition in_course (u : dict) (d k : Z) : Prop :=
  as_int (get_or u "currentDay" (VInt 1)) = ok d
  ∧ as_int (get_or u "takenToday" (VInt 0)) = ok k
  ∧ 1 ≤ d ≤ 25 ∧ 0 ≤ k < get_required_doses d.

(** A reading of the clock: a valid naive datetime before the last year of
    the calendar. *)
Definition clock_reading (now : datetime) : Prop :=
  valid_fields now = true ∧ tzinfo now = None ∧ year now ≤ 9998.

(** The local time lies in the window 20:59-21:02. *)
Definition evening_window (local : datetime) : Prop :=
  (hour local = 20 ∧ minute local = 59)
  ∨ (hour local = 21 ∧ 0 ≤ minute local ≤ 2).

(** A record with no legacy list and neither timer set. *)
Definition no_timers (u : dict) : Prop :=
  u !! "pendingReminders" = None
  ∧ truthy (get u "nextReminderTimestamp") = false
  ∧ truthy (get u "postponedReminderTimestamp") = false.

(** ** Dates typed by the user ([main.py], lines 168-177 and 222-225)

    [datetime.strptime] matches the text against the regular expression
    that [Lib/_strptime.py] (here that of CPython 3.11) makes of the
    format, in which [%Y] stands for [\d\d\d\d], [%m] for
    [1[0-2]|0[1-9]|[1-9]] and [%d] for [3[0-1]|[1-2]\d|0[1-9]|[1-9]| [1-9]],
    and reads each group with [int]. *)

(** The literal character [c] of a pattern, at the start of [s]. *)
Definition literal (c : N) (s : text) : option text :=
  match s with
  | c' :: r => if (c =? c')%N then Some r else None
  | [] => None
  end.

(** A character of the class [[lo-hi]] of ASCII digits. *)
Definition ascii_in (lo hi : Z) (c : N) : bool :=
  match ascii_digit c with
  | Some d => (lo <=? d) && (d <=? hi)
  | None => false
  end.

(** The ways [%m] matches at the start of [s], in the order of the
    alternatives of its pattern [1[0-2]|0[1-9]|[1-9]]: the text matched
    and the rest of the text. *)
Definition strptime_month (s : text) : list (text * text) :=
  match s with
  | a :: r =>
      (match r with
       | b :: r' =>
           (if (a =? 49)%N && ascii_in 0 2 b then [([a; b], r')] else [])
           ++ (if (a =? 48)%N && ascii_in 1 9 b then [([a; b], r')] else [])
       | [] => []
       end)
      ++ (if ascii_in 1 9 a then [([a], r)] else [])
  | [] => []
  end%list.

(** [d.strftime("%d-%m-%Y")], the year written with four digits. *)
Definition strftime_dmY (d : datetime) : string :=
  pad 2 (day d) +:+ "-" +:+ pad 2 (month d) +:+ "-" +:+ pad 4 (year d).

Section DateInput.

Variable zeros : list N.

(** [re.match(r"^\d{4}-\d{2}-\d{2}$", s)] *)
Definition match_date (s : text) : bool :=
  match s with
  | y1 :: y2 :: y3 :: y4 :: h1 :: m1 :: m2 :: h2 :: d1 :: d2 :: r =>
      isdecimal zeros y1 && isdecimal zeros y2 && isdecimal zeros y3
      && isdecimal zeros y4 && (h1 =? 45)%N
      && isdecimal zeros m1 && isdecimal zeros m2 && (h2 =? 45)%N
      && isdecimal zeros d1 && isdecimal zeros d2 && at_end r
  | _ => false
  end.

(** The way [%Y] matches at the start of [s]: its pattern is [\d\d\d\d]. *)
Definition strptime_year (s : text) : option (text * text) :=
  match s with
  | a :: b :: c :: d :: r =>
      if isdecimal zeros a && isdecimal zeros b && isdecimal zeros c
         && isdecimal zeros d
      then Some ([a; b; c; d], r) else None
  | _ => None
  end.

(** The way [%d] matches at the start of [s] when it ends the format: the
    first alternative of [3[0-1]|[1-2]\d|0[1-9]|[1-9]| [1-9]] that
    matches. *)
Definition strptime_day (s : text) : option (text * text) :=
  match s with
  | a :: r =>
      let two :=
        match r with
        | b :: r' =>
            if (a =? 51)%N && ascii_in 0 1 b
               || ((a =? 49)%N || (a =? 50)%N) && isdecimal zeros b
               || (a =? 48)%N && ascii_in 1 9 b
            then Some ([a; b], r') else None
        | [] => None
        end in
      match two with
      | Some m => Some m
      | None =>
          if ascii_in 1 9 a then Some ([a], r)
          else if (a =? 32)%N then
            match r with
            | b :: r' => if ascii_in 1 9 b then Some ([a; b], r') else None
            | [] => None
            end
          else None
      end
  | [] => None
  end.

(** The match of the pattern of ["%Y-%m-%d"] at the start of [s]: the
    first way to match the month after which ["-"] and a day follow.
    Returns the texts of the three groups and the text left over. *)
Definition strptime_groups (s : text) : option (text * text * text * text) :=
  '(gy, r) ← strptime_year s;
  r ← literal 45 r;
  head (omap (λ '(gm, r), r ← literal 45 r;
                          '(gd, r) ← strptime_day r;
                          Some (gy, gm, gd, r))
             (strptime_month r)).

(** [datetime.strptime(s, "%Y-%m-%d")]: [ValueError] when the text does
    not match, when text is left over, and when the numbers that [int]
    reads in the groups are not a date of the calendar. *)
Definition strptime_Ymd (s : text) : result datetime :=
  match strptime_groups s with
  | Some (gy, gm, gd, []) =>
      y ← int_text zeros gy;
      m ← int_text zeros gm;
      d ← int_text zeros gd;
      let t := mk_datetime y m d 0 0 0 0 None in
      if valid_fields t then ok t else throw ValueError
  | _ => throw ValueError
  end.

Definition parse_date (s : text) : result (option text) :=
  let s := strip_text s in
  if negb (match_date s) then ok None
  else
    match strptime_Ymd s with
    | inr _ => ok (Some s)
    | inl ValueError => ok None
    | inl e => throw e
    end.

Definition format_date_dd_mm_yyyy (iso_date : text) : result string :=
  d ← strptime_Ymd iso_date; ok (strftime_dmY d).

End DateInput.

(** The text [YYYY-MM-DD] of a date. *)
Definition date_text (y m d : Z) : string :=
  pad 4 y +:+ "-" +:+ pad 2 m +:+ "-" +:+ pad 2 d.

(** A date of the calendar. *)
Definition calendar_date (y m d : Z) : Prop :=
  1 ≤ y ≤ 9999 ∧ 1 ≤ m ≤ 12 ∧ 1 ≤ d ≤ _days_in_month y m.

(** [t] is the text of the date [y]-[m]-[d] as [strptime] reads it behind
    the pattern of [parse_date]: the year in four decimal digits of any
    script, the month in two ASCII digits, and the day in two digits of
    which the first is an ASCII digit, and the second too unless the first
    is 1 or 2. *)
Definition reads_date (zeros : list N) (t : text) (y m d : Z) : Prop :=
  ∃ (ys : text) (m1 m2 a b : N) (vm1 vm2 va vb : Z),
    t = (ys ++ [45; m1; m2; 45; a; b]%N)%list
    ∧ length ys = 4%nat ∧ all_digits zeros ys = true ∧ y = decimal zeros ys
    ∧ ascii_digit m1 = Some vm1 ∧ ascii_digit m2 = Some vm2
    ∧ m = 10 * vm1 + vm2
    ∧ ascii_digit a = Some va ∧ todecimal zeros b = Some vb
    ∧ d = 10 * va + vb
    ∧ (ascii_digit b = Some vb ∨ va = 1 ∨ va = 2).

(** Whether [%d] takes both of two decimal digits, of which the first is
    the ASCII digit [a]. *)
Definition day_taken (a : Z) (d2 : N) : bool :=
  match ascii_digit d2 with
  | Some b => (1 <=? 10 * a + b) && (10 * a + b <=? 31)
  | None => (a =? 1) || (a =? 2)
  end.

(** ** Onboarding ([main.py], lines 119, 228-348 and 466-498)

    [pending_onboarding] maps a user id to the session of the dialogue:
    its step and, once the time zone is known, the offset and the local
    date of that day.  A key that a session does not have is [None];
    reading it with [[]] raises [KeyError].  The handlers are modelled for
    messages of code points below 256, on which the digits of every
    version of the Unicode database are the ASCII ones; they read them
    with the digits of [unicode_zeros]. *)
Record session := Session {
  step : string;
  timezone : option Z;
  today_iso : option string
}.

(** The state of the program between two handlers: the sessions in memory
    and the user records on disk. *)
Record world := World {
  pending_onboarding : gmap string session;
  data_users : gmap string dict
}.

(** What the handlers of the dialogue tell the user: [msg.answer],
    [cq.answer], [cq.message.edit_text], [cq.message.edit_reply_markup]
    and [cq.message.answer], by the text they carry. *)
Inductive reply :=
  | Ack
  | AlreadyCompleted
  | CourseOver
  | AlreadyRegistered (day required : Z) (interval : Q)
  | AskTimezone
  | BadTimezone
  | ConfirmDate (date_display : string)
  | AskDate
  | BadDate
  | FirstDay (date_display : string)
  | SessionExpired
  | MarkupRemoved
  | Accepted
  | Notice (m : message).

Inductive failure := KeyError | Raised (e : exn).

(** The outcome of a handler: the state it leaves, the replies it has
    made, and the exception that ended it, if any. *)
Record reaction := Reaction {
  after : world;
  replies : list reply;
  raised : option failure
}.

Definition cmd_start (uid : string) (w : world) : reaction :=
  match data_users w !! uid with
  | Some u =>
      if truthy (get u "courseCompleted") then Reaction w [AlreadyCompleted] None
      else
        match as_int (get_or u "currentDay" (VInt 1)) with
        | inl e => Reaction w [] (Some (Raised e))
        | inr day =>
            if day >? 25 then Reaction w [CourseOver] None
            else
              Reaction w
                [AlreadyRegistered day (get_required_doses day)
                   (get_interval_hours day)] None
        end
  | None =>
      Reaction
        (World (<[uid := Session "timezone" None None]> (pending_onboarding w))
           (data_users w))
        [AskTimezone] None
  end.

(** [_save_new_user] *)
Definition _save_new_user (uid start_date : string) (tz : Z)
    (users : gmap string dict) : gmap string dict :=
  <[uid := new_user start_date tz]> users.

(** [build_first_day_message], by the date it shows. *)
Definition build_first_day_message (start_date_iso : string) : result reply :=
  date_display ← format_date_dd_mm_yyyy unicode_zeros
                   (text_of_string start_date_iso);
  ok (FirstDay date_display).

(** Lines 294-313 of [on_text]: the answer to the question of the time
    zone.  [now] is the reading of the clock in [user_local_date_str]. *)
Definition on_text_timezone (uid text : string) (now : datetime) (w : world)
  : reaction :=
  match parse_timezone unicode_zeros (text_of_string text) with
  | inl e => Reaction w [] (Some (Raised e))
  | inr None => Reaction w [BadTimezone] None
  | inr (Some tz) =>
      match (today ← user_local_date_str now tz;
             date_display ← format_date_dd_mm_yyyy unicode_zeros
                              (text_of_string today);
             ok (today, date_display)) with
      | inl e => Reaction w [] (Some (Raised e))
      | inr (today, date_display) =>
          Reaction
            (World (<[uid := Session "confirm_date" (Some tz) (Some today)]>
                      (pending_onboarding w))
               (data_users w))
            [ConfirmDate date_display] None
      end
  end.

(** Lines 316-331 of [on_text]: the start date typed by the user. *)
Definition on_text_date (uid text : string) (ss : session) (w : world)
  : reaction :=
  match parse_date unicode_zeros (text_of_string text) with
  | inl e => Reaction w [] (Some (Raised e))
  | inr start_date =>
      match start_date with
      | Some start_date =>
          let start_date := string_of_text start_date in
          if String.eqb start_date EmptyString then Reaction w [BadDate] None
          else
            match timezone ss with
            | None => Reaction w [] (Some KeyError)
            | Some tz =>
                let w' :=
                  World (delete uid (pending_onboarding w))
                    (_save_new_user uid start_date tz (data_users w)) in
                match build_first_day_message start_date with
                | inl e => Reaction w' [] (Some (Raised e))
                | inr m => Reaction w' [m] None
                end
            end
      | None => Reaction w [BadDate] None
      end
  end.

(** Lines 334-345 of [on_text], for a registered user, on the record of
    the user: the result tells whether a dose was recorded, and with which
    completion notice.  [says_taken] tells whether the text contains one
    of [TAKEN_PHRASES]. *)
Definition on_text_user (says_taken : bool) (now : datetime)
  : M (option (option message)) :=
  _migrate_user_reminders;;
  u ← read;
  if negb (truthy (get u "courseCompleted")) && says_taken then
    completion ← _apply_taken now;
    save;;
    mret (Some completion)
  else mret None.

Definition on_text_dose (uid : string) (says_taken : bool) (now : datetime)
    (w : world) : reaction :=
  match data_users w !! uid with
  | Some u =>
      let o := on_text_user says_taken now u in
      let w' :=
        World (pending_onboarding w)
          (<[uid := persisted u (o_trace o)]> (data_users w)) in
      match o_result o with
      | inl e => Reaction w' [] (Some (Raised e))
      | inr None => Reaction w' [] None
      | inr (Some completion) =>
          Reaction w'
            (Accepted :: match completion with
                         | Some m => [Notice m]
                         | None => []
                         end) None
      end
  | None => Reaction w [] None
  end.

(** [on_text]: a text message that is not a command.  [now] is the
    reading of the clock that the branch taken makes, if it makes one. *)
Definition on_text (uid text : string) (says_taken : bool) (now : datetime)
    (w : world) : reaction :=
  let text := strip text in
  match pending_onboarding w !! uid with
  | Some ss =>
      if String.eqb (step ss) "timezone" then on_text_timezone uid text now w
      else if String.eqb (step ss) "optional_date" then on_text_date uid text ss w
      else Reaction w [] None
  | None => on_text_dose uid says_taken now w
  end.

Definition cb_start_confirm_yes (uid : string) (w : world) : reaction :=
  match pending_onboarding w !! uid with
  | Some ss =>
      if negb (String.eqb (step ss) "confirm_date")
      then Reaction w [Ack; SessionExpired] None
      else
        match today_iso ss, timezone ss with
        | Some today, Some tz =>
            let w' :=
              World (delete uid (pending_onboarding w))
                (_save_new_user uid today tz (data_users w)) in
            match build_first_day_message today with
            | inl e => Reaction w' [Ack; MarkupRemoved] (Some (Raised e))
            | inr m => Reaction w' [Ack; MarkupRemoved; m] None
            end
        | _, _ => Reaction w [Ack] (Some KeyError)
        end
  | None => Reaction w [Ack; SessionExpired] None
  end.

Definition cb_start_confirm_no (uid : string) (w : world) : reaction :=
  match pending_onboarding w !! uid with
  | Some ss =>
      if negb (String.eqb (step ss) "confirm_date")
      then Reaction w [Ack; SessionExpired] None
      else
        Reaction
          (World (<[uid := Session "optional_date" (timezone ss) (today_iso ss)]>
                    (pending_onboarding w))
             (data_users w))
          [Ack; MarkupRemoved; AskDate] None
  | None => Reaction w [Ack; SessionExpired] None
  end.

(** A session as the handlers leave it: one that waits for the time zone,
    or one that has an offset within the accepted range and the text of a
    date of the calendar. *)
Definition session_ok (ss : session) : Prop :=
  step ss = "timezone"
  ∨ ((step ss = "confirm_date" ∨ step ss = "optional_date")
     ∧ ∃ tz y m d,
         timezone ss = Some tz ∧ -12 ≤ tz ≤ 14
         ∧ today_iso ss = Some (date_text y m d) ∧ calendar_date y m d).

(** Every session is well-formed and belongs to a user who is not
    registered. *)
Definition world_ok (w : world) : Prop :=
  ∀ uid ss, pending_onboarding w !! uid = Some ss →
            session_ok ss ∧ data_users w !! uid = None.

(** ** The loop of the scheduler ([main.py], lines 538-646) *)

(** What one turn of the loop of [tick] takes from outside: the two
    readings of the clock, in [user_local_date_str] and in
    [user_local_time_str], and whether the reminders get through. *)
Record inputs := Inputs {
  date_clock : datetime;
  time_clock : datetime;
  next_ok : bool;
  post_ok : bool
}.

(** The body of the loop for the user [uid]. *)
Definition tick_user_of (now_utc : datetime) (inp : string → inputs)
    (uid : string) : M unit :=
  tick_user now_utc (date_clock (inp uid)) (time_clock (inp uid))
    (next_ok (inp uid)) (post_ok (inp uid)).

(** The record that the last [save_data] of a trace has written, if the
    trace has one. *)
Fixpoint last_saved (tr : list event) : option dict :=
  match tr with
  | [] => None
  | Saved u :: tr' =>
      match last_saved tr' with
      | Some u' => Some u'
      | None => Some u
      end
  | _ :: tr' => last_saved tr'
  end.

(** A run of [tick]: the user records in memory when it ends, the
    records in [data.json], the messages sent with their addressees, and
    the exception that ended the run, if any. *)
Record tick_run := TickRun {
  in_memory : list (string * dict);
  on_disk : list (string * dict);
  messages : list (string * message);
  outcome_of : result unit
}.

(** [for uid, u in list(users.items())]: the users are served in the
    order of the file.  [done] are the records of the users already
    served, as they are in memory; [save_data] writes them, the record of
    the user being served and the records of the users still to serve.
    An exception ends the loop. *)
Fixpoint tick_loop (now_utc : datetime) (inp : string → inputs)
    (done todo disk : list (string * dict)) : tick_run :=
  match todo with
  | [] => TickRun done disk [] (ok tt)
  | (uid, u) :: rest =>
      let o := tick_user_of now_utc inp uid u in
      let disk' :=
        match last_saved (o_trace o) with
        | Some snapshot => (done ++ (uid, snapshot) :: rest)%list
        | None => disk
        end in
      let msgs := (λ m, (uid, m)) <$> sent (o_trace o) in
      match o_result o with
      | inl e =>
          TickRun (done ++ (uid, o_state o) :: rest)%list disk' msgs (inl e)
      | inr _ =>
          let r :=
            tick_loop now_utc inp (done ++ [(uid, o_state o)])%list rest disk' in
          TickRun (in_memory r) (on_disk r) (msgs ++ messages r)%list
            (outcome_of r)
      end
  end.

Definition tick (now_utc : datetime) (inp : string → inputs)
    (users : list (string * dict)) : tick_run :=
  tick_loop now_utc inp [] users users.

(** What [tick] does to each user when nothing interferes: the record
    after the body of the loop, and the messages of the body. *)
Definition served (now_utc : datetime) (inp : string → inputs)
    (p : string * dict) : string * dict :=
  (p.1, o_state (tick_user_of now_utc inp p.1 p.2)).

Definition messages_of (now_utc : datetime) (inp : string → inputs)
    (p : string * dict) : list (string * message) :=
  (λ m, (p.1, m)) <$> sent (o_trace (tick_user_of now_utc inp p.1 p.2)).

Definition returns_for (now_utc : datetime) (inp : string → inputs)
    (p : string * dict) : Prop :=
  o_result (tick_user_of now_utc inp p.1 p.2) = ok tt.

(** * Properties *)

(** ** The model on sample inputs *)

Example required_doses_samples :
  map get_required_doses [0; 1; 3; 4; 12; 13; 16; 17; 20; 21; 25; 26]
  = [0; 6; 6; 5; 5; 4; 4; 3; 3; 2; 2; 0].
Proof. reflexivity. Qed.

Example strip_sample : strip "  +5 " = "+5".
Proof. reflexivity. Qed.

Example int_samples :
  map py_int ["42"; " -7 "; "+03"; "1_000"; "1__0"; "_1"; ""; "4 2"; "0x10"]
  = [ok 42; ok (-7); ok 3; ok 1000; throw ValueError; throw ValueError;
     throw ValueError; throw ValueError; throw ValueError].
Proof. reflexivity. Qed.

(** [int] and [strip] on characters beyond ASCII: the Arabic-Indic digit
    five, the fullwidth digits one and two, an em space, and the
    information separator that [strip] removes and [int] refuses. *)
Example int_text_samples :
  map (int_text unicode_zeros)
      [[0x665]; [0xFF11; 0xFF12]; [0x2003; 45; 0x667; 0x2003]; [0x1C; 53];
       [0xB2]]%N
  = [ok 5; ok 12; ok (-7); throw ValueError; throw ValueError]
  ∧ strip_text [0x1C; 53; 0x3000]%N = [53%N].
Proof. split; reflexivity. Qed.

Example replace_samples :
  replace "Z" "+00:00" "2025-03-01T12:00:00Z" = "2025-03-01T12:00:00+00:00"
  ∧ replace "+00:00" "Z" "2025-03-01T12:00:00+00:00" = "2025-03-01T12:00:00Z"
  ∧ replace "aa" "b" "aaaaa" = "bba".
Proof. repeat split; reflexivity. Qed.

Example ord2ymd_samples :
  map _ord2ymd [1; 730120; 738945; 739311; _MAXORDINAL]
  = [(1, 1, 1); (2000, 1, 1); (2024, 2, 29); (2025, 3, 1); (9999, 12, 31)].
Proof. reflexivity. Qed.

Example ymd2ord_samples :
  _ymd2ord 1 1 1 = 1 ∧ _ymd2ord 2024 2 29 = 738945
  ∧ _ymd2ord 9999 12 31 = _MAXORDINAL.
Proof. repeat split; reflexivity. Qed.

Example isoformat_samples :
  isoformat (mk_datetime 2025 3 1 9 5 0 0 None) = "2025-03-01T09:05:00"
  ∧ isoformat (mk_datetime 2025 3 1 9 5 0 250 None)
    = "2025-03-01T09:05:00.000250"
  ∧ isoformat (mk_datetime 2025 3 1 9 5 0 0 (Some 0))
    = "2025-03-01T09:05:00+00:00"
  ∧ isoformat (mk_datetime 2025 3 1 9 5 0 0 (Some (-19800000000)))
    = "2025-03-01T09:05:00-05:30".
Proof. repeat split; reflexivity. Qed.

Example fromisoformat_samples :
  fromisoformat "2025-03-01T09:05:00"
  = ok (mk_datetime 2025 3 1 9 5 0 0 None)
  ∧ fromisoformat "2025-03-01T09:05:00.000250+00:00"
    = ok (mk_datetime 2025 3 1 9 5 0 250 (Some 0))
  ∧ fromisoformat "2025-03-01 09:05:00-05:30"
    = ok (mk_datetime 2025 3 1 9 5 0 0 (Some (-19800000000)))
  ∧ fromisoformat "2025-03-01" = ok (mk_datetime 2025 3 1 0 0 0 0 None)
  ∧ fromisoformat "2025-02-29T09:05:00" = throw ValueError
  ∧ fromisoformat "2025-03-01T09:05:00Z" = throw ValueError
  ∧ fromisoformat "tomorrow" = throw ValueError.
Proof. repeat split; reflexivity. Qed.

(** Over midnight and over the end of a leap-year February. *)
Example plus_hours_samples :
  plus_hours (mk_datetime 2025 3 1 23 0 0 0 None) 2.5
  = ok (mk_datetime 2025 3 2 1 30 0 0 None)
  ∧ plus_hours (mk_datetime 2024 2 28 13 0 0 0 None) 12.0
    = ok (mk_datetime 2024 2 29 1 0 0 0 None)
  ∧ plus_hours (mk_datetime 9999 12 31 23 0 0 0 None) 2.0
    = throw OverflowError.
Proof. repeat split; reflexivity. Qed.

Example datetime_order_samples :
  datetime_lt (mk_datetime 2025 3 1 9 0 0 0 None)
              (mk_datetime 2025 3 1 9 0 0 1 None) = ok true
  ∧ datetime_ge (mk_datetime 2025 3 1 12 0 0 0 (Some 7200000000))
                (mk_datetime 2025 3 1 10 0 0 0 (Some 0)) = ok true
  ∧ datetime_ge (mk_datetime 2025 3 1 12 0 0 0 None)
                (mk_datetime 2025 3 1 10 0 0 0 (Some 0)) = throw TypeError.
Proof. repeat split; reflexivity. Qed.

Example parse_timezone_samples :
  map (λ s, parse_timezone unicode_zeros (text_of_string s))
      ["+5"; "-7"; "+03"; " 14 "; "-12"; "0"; "15"; "-13"; "+05:30"; "5:00";
       "+-3"; "123"; "UTC"; ""]
  = [ok (Some 5); ok (Some (-7)); ok (Some 3); ok (Some 14); ok (Some (-12));
     ok (Some 0); ok None; ok None; ok None; ok None; ok None; ok None;
     ok None; ok None].
Proof. reflexivity. Qed.

(** Offsets in the digits of other scripts: Arabic-Indic 5, fullwidth 12,
    a signed Arabic-Indic 5, ASCII 1 with Arabic-Indic 5 (15, out of
    range), and a superscript two, which is no decimal digit. *)
Example parse_timezone_unicode_samples :
  map (parse_timezone unicode_zeros)
      [[0x665]; [0xFF11; 0xFF12]; [43; 0x665]; [49; 0x665]; [0xB2]]%N
  = [ok (Some 5); ok (Some 12); ok (Some 5); ok None; ok None].
Proof. reflexivity. Qed.

(** The record of a new user, one dose later. *)
Example first_dose_sample :
  map (get reminded_user)
      ["currentDay"; "takenToday"; "lastDoseTimestamp";
       "nextReminderTimestamp"; "postponedReminderTimestamp";
       "courseCompleted"]
  = [VInt 1; VInt 1; VStr "2025-03-01T10:00:00Z";
     VStr "2025-03-01T12:00:00Z"; VNone; VBool false].
Proof. vm_compute. reflexivity. Qed.

(** The upgrade of the sample legacy record. *)
Example migrate_sample :
  let o := _migrate_user_reminders legacy_user in
  o_result o = ok true
  ∧ map (λ k : string, o_state o !! k)
        ["pendingReminders"; "nextReminderTimestamp";
         "postponedReminderTimestamp"; "currentDay"]
    = [None; Some (VStr "2025-03-01T12:00:00Z"); Some VNone; Some (VInt 1)].
Proof. vm_compute. split; reflexivity. Qed.

(** A morning tick for a new user in UTC+5: the prompt is sent and the
    date recorded. *)
Example morning_tick_sample :
  let clock := mk_datetime 2025 3 2 3 0 0 0 None in
  let o := tick_user clock clock clock true true (new_user "2025-03-01" 5) in
  sent (o_trace o) = [MorningPrompt 1 6 2.0%Q]
  ∧ get (o_state o) "lastMorningMessageDate" = VStr "2025-03-02".
Proof. vm_compute. split; reflexivity. Qed.

(** An evening tick for a user who is two doses short. *)
Example evening_tick_sample :
  let clock := mk_datetime 2025 3 4 16 0 0 0 None in
  let o := tick_user clock clock clock true true behind_user in
  sent (o_trace o) = [MissedPrompt 3]
  ∧ get (o_state o) "last21Check" = VStr "2025-03-04".
Proof. vm_compute. split; reflexivity. Qed.

(** A tick that finds a record past day 25 completes the course. *)
Example completion_tick_sample :
  let clock := mk_datetime 2025 3 26 12 0 0 0 None in
  let o := tick_user clock clock clock true true
             (<["currentDay" := VInt 26]> (new_user "2025-03-01" 5)) in
  sent (o_trace o) = [CompletionNotice]
  ∧ get (o_state o) "courseCompleted" = VBool true.
Proof. vm_compute. split; reflexivity. Qed.

(** A timer whose text is naive, as a legacy record may hold, fires when
    due and not before. *)
Example naive_timer_sample :
  let u := <["nextReminderTimestamp" := VStr "2025-03-01T12:00:00"]>
             (new_user "2025-03-01" 5) in
  (let o := tick_user before_due before_due before_due true true u in
   sent (o_trace o) = []
   ∧ get (o_state o) "nextReminderTimestamp" = VStr "2025-03-01T12:00:00")
  ∧ (let o := tick_user after_due after_due after_due true true u in
     sent (o_trace o) = [DoseReminder 1]
     ∧ get (o_state o) "nextReminderTimestamp" = VNone)
  ∧ (let o := tick_user after_due after_due after_due false true u in
     sent (o_trace o) = [DoseReminder 1]
     ∧ get (o_state o) "nextReminderTimestamp" = VNone).
Proof. vm_compute. repeat split; reflexivity. Qed.

(** ** Running the monad *)

Lemma outcome_eta {A} (o : outcome A) :
  Outcome (o_state o) (o_trace o) (o_result o) = o.
Proof. by destruct o. Qed.

Lemma bind_ret {A B} (a : A) (f : A → M B) u : (mret a ≫= f) u = f a u.
Proof. unfold mbind, M_bind, mret, M_ret; simpl. apply outcome_eta. Qed.

Lemma bind_read {B} (f : dict → M B) u : (read ≫= f) u = f u u.
Proof. unfold mbind, M_bind, read; simpl. apply outcome_eta. Qed.

Lemma bind_modify {B} g (f : unit → M B) u : (modify g ≫= f) u = f tt (g u).
Proof. unfold mbind, M_bind, modify; simpl. apply outcome_eta. Qed.

Lemma bind_store {B} k v (f : unit → M B) u :
  (store k v ≫= f) u = f tt (<[k:=v]> u).
Proof. apply bind_modify. Qed.

Lemma bind_del {B} k (f : unit → M B) u : (del k ≫= f) u = f tt (delete k u).
Proof. apply bind_modify. Qed.

Lemma bind_lift_ok {A B} (a : A) (f : A → M B) u : (lift (ok a) ≫= f) u = f a u.
Proof. unfold mbind, M_bind, lift; simpl. apply outcome_eta. Qed.

Lemma bind_lift_throw {A B} e (f : A → M B) u :
  (lift (throw e) ≫= f) u = Outcome u [] (inl e).
Proof. reflexivity. Qed.

Lemma bind_emit {B} e (f : unit → M B) u :
  (emit e ≫= f) u
  = Outcome (o_state (f tt u)) (e :: o_trace (f tt u)) (o_result (f tt u)).
Proof. reflexivity. Qed.

Lemma bind_save {B} (f : unit → M B) u :
  (save ≫= f) u
  = Outcome (o_state (f tt u)) (Saved u :: o_trace (f tt u)) (o_result (f tt u)).
Proof. reflexivity. Qed.

Lemma bind_assoc {A B C} (m : M A) (f : A → M B) (g : B → M C) u :
  ((m ≫= f) ≫= g) u = (m ≫= (λ a, f a ≫= g)) u.
Proof.
  unfold mbind, M_bind. destruct (m u) as [u1 t1 [e|a]]; simpl; [done|].
  destruct (f a u1) as [u2 t2 [e|b]]; simpl; [done|].
  by rewrite app_assoc.
Qed.

(** A computation that returned, followed by another. *)
Lemma bind_outcome {A B} (m : M A) (f : A → M B) u u' tr a :
  m u = Outcome u' tr (ok a) →
  (m ≫= f) u
  = Outcome (o_state (f a u')) (tr ++ o_trace (f a u')) (o_result (f a u')).
Proof. intros H. unfold mbind, M_bind. by rewrite H. Qed.

Lemma bind_raised {A B} (m : M A) (f : A → M B) u u' tr e :
  m u = Outcome u' tr (inl e) → (m ≫= f) u = Outcome u' tr (inl e).
Proof. intros H. unfold mbind, M_bind. by rewrite H. Qed.

Lemma get_or_insert_eq (u : dict) k v d : get_or (<[k:=v]> u) k d = v.
Proof. unfold get_or. by rewrite lookup_insert_eq. Qed.

Lemma get_or_insert_ne (u : dict) k k' v d :
  k' ≠ k → get_or (<[k':=v]> u) k d = get_or u k d.
Proof. intros. unfold get_or. by rewrite lookup_insert_ne. Qed.

Lemma get_insert_eq (u : dict) k v : get (<[k:=v]> u) k = v.
Proof. unfold get. by rewrite lookup_insert_eq. Qed.

Lemma get_insert_ne (u : dict) k k' v : k' ≠ k → get (<[k':=v]> u) k = get u k.
Proof. intros. unfold get. by rewrite lookup_insert_ne. Qed.

Ltac dict_simpl :=
  repeat first
    [ rewrite get_or_insert_eq | rewrite get_insert_eq
    | rewrite get_or_insert_ne by done | rewrite get_insert_ne by done ].

Ltac step :=
  first [ rewrite bind_read | rewrite bind_store | rewrite bind_del
        | rewrite bind_modify | rewrite bind_lift_ok | rewrite bind_ret
        | rewrite bind_assoc ].

Ltac steps := repeat (step; dict_simpl).

(** ** The dosing schedule table *)

(** Settles the integer tests of the goal that [lia] decides. *)
Ltac decide_tests :=
  repeat match goal with
         | |- context [?a <? ?b] =>
             first [ rewrite (proj2 (Z.ltb_lt a b)) by lia
                   | rewrite (proj2 (Z.ltb_ge a b)) by lia ]
         | |- context [?a <=? ?b] =>
             first [ rewrite (proj2 (Z.leb_le a b)) by lia
                   | rewrite (proj2 (Z.leb_gt a b)) by lia ]
         | |- context [?a >? ?b] => rewrite (Z.gtb_ltb a b)
         | |- context [?a >=? ?b] => rewrite (Z.geb_leb a b)
         end.

(** C2.  For every integer day, the number of doses and the interval are
    those of the table of the specification: (6, 2.0) on days 1-3,
    (5, 2.5) on days 4-12, (4, 3.0) on days 13-16, (3, 5.0) on days 17-20,
    (2, 12.0) on days 21-25 and the fallback (0, 2.0) elsewhere; the number
    of doses is positive exactly on days 1 to 25 and zero exactly outside,
    and the interval is always positive. *)
Theorem schedule_table (d : Z) :
  (get_required_doses d, get_interval_hours d) = table_row d
  ∧ (0 < get_required_doses d ↔ 1 ≤ d ≤ 25)
  ∧ (get_required_doses d = 0 ↔ (d < 1 ∨ 25 < d))
  ∧ (0 < get_interval_hours d)%Q.
Proof.
  assert (Hd : d < 1 ∨ 1 ≤ d ≤ 3 ∨ 4 ≤ d ≤ 12 ∨ 13 ≤ d ≤ 16 ∨ 17 ≤ d ≤ 20
               ∨ 21 ≤ d ≤ 25 ∨ 25 < d) by lia.
  unfold get_required_doses, get_interval_hours, table_row, schedule_rows,
    lookup_row.
  decompose [or] Hd; clear Hd; decide_tests; simpl;
    (split; [reflexivity | split; [lia | split; [lia | reflexivity]]]).
Qed.
(** ** Dose events *)

(** The step of [_apply_taken] when the dose does not complete the day. *)
Lemma apply_taken_same_day (u : dict) (now t : datetime) (d k : Z) :
  as_int (get_or u "currentDay" (VInt 1)) = ok d →
  as_int (get_or u "takenToday" (VInt 0)) = ok k →
  k + 1 < get_required_doses d →
  d ≤ 25 →
  plus_hours now (get_interval_hours d) = ok t →
  _apply_taken now u
  = Outcome
      (<["nextReminderTimestamp" := stamp t]>
       (<["postponedReminderTimestamp" := VNone]>
       (<["nextReminderTimestamp" := VNone]>
       (<["lastDoseTimestamp" := stamp now]>
       (<["takenToday" := VInt (k + 1)]> u)))))
      [] (ok None).
Proof.
  intros Hd Hk Hlt Hlast Ht.
  unfold _apply_taken.
  step. rewrite Hk. steps. rewrite Hd. step.
  decide_tests. steps. rewrite Hd. step. decide_tests.
  cbv zeta. rewrite Ht. steps. reflexivity.
Qed.

(** The step of [_apply_taken] when the dose completes a day before the
    last. *)
Lemma apply_taken_next_day (u : dict) (now t : datetime) (d k : Z) :
  as_int (get_or u "currentDay" (VInt 1)) = ok d →
  as_int (get_or u "takenToday" (VInt 0)) = ok k →
  get_required_doses d ≤ k + 1 →
  d + 1 ≤ 25 →
  plus_hours now (get_interval_hours (d + 1)) = ok t →
  _apply_taken now u
  = Outcome
      (<["nextReminderTimestamp" := stamp t]>
       (<["lastMorningMessageDate" := VNone]>
       (<["takenToday" := VInt 0]>
       (<["currentDay" := VInt (d + 1)]>
       (<["postponedReminderTimestamp" := VNone]>
       (<["nextReminderTimestamp" := VNone]>
       (<["lastDoseTimestamp" := stamp now]>
       (<["takenToday" := VInt (k + 1)]> u))))))))
      [] (ok None).
Proof.
  intros Hd Hk Hge Hlast Ht.
  unfold _apply_taken.
  step. rewrite Hk. steps. rewrite Hd. step.
  decide_tests. steps. simpl as_int. step. decide_tests.
  cbv zeta. rewrite Ht. steps. reflexivity.
Qed.

(** The step of [_apply_taken] when the dose completes the last day, or the
    record is already past it. *)
Lemma apply_taken_completes (u : dict) (now : datetime) (d k : Z) :
  as_int (get_or u "currentDay" (VInt 1)) = ok d →
  as_int (get_or u "takenToday" (VInt 0)) = ok k →
  get_required_doses d ≤ k + 1 →
  25 < d + 1 →
  _apply_taken now u
  = Outcome
      (<["courseCompleted" := VBool true]>
       (<["lastMorningMessageDate" := VNone]>
       (<["takenToday" := VInt 0]>
       (<["currentDay" := VInt (d + 1)]>
       (<["postponedReminderTimestamp" := VNone]>
       (<["nextReminderTimestamp" := VNone]>
       (<["lastDoseTimestamp" := stamp now]>
       (<["takenToday" := VInt (k + 1)]> u))))))))
      [] (ok (Some CompletionNotice)).
Proof.
  intros Hd Hk Hge Hlast.
  unfold _apply_taken.
  step. rewrite Hk. steps. rewrite Hd. step.
  decide_tests. steps. simpl as_int. step. decide_tests.
  steps. reflexivity.
Qed.

Lemma get_or_lookup (u : dict) k v d : u !! k = Some v → get_or u k d = v.
Proof. intros H. unfold get_or. by rewrite H. Qed.

Lemma get_lookup (u : dict) k v : u !! k = Some v → get u k = v.
Proof. intros H. unfold get. by rewrite H. Qed.

(** C5.  From a record on day 25 with one dose taken (two are required)
    and the course not completed, one dose event moves the record to day
    26, marks the course completed, leaves no reminder timer and returns
    the completion notice. *)
Theorem last_dose_completes (u : dict) (now : datetime) :
  u !! "currentDay" = Some (VInt 25) →
  u !! "takenToday" = Some (VInt 1) →
  truthy (get u "courseCompleted") = false →
  get_required_doses 25 = 2
  ∧ o_result (_apply_taken now u) = ok (Some CompletionNotice)
  ∧ get (o_state (_apply_taken now u)) "currentDay" = VInt 26
  ∧ get (o_state (_apply_taken now u)) "courseCompleted" = VBool true
  ∧ get (o_state (_apply_taken now u)) "nextReminderTimestamp" = VNone.
Proof.
  intros Hd Hk _.
  rewrite (apply_taken_completes u now 25 1);
    [ | by rewrite (get_or_lookup _ _ _ _ Hd)
      | by rewrite (get_or_lookup _ _ _ _ Hk) | done | done ].
  simpl. dict_simpl. done.
Qed.

(** C6.  For a record whose course is not completed, postponing stores the
    given instant plus 15 minutes in postponedReminderTimestamp, saves, and
    changes no other field; nextReminderTimestamp in particular is as it
    was, so both timers can be pending together. *)
Theorem postpone_sets_only_postponed (u : dict) (now t : datetime) :
  truthy (get u "courseCompleted") = false →
  plus_minutes now 15 = ok t →
  let u' := <["postponedReminderTimestamp" := stamp t]> u in
  cb_postpone_user now u = Outcome u' [Saved u'; Edited NotePostponed] (ok tt)
  ∧ (∀ k, k ≠ "postponedReminderTimestamp" → u' !! k = u !! k)
  ∧ u' !! "nextReminderTimestamp" = u !! "nextReminderTimestamp".
Proof.
  intros Hc Ht u'. split; [| split].
  - unfold cb_postpone_user. step. rewrite Hc, Ht. steps.
    rewrite bind_save. reflexivity.
  - intros k Hk. unfold u'. by rewrite lookup_insert_ne.
  - unfold u'. by rewrite lookup_insert_ne.
Qed.

(** C3, as the code has it.  From a record on day 1 with no dose taken
    (six are required) and the course not completed, six successive dose
    events leave the record on day 2 with no dose taken, and the next
    reminder due 2.0 hours after the sixth event, the interval of day 2. *)
Theorem six_doses_day_one (u : dict) (n1 n2 n3 n4 n5 n6 t : datetime) :
  u !! "currentDay" = Some (VInt 1) →
  u !! "takenToday" = Some (VInt 0) →
  truthy (get u "courseCompleted") = false →
  returns (plus_hours n1 2.0) → returns (plus_hours n2 2.0) →
  returns (plus_hours n3 2.0) → returns (plus_hours n4 2.0) →
  returns (plus_hours n5 2.0) →
  plus_hours n6 2.0 = ok t →
  let o := apply_taken_seq [n1; n2; n3; n4; n5; n6] u in
  get_required_doses 1 = 6
  ∧ o_result o = ok None
  ∧ get (o_state o) "currentDay" = VInt 2
  ∧ get (o_state o) "takenToday" = VInt 0
  ∧ get (o_state o) "nextReminderTimestamp" = stamp t.
Proof.
  intros Hd Hk _ [t1 H1] [t2 H2] [t3 H3] [t4 H4] [t5 H5] H6 o.
  assert (Hd' : as_int (get_or u "currentDay" (VInt 1)) = ok 1)
    by (rewrite (get_or_lookup _ _ _ _ Hd); reflexivity).
  assert (Hk' : as_int (get_or u "takenToday" (VInt 0)) = ok 0)
    by (rewrite (get_or_lookup _ _ _ _ Hk); reflexivity).
  assert (R1 : get_required_doses 1 = 6) by reflexivity.
  assert (I1 : get_interval_hours 1 = 2.0%Q) by reflexivity.
  assert (I2 : get_interval_hours (1 + 1) = 2.0%Q) by reflexivity.
  unfold o, apply_taken_seq.
  erewrite bind_outcome;
    [| apply (apply_taken_same_day _ _ t1 1 0);
       [exact Hd' | exact Hk' | rewrite R1; lia | lia | rewrite I1; exact H1]].
  erewrite bind_outcome;
    [| apply (apply_taken_same_day _ _ t2 1 1);
       [dict_simpl; exact Hd' | dict_simpl; reflexivity | rewrite R1; lia | lia
       | rewrite I1; exact H2]].
  erewrite bind_outcome;
    [| apply (apply_taken_same_day _ _ t3 1 2);
       [dict_simpl; exact Hd' | dict_simpl; reflexivity | rewrite R1; lia | lia
       | rewrite I1; exact H3]].
  erewrite bind_outcome;
    [| apply (apply_taken_same_day _ _ t4 1 3);
       [dict_simpl; exact Hd' | dict_simpl; reflexivity | rewrite R1; lia | lia
       | rewrite I1; exact H4]].
  erewrite bind_outcome;
    [| apply (apply_taken_same_day _ _ t5 1 4);
       [dict_simpl; exact Hd' | dict_simpl; reflexivity | rewrite R1; lia | lia
       | rewrite I1; exact H5]].
  rewrite (apply_taken_next_day _ n6 t 1 5);
    [ | dict_simpl; exact Hd' | dict_simpl; reflexivity | rewrite R1; lia | lia
      | rewrite I2; exact H6].
  cbn [o_state o_result o_trace]. dict_simpl.
  repeat split; reflexivity.
Qed.

(** ** Legacy records *)

Lemma lookup_setdefault_ne (u : dict) k k' v :
  k ≠ k' → setdefault k v u !! k' = u !! k'.
Proof.
  intros Hk. unfold setdefault. destruct (u !! k); [done|].
  by rewrite lookup_insert_ne.
Qed.

Lemma get_setdefault (u : dict) k k' : get (setdefault k VNone u) k' = get u k'.
Proof.
  unfold setdefault, get. destruct (u !! k) eqn:E; [done|].
  destruct (decide (k = k')) as [<-|Hne].
  - by rewrite lookup_insert_eq, E.
  - by rewrite lookup_insert_ne.
Qed.

Lemma lookup_setdefault_is_Some (u : dict) k v : is_Some (setdefault k v u !! k).
Proof.
  unfold setdefault. destruct (u !! k) eqn:E.
  - rewrite E. eauto.
  - rewrite lookup_insert_eq. eauto.
Qed.

Lemma setdefault_id (u : dict) k v : is_Some (u !! k) → setdefault k v u = u.
Proof. intros [x Hx]. unfold setdefault. by rewrite Hx. Qed.

Lemma get_with_timer_keys (u : dict) k : get (with_timer_keys u) k = get u k.
Proof. unfold with_timer_keys. by rewrite !get_setdefault. Qed.

Lemma lookup_with_timer_keys (u : dict) k :
  k ≠ "nextReminderTimestamp" → k ≠ "postponedReminderTimestamp" →
  with_timer_keys u !! k = u !! k.
Proof.
  intros H1 H2. unfold with_timer_keys.
  by rewrite !lookup_setdefault_ne.
Qed.

Lemma with_timer_keys_next (u : dict) :
  with_timer_keys u !! "nextReminderTimestamp"
  = Some (get u "nextReminderTimestamp").
Proof.
  unfold with_timer_keys. rewrite lookup_setdefault_ne by done.
  unfold setdefault, get.
  destruct (u !! "nextReminderTimestamp") eqn:E.
  - by rewrite E.
  - by rewrite lookup_insert_eq.
Qed.

Lemma with_timer_keys_post (u : dict) :
  with_timer_keys u !! "postponedReminderTimestamp"
  = Some (get u "postponedReminderTimestamp").
Proof.
  unfold with_timer_keys, setdefault at 1.
  rewrite lookup_setdefault_ne by done. unfold get.
  destruct (u !! "postponedReminderTimestamp") eqn:E.
  - by rewrite lookup_setdefault_ne, E.
  - by rewrite lookup_insert_eq.
Qed.

Lemma with_timer_keys_idem (u : dict) :
  with_timer_keys (with_timer_keys u) = with_timer_keys u.
Proof.
  unfold with_timer_keys at 1.
  rewrite (setdefault_id (with_timer_keys u) "nextReminderTimestamp")
    by (rewrite with_timer_keys_next; eauto).
  apply setdefault_id. rewrite with_timer_keys_post; eauto.
Qed.

(** The upgrade starts with the two [setdefault] calls. *)
Lemma migrate_unfold (u : dict) :
  _migrate_user_reminders u
  = (let u1 := with_timer_keys u in
     if negb (contains u1 "pendingReminders")
        || negb (truthy (get u1 "pendingReminders")) then
       if contains u1 "pendingReminders" then
         Outcome (delete "pendingReminders" u1) [] (ok true)
       else Outcome u1 [] (ok false)
     else if truthy (get u1 "nextReminderTimestamp") then
       Outcome (delete "pendingReminders" u1) [] (ok true)
     else
       (pending ← lift (iter_values (get u1 "pendingReminders"));
        earliest ← lift (earliest_loop None pending);
        match earliest with
        | Some dt =>
            store "nextReminderTimestamp"
              (VStr (replace "+00:00" "Z" (isoformat dt)))
        | None => mret tt
        end;;
        store "postponedReminderTimestamp" VNone;;
        del "pendingReminders";;
        mret true) u1).
Proof.
  unfold _migrate_user_reminders. rewrite !bind_modify, bind_read.
  fold (with_timer_keys u). cbv zeta.
  destruct (negb (contains _ _) || negb (truthy _)).
  - destruct (contains _ _); [|done]. by rewrite bind_del.
  - destruct (truthy _); [|done]. by rewrite bind_del.
Qed.

(** A record without a legacy list only gains the two timer keys. *)
Lemma migrate_absent (u : dict) :
  u !! "pendingReminders" = None →
  _migrate_user_reminders u = Outcome (with_timer_keys u) [] (ok false).
Proof.
  intros H. rewrite migrate_unfold. cbv zeta. unfold contains.
  by rewrite lookup_with_timer_keys, H.
Qed.

(** An empty or null legacy list is removed. *)
Lemma migrate_falsy (u : dict) v :
  u !! "pendingReminders" = Some v → truthy v = false →
  _migrate_user_reminders u
  = Outcome (delete "pendingReminders" (with_timer_keys u)) [] (ok true).
Proof.
  intros H Hv. rewrite migrate_unfold. cbv zeta. unfold contains.
  rewrite get_with_timer_keys, (get_lookup _ _ _ H), Hv.
  by rewrite lookup_with_timer_keys, H.
Qed.

(** A timer that is already set is kept and the legacy list removed. *)
Lemma migrate_kept (u : dict) v :
  u !! "pendingReminders" = Some v → truthy v = true →
  truthy (get u "nextReminderTimestamp") = true →
  _migrate_user_reminders u
  = Outcome (delete "pendingReminders" (with_timer_keys u)) [] (ok true).
Proof.
  intros H Hv Hn. rewrite migrate_unfold. cbv zeta. unfold contains.
  rewrite !get_with_timer_keys, (get_lookup _ _ _ H), Hv, Hn.
  by rewrite lookup_with_timer_keys, H.
Qed.

(** The upgrade proper, for a list of entries whose loop returns. *)
Lemma migrate_upgraded (u : dict) l e :
  u !! "pendingReminders" = Some (VList l) → l ≠ [] →
  truthy (get u "nextReminderTimestamp") = false →
  earliest_loop None l = ok e →
  _migrate_user_reminders u
  = Outcome
      (delete "pendingReminders"
         (<["postponedReminderTimestamp" := VNone]>
            (match e with
             | Some dt =>
                 <["nextReminderTimestamp" :=
                     VStr (replace "+00:00" "Z" (isoformat dt))]>
                   (with_timer_keys u)
             | None => with_timer_keys u
             end)))
      [] (ok true).
Proof.
  intros H Hl Hn He. rewrite migrate_unfold. cbv zeta. unfold contains.
  rewrite !get_with_timer_keys, (get_lookup _ _ _ H), Hn.
  rewrite lookup_with_timer_keys, H by done.
  destruct l as [|x l]; [done|]. cbn [truthy negb orb].
  cbn [iter_values]. rewrite bind_lift_ok, He, bind_lift_ok.
  destruct e; steps; reflexivity.
Qed.

(** One turn of the loop on a JSON object. *)
Lemma earliest_step_dict (acc : option datetime) (d : dict) :
  earliest_step acc (VDict d)
  = ok (match trigger_of (VDict d) with
        | Some dt => pick acc dt
        | None => acc
        end).
Proof.
  unfold earliest_step, trigger_of, pick.
  destruct (truthy (get d "triggerAt")); simpl; [|done].
  destruct (parse_timestamp (get d "triggerAt")) as [e|dt]; simpl; [done|].
  destruct acc as [e|]; [|done].
  destruct (datetime_lt dt e) as [x|[]]; done.
Qed.

(** On a list of JSON objects the loop returns, and folds [pick] over the
    parseable trigger times. *)
Lemma earliest_loop_fold (l : list value) (acc : option datetime) :
  forallb is_dict l = true →
  earliest_loop acc l = ok (fold_left pick (triggers l) acc).
Proof.
  revert acc. induction l as [|pr l IH]; intros acc Hl; [done|].
  simpl in Hl. apply andb_true_iff in Hl as [Hpr Hl].
  destruct pr; try discriminate.
  cbn [earliest_loop]. rewrite earliest_step_dict.
  unfold triggers. cbn [omap list_omap]. fold (omap trigger_of l).
  fold (triggers l).
  change (mbind ?f (ok ?x)) with (f x). cbv beta.
  rewrite (IH _ Hl).
  destruct (trigger_of (VDict d)); reflexivity.
Qed.

(** The outcome of the upgrade on a well-formed record, case by case. *)
Lemma migrate_wf_cases (u : dict) :
  wf_pending u = true →
  (u !! "pendingReminders" = None
   ∧ _migrate_user_reminders u = Outcome (with_timer_keys u) [] (ok false))
  ∨ (∃ v, u !! "pendingReminders" = Some v
          ∧ (truthy v = false ∨ truthy (get u "nextReminderTimestamp") = true)
          ∧ _migrate_user_reminders u
            = Outcome (delete "pendingReminders" (with_timer_keys u)) []
                (ok true))
  ∨ (∃ l, u !! "pendingReminders" = Some (VList l) ∧ l ≠ []
          ∧ truthy (get u "nextReminderTimestamp") = false
          ∧ _migrate_user_reminders u
            = Outcome
                (delete "pendingReminders"
                   (<["postponedReminderTimestamp" := VNone]>
                      (match fold_left pick (triggers l) None with
                       | Some dt =>
                           <["nextReminderTimestamp" :=
                               VStr (replace "+00:00" "Z" (isoformat dt))]>
                             (with_timer_keys u)
                       | None => with_timer_keys u
                       end)))
                [] (ok true)).
Proof.
  unfold wf_pending. intros Hwf.
  destruct (u !! "pendingReminders") as [v|] eqn:Hp.
  - right. destruct v as [| | | |l|]; try discriminate.
    + left. exists VNone. split; [done|]. split; [by left|].
      by apply (migrate_falsy u VNone).
    + destruct l as [|x l].
      * left. exists (VList []). split; [done|]. split; [by left|].
        by apply (migrate_falsy u (VList [])).
      * destruct (truthy (get u "nextReminderTimestamp")) eqn:Hn.
        -- left. exists (VList (x :: l)). split; [done|]. split; [by right|].
           by apply (migrate_kept u (VList (x :: l))).
        -- right. exists (x :: l). split; [done|]. split; [done|].
           split; [done|].
           apply (migrate_upgraded u (x :: l)); [done..|].
           by apply earliest_loop_fold.
  - left. split; [done|]. by apply migrate_absent.
Qed.

Lemma with_timer_keys_id (s : dict) :
  is_Some (s !! "nextReminderTimestamp") →
  is_Some (s !! "postponedReminderTimestamp") →
  with_timer_keys s = s.
Proof.
  intros Hn Hp. unfold with_timer_keys.
  rewrite (setdefault_id s "nextReminderTimestamp") by done.
  by apply setdefault_id.
Qed.

(** A record that has both timer keys and no legacy list is left as it
    is. *)
Lemma migrate_nothing_to_do (s : dict) :
  is_Some (s !! "nextReminderTimestamp") →
  is_Some (s !! "postponedReminderTimestamp") →
  s !! "pendingReminders" = None →
  _migrate_user_reminders s = Outcome s [] (ok false).
Proof.
  intros Hn Hp Hl. rewrite (migrate_absent s Hl).
  by rewrite with_timer_keys_id.
Qed.

Lemma earliest_loop_with_model (l : list value) (acc : option datetime) :
  earliest_loop_with fromisoformat acc l = earliest_loop acc l.
Proof.
  revert acc. induction l as [|pr l IH]; intros acc; [done|].
  cbn [earliest_loop_with earliest_loop].
  change (earliest_step_with fromisoformat acc pr) with (earliest_step acc pr).
  destruct (earliest_step acc pr) as [e|e]; [done|]. apply IH.
Qed.

(** [_migrate_user_reminders] is the upgrade at the model of
    [fromisoformat]. *)
Lemma migrate_with_model (u : dict) :
  migrate_with fromisoformat u = _migrate_user_reminders u.
Proof.
  unfold migrate_with, _migrate_user_reminders.
  rewrite !bind_modify, !bind_read.
  destruct (negb (contains _ _) || negb (truthy _)); [done|].
  destruct (truthy _); [done|].
  destruct (iter_values _) as [e|l]; [done|].
  rewrite !bind_lift_ok. by rewrite earliest_loop_with_model.
Qed.

Lemma datetime_lt_comparable (a b : datetime) :
  datetime_lt a b
  = if comparable a b
    then ok (match tzinfo a, tzinfo b with
             | Some oa, Some ob => wall_us a - oa <? wall_us b - ob
             | _, _ => wall_us a <? wall_us b
             end)
    else throw TypeError.
Proof.
  unfold datetime_lt, datetime_cmp, comparable.
  destruct (tzinfo a), (tzinfo b); cbn; try reflexivity;
    rewrite Z.ltb_compare; by destruct (_ ?= _).
Qed.

Lemma comparable_refl (a : datetime) : comparable a a = true.
Proof. unfold comparable. by destruct (tzinfo a). Qed.

Lemma comparable_trans (a b c : datetime) :
  comparable a b = true → comparable b c = true → comparable a c = true.
Proof. unfold comparable. by destruct (tzinfo a), (tzinfo b), (tzinfo c). Qed.

Lemma comparable_sym (a b : datetime) : comparable a b = comparable b a.
Proof. unfold comparable. by destruct (tzinfo a), (tzinfo b). Qed.

(** The order on comparable datetimes: not before itself, and a datetime
    not after a second that is not after a third is not after the third. *)
Lemma datetime_lt_refl_false (a : datetime) : datetime_lt a a = ok false.
Proof.
  rewrite datetime_lt_comparable, comparable_refl.
  destruct (tzinfo a); by rewrite Z.ltb_irrefl.
Qed.

Lemma datetime_ge_trans (a b c : datetime) :
  datetime_lt b a = ok false → datetime_lt c b = ok false →
  datetime_lt c a = ok false.
Proof.
  rewrite !datetime_lt_comparable. unfold comparable.
  destruct (tzinfo a), (tzinfo b), (tzinfo c); try discriminate;
    intros [= H1] [= H2]; f_equal; lia.
Qed.

(** One turn of the loop on a JSON object. *)
Lemma earliest_step_with_dict parse (acc : option datetime) (d : dict) :
  earliest_step_with parse acc (VDict d)
  = ok (match trigger_with parse (VDict d) with
        | Some dt => pick acc dt
        | None => acc
        end).
Proof.
  unfold earliest_step_with, trigger_with, pick.
  destruct (truthy (get d "triggerAt")); simpl; [|done].
  destruct (parse_timestamp_with parse (get d "triggerAt")) as [e|dt];
    simpl; [done|].
  destruct acc as [e|]; [|done].
  destruct (datetime_lt dt e) as [x|[]]; done.
Qed.

(** The loop returns exactly on a list of JSON objects, and then folds
    [pick] over the trigger times that [parse] reads. *)
Lemma earliest_loop_with_fold parse (l : list value) (acc : option datetime) :
  forallb is_dict l = true →
  earliest_loop_with parse acc l
  = ok (fold_left pick (triggers_with parse l) acc).
Proof.
  revert acc. induction l as [|pr l IH]; intros acc Hl; [done|].
  simpl in Hl. apply andb_true_iff in Hl as [Hpr Hl].
  destruct pr; try discriminate.
  cbn [earliest_loop_with]. rewrite earliest_step_with_dict.
  unfold triggers_with. cbn [omap list_omap].
  fold (omap (trigger_with parse) l). fold (triggers_with parse l).
  change (mbind ?f (ok ?x)) with (f x). cbv beta.
  rewrite (IH _ Hl).
  destruct (trigger_with parse (VDict d)); reflexivity.
Qed.

Lemma earliest_loop_with_returns parse (l : list value) acc r :
  earliest_loop_with parse acc l = ok r → forallb is_dict l = true.
Proof.
  revert acc. induction l as [|pr l IH]; intros acc; [done|].
  cbn [earliest_loop_with forallb].
  destruct pr as [| | | | |d]; try (cbn; discriminate).
  rewrite earliest_step_with_dict.
  change (mbind ?f (ok ?x)) with (f x). cbv beta.
  intros H. by rewrite (IH _ H).
Qed.

(** The running value of the loop is the earliest of the trigger times
    seen so far that can be compared with the first one. *)
Lemma fold_pick_earliest (t0 : datetime) (ts seen : list datetime)
    (e : datetime) :
  is_earliest e (filter (λ d, comparable t0 d) seen) →
  ∃ e', fold_left pick ts (Some e) = Some e'
        ∧ is_earliest e' (filter (λ d, comparable t0 d) (seen ++ ts)%list).
Proof.
  revert seen e. induction ts as [|dt ts IH]; intros seen e He.
  - exists e. by rewrite app_nil_r.
  - cbn [fold_left].
    assert (Hnext : ∃ e1, pick (Some e) dt = Some e1
              ∧ is_earliest e1 (filter (λ d, comparable t0 d) (seen ++ [dt])%list)).
    { destruct He as [Hin Hmin].
      assert (Hce : comparable t0 e = true).
      { apply list_elem_of_filter in Hin as [Hc _]. by apply Is_true_true. }
      unfold pick. rewrite datetime_lt_comparable.
      destruct (comparable dt e) eqn:Hc.
      - assert (Hcd : comparable t0 dt = true).
        { apply (comparable_trans _ e); [done|]. by rewrite comparable_sym. }
        pose proof (datetime_lt_comparable dt e) as Hlt. rewrite Hc in Hlt.
        destruct (match tzinfo dt, tzinfo e with
                  | Some oa, Some ob => wall_us dt - oa <? wall_us e - ob
                  | _, _ => wall_us dt <? wall_us e
                  end) eqn:Hb.
        + (* [dt] is strictly before [e] *)
          exists dt. split; [done|]. rewrite filter_app. split.
          * apply elem_of_app. right. apply list_elem_of_filter.
            split; [by apply Is_true_true|]. set_solver.
          * intros d' [Hd'|Hd']%elem_of_app.
            -- apply (datetime_ge_trans dt e d'); [|by apply Hmin].
               rewrite datetime_lt_comparable. rewrite comparable_sym, Hc.
               f_equal. unfold comparable in Hc.
               destruct (tzinfo dt), (tzinfo e); try discriminate; lia.
            -- apply list_elem_of_filter in Hd' as [_ Hd'].
               apply list_elem_of_singleton in Hd' as ->.
               apply datetime_lt_refl_false.
        + exists e. split; [done|]. rewrite filter_app. split.
          * apply elem_of_app. by left.
          * intros d' [Hd'|Hd']%elem_of_app; [by apply Hmin|].
            apply list_elem_of_filter in Hd' as [_ Hd'].
            apply list_elem_of_singleton in Hd' as ->. by rewrite Hlt.
      - (* [dt] cannot be compared with [e], nor with [t0] *)
        assert (Hcd : comparable t0 dt = false).
        { destruct (comparable t0 dt) eqn:Hcd; [|done].
          rewrite <- Hc. symmetry. apply (comparable_trans _ t0); [|done].
          by rewrite comparable_sym. }
        exists e. split; [done|]. rewrite filter_app.
        replace (filter (λ d, comparable t0 d) [dt]) with (@nil datetime).
        + by rewrite app_nil_r.
        + rewrite filter_cons, decide_False; [done|].
          rewrite Hcd. by intros []. }
    destruct Hnext as (e1 & -> & He1).
    destruct (IH _ _ He1) as (e' & Hf & He').
    exists e'. split; [done|]. by rewrite <- app_assoc in He'.
Qed.

(** The loop keeps the earliest of the trigger times read that can be
    compared with the first one, and nothing when none is read. *)
Lemma fold_pick_spec (ts : list datetime) :
  match ts with
  | [] => fold_left pick ts None = None
  | t0 :: _ =>
      ∃ e, fold_left pick ts None = Some e
           ∧ is_earliest e (filter (λ d, comparable t0 d) ts)
  end.
Proof.
  destruct ts as [|dt ts]; [done|]. cbn [fold_left pick].
  destruct (fold_pick_earliest dt ts [dt] dt) as (e' & -> & He').
  - rewrite filter_cons, decide_True by (rewrite comparable_refl; done).
    split; [set_solver|].
    intros d' ->%list_elem_of_singleton. apply datetime_lt_refl_false.
  - by exists e'.
Qed.

(** When all the trigger times read can be compared, none is left out. *)
Lemma filter_comparable_all (t0 : datetime) (ts : list datetime) :
  (∀ a b, a ∈ t0 :: ts → b ∈ t0 :: ts → comparable a b = true) →
  filter (λ d, comparable t0 d) (t0 :: ts) = t0 :: ts.
Proof.
  intros Hall.
  assert (H : ∀ l : list datetime,
             (∀ d, d ∈ l → comparable t0 d = true) →
             filter (λ d, comparable t0 d) l = l).
  { induction l as [|d l IH]; intros Hl; [done|].
    rewrite filter_cons_True by (rewrite Hl; [done|set_solver]).
    f_equal. apply IH. intros d' Hd'. apply Hl. set_solver. }
  apply H. intros d Hd. apply Hall; [by left|done].
Qed.

Lemma migrate_with_unfold parse (u : dict) :
  migrate_with parse u
  = (let u1 := with_timer_keys u in
     if negb (contains u1 "pendingReminders")
        || negb (truthy (get u1 "pendingReminders")) then
       if contains u1 "pendingReminders" then
         Outcome (delete "pendingReminders" u1) [] (ok true)
       else Outcome u1 [] (ok false)
     else if truthy (get u1 "nextReminderTimestamp") then
       Outcome (delete "pendingReminders" u1) [] (ok true)
     else
       (pending ← lift (iter_values (get u1 "pendingReminders"));
        earliest ← lift (earliest_loop_with parse None pending);
        match earliest with
        | Some dt =>
            store "nextReminderTimestamp"
              (VStr (replace "+00:00" "Z" (isoformat dt)))
        | None => mret tt
        end;;
        store "postponedReminderTimestamp" VNone;;
        del "pendingReminders";;
        mret true) u1).
Proof.
  unfold migrate_with. rewrite !bind_modify, bind_read.
  fold (with_timer_keys u). cbv zeta.
  destruct (negb (contains _ _) || negb (truthy _)).
  - destruct (contains _ _); [|done]. by rewrite bind_del.
  - destruct (truthy _); [|done]. by rewrite bind_del.
Qed.

(** A record with both timer keys and no legacy list is left as it is. *)
Lemma migrate_with_nothing_to_do parse (s : dict) :
  is_Some (s !! "nextReminderTimestamp") →
  is_Some (s !! "postponedReminderTimestamp") →
  s !! "pendingReminders" = None →
  migrate_with parse s = Outcome s [] (ok false).
Proof.
  intros Hn Hp Hl. rewrite migrate_with_unfold. cbv zeta.
  rewrite with_timer_keys_id by done. unfold contains. by rewrite Hl.
Qed.

(** The ways the upgrade ends, on any record and whatever the library
    parses. *)
Lemma migrate_with_cases parse (u : dict) :
  (u !! "pendingReminders" = None
   ∧ migrate_with parse u = Outcome (with_timer_keys u) [] (ok false))
  ∨ (∃ v, u !! "pendingReminders" = Some v
          ∧ (truthy v = false ∨ truthy (get u "nextReminderTimestamp") = true)
          ∧ migrate_with parse u
            = Outcome (delete "pendingReminders" (with_timer_keys u)) []
                (ok true))
  ∨ (∃ l, u !! "pendingReminders" = Some (VList l) ∧ l ≠ []
          ∧ forallb is_dict l = true
          ∧ truthy (get u "nextReminderTimestamp") = false
          ∧ migrate_with parse u
            = Outcome
                (delete "pendingReminders"
                   (<["postponedReminderTimestamp" := VNone]>
                      (match fold_left pick (triggers_with parse l) None with
                       | Some dt =>
                           <["nextReminderTimestamp" :=
                               VStr (replace "+00:00" "Z" (isoformat dt))]>
                             (with_timer_keys u)
                       | None => with_timer_keys u
                       end)))
                [] (ok true))
  ∨ (∃ e v, u !! "pendingReminders" = Some v
            ∧ wf_pending u = false
            ∧ truthy v = true
            ∧ truthy (get u "nextReminderTimestamp") = false
            ∧ migrate_with parse u = Outcome (with_timer_keys u) [] (throw e)).
Proof.
  rewrite migrate_with_unfold. cbv zeta. unfold contains, wf_pending.
  rewrite lookup_with_timer_keys, !get_with_timer_keys by done.
  destruct (u !! "pendingReminders") as [v|] eqn:Hp;
    [rewrite (get_lookup _ _ _ Hp)
    |replace (get u "pendingReminders") with VNone
       by (unfold get; by rewrite Hp)];
    cbn [negb orb truthy]; [|by left].
  right.
  destruct (truthy v) eqn:Hv; cbn [negb];
    [|left; exists v; split; [done|]; split; [by left|done]].
  destruct (truthy (get u "nextReminderTimestamp")) eqn:Hn;
    [left; exists v; split; [done|]; split; [by right|done]|].
  right.
  destruct (iter_values v) as [e|l] eqn:Hl.
  - right. exists e, v. split; [done|].
    split; [|done].
    destruct v; try done; discriminate Hl.
  - rewrite bind_lift_ok.
    destruct (earliest_loop_with parse None l) as [e|r] eqn:Hloop.
    + right. exists e, v. split; [done|]. split; [|done].
      destruct v as [| | | |l'|]; try done.
      cbn in Hl. injection Hl as <-.
      destruct (forallb is_dict l') eqn:Hd; [|done].
      by rewrite (earliest_loop_with_fold parse l' None Hd) in Hloop.
    + pose proof (earliest_loop_with_returns _ _ _ _ Hloop) as Hd.
      destruct v as [| | |s|l'|d]; try discriminate Hl.
      * (* a text: its characters are not objects *)
        cbn in Hl. injection Hl as <-. destruct s as [|c s]; [done|].
        discriminate Hd.
      * cbn in Hl. injection Hl as Hl. subst l'.
        left. exists l. split; [done|]. split; [by destruct l|].
        split; [done|]. split; [done|].
        rewrite (earliest_loop_with_fold parse l None Hd) in Hloop.
        injection Hloop as <-. rewrite bind_lift_ok.
        destruct (fold_left pick _ None); steps; reflexivity.
      * (* an object: its keys are not objects *)
        cbn in Hl. injection Hl as <-.
        destruct (map_to_list d) as [|[k x] rest] eqn:Hm.
        -- apply map_to_list_empty_iff in Hm. subst d. done.
        -- discriminate Hd.
Qed.

(** C9.  Whatever texts [datetime.fromisoformat] accepts, the upgrade calls
    no collaborator; it returns on every record whose legacy list, if any,
    is null or a list of JSON objects; and whenever it returns, no
    pendingReminders key is left.  When it returns on a record that had no
    nextReminderTimestamp and a non-empty list, postponedReminderTimestamp
    becomes null and nextReminderTimestamp becomes the ISO text of the
    earliest of the parseable triggerAt that can be compared with the first
    parseable one, that is, of those that have a UTC offset when the first
    has one and of those that have none when it has none: every such
    trigger time compares as not before the one stored (the timer stays as
    it was when no entry is parseable).  When all the parseable trigger
    times can be compared, that is the earliest of them all.  A
    nextReminderTimestamp that was set is kept.  Applied again, the
    upgrade changes nothing and returns False.  [_migrate_user_reminders]
    is the upgrade at the model of [fromisoformat]. *)
Theorem migrate_user_reminders_spec (parse : string → result datetime)
    (u : dict) :
  let o := migrate_with parse u in
  o_trace o = []
  ∧ (wf_pending u = true → returns (o_result o))
  ∧ (returns (o_result o) →
     o_state o !! "pendingReminders" = None
     ∧ (∀ l, u !! "pendingReminders" = Some (VList l) → l ≠ [] →
             truthy (get u "nextReminderTimestamp") = false →
             get (o_state o) "postponedReminderTimestamp" = VNone
             ∧ match triggers_with parse l with
               | [] => get (o_state o) "nextReminderTimestamp"
                       = get u "nextReminderTimestamp"
               | t0 :: ts =>
                   ∃ dt,
                     is_earliest dt (filter (λ d, comparable t0 d) (t0 :: ts))
                     ∧ ((∀ a b, a ∈ t0 :: ts → b ∈ t0 :: ts →
                                comparable a b = true) →
                        is_earliest dt (t0 :: ts))
                     ∧ get (o_state o) "nextReminderTimestamp"
                       = VStr (replace "+00:00" "Z" (isoformat dt))
               end)
     ∧ (truthy (get u "nextReminderTimestamp") = true →
        get (o_state o) "nextReminderTimestamp"
        = get u "nextReminderTimestamp")
     ∧ migrate_with parse (o_state o) = Outcome (o_state o) [] (ok false))
  ∧ migrate_with fromisoformat u = _migrate_user_reminders u.
Proof.
  intros o. unfold o.
  split.
  { destruct (migrate_with_cases parse u)
      as [[_ ->] | [(v & _ & _ & ->) | [(l & _ & _ & _ & _ & ->)
         | (e & v & _ & _ & _ & _ & ->)]]]; done. }
  split.
  { intros Hwf.
    destruct (migrate_with_cases parse u)
      as [[_ ->] | [(v & _ & _ & ->) | [(l & _ & _ & _ & _ & ->)
         | (e & v & _ & Hnwf & _)]]]; cbn [o_result];
      [by exists false|by exists true|by exists true|congruence]. }
  split; [|apply migrate_with_model].
  destruct (migrate_with_cases parse u)
    as [[Hp ->] | [(v & Hp & Hv & ->) | [(l & Hp & Hl & Hd & Hn & ->)
       | (e & v & _ & _ & _ & _ & ->)]]];
    cbn [o_state o_trace o_result]; intros Hret.
  - split; [by rewrite lookup_with_timer_keys|].
    split; [intros l Hl; congruence|].
    split; [intros _; apply get_with_timer_keys|].
    apply migrate_with_nothing_to_do.
    + rewrite with_timer_keys_next. eauto.
    + rewrite with_timer_keys_post. eauto.
    + by rewrite lookup_with_timer_keys.
  - split; [apply lookup_delete_eq|].
    split.
    { intros l Hl Hne Hn. destruct Hv as [Hv|Hv]; [|congruence].
      rewrite Hp in Hl. injection Hl as ->. by destruct l. }
    split.
    { intros _. unfold get. rewrite lookup_delete_ne by done.
      apply get_with_timer_keys. }
    apply migrate_with_nothing_to_do.
    + rewrite lookup_delete_ne, with_timer_keys_next by done. eauto.
    + rewrite lookup_delete_ne, with_timer_keys_post by done. eauto.
    + apply lookup_delete_eq.
  - split; [apply lookup_delete_eq|].
    pose proof (fold_pick_spec (triggers_with parse l)) as Hspec.
    split.
    { intros l' Hl' _ _. rewrite Hp in Hl'. injection Hl' as <-.
      split.
      - unfold get. rewrite lookup_delete_ne by done.
        by rewrite lookup_insert_eq.
      - destruct (triggers_with parse l) as [|t0 ts] eqn:Hts.
        + rewrite Hspec. unfold get at 1.
          rewrite lookup_delete_ne, lookup_insert_ne by done.
          by rewrite with_timer_keys_next.
        + destruct Hspec as (dt & -> & He).
          exists dt. split; [done|].
          split; [intros Hall; by rewrite filter_comparable_all in He|].
          unfold get.
          rewrite lookup_delete_ne, lookup_insert_ne by done.
          by rewrite lookup_insert_eq. }
    split; [intros Hn'; congruence|].
    apply migrate_with_nothing_to_do.
    + rewrite lookup_delete_ne, lookup_insert_ne by done.
      destruct (fold_left pick (triggers_with parse l) None).
      * rewrite lookup_insert_eq. eauto.
      * rewrite with_timer_keys_next. eauto.
    + rewrite lookup_delete_ne, lookup_insert_eq by done. eauto.
    + apply lookup_delete_eq.
  - destruct Hret as [b Hb]. discriminate Hb.
Qed.


(** ** Missed-dose resolution *)

(** The upgrade calls no collaborator, whatever the record. *)
Lemma migrate_silent (u : dict) : o_trace (_migrate_user_reminders u) = [].
Proof.
  rewrite migrate_unfold. cbv zeta.
  destruct (negb (contains _ _) || negb (truthy _)).
  { by destruct (contains _ _). }
  destruct (truthy _); [done|].
  destruct (iter_values (get (with_timer_keys u) "pendingReminders"))
    as [e|l]; [done|].
  rewrite bind_lift_ok.
  destruct (earliest_loop None l) as [e|[dt|]]; [done|..];
    rewrite bind_lift_ok; steps; reflexivity.
Qed.

(** The upgrade touches the two timers and the legacy list only, whatever
    the record, and also when it raises. *)
Lemma migrate_frame (u : dict) (k : string) :
  k ≠ "nextReminderTimestamp" → k ≠ "postponedReminderTimestamp" →
  k ≠ "pendingReminders" →
  o_state (_migrate_user_reminders u) !! k = u !! k.
Proof.
  intros H1 H2 H3. rewrite migrate_unfold. cbv zeta.
  destruct (negb (contains _ _) || negb (truthy _)).
  { destruct (contains _ _); cbn [o_state];
      rewrite ?lookup_delete_ne by done; by apply lookup_with_timer_keys. }
  destruct (truthy _).
  { cbn [o_state]. rewrite lookup_delete_ne by done.
    by apply lookup_with_timer_keys. }
  destruct (iter_values (get (with_timer_keys u) "pendingReminders"))
    as [e|l]; [by apply lookup_with_timer_keys|].
  rewrite bind_lift_ok.
  destruct (earliest_loop None l) as [e|[dt|]];
    [by apply lookup_with_timer_keys|..];
    rewrite bind_lift_ok; steps; cbn [mret M_ret o_state];
    rewrite lookup_delete_ne, ?lookup_insert_ne by done;
    by apply lookup_with_timer_keys.
Qed.

Lemma migrate_frame_get (u : dict) (k : string) :
  k ≠ "nextReminderTimestamp" → k ≠ "postponedReminderTimestamp" →
  k ≠ "pendingReminders" →
  get (o_state (_migrate_user_reminders u)) k = get u k.
Proof. intros. unfold get. by rewrite migrate_frame. Qed.

Lemma migrate_frame_get_or (u : dict) (k : string) dflt :
  k ≠ "nextReminderTimestamp" → k ≠ "postponedReminderTimestamp" →
  k ≠ "pendingReminders" →
  get_or (o_state (_migrate_user_reminders u)) k dflt = get_or u k dflt.
Proof. intros. unfold get_or. by rewrite migrate_frame. Qed.

Lemma migrate_returns (u : dict) :
  wf_pending u = true → returns (o_result (_migrate_user_reminders u)).
Proof.
  intros Hwf.
  destruct (migrate_wf_cases u Hwf)
    as [[_ ->] | [(v & _ & _ & ->) | (l & _ & _ & _ & ->)]];
    cbn [o_result]; unfold returns; eauto.
Qed.

(** The upgrade as a first step: on a well-formed record it returns, and
    the rest runs on the upgraded record. *)
Lemma migrate_then {B} (f : bool → M B) (u : dict) :
  wf_pending u = true →
  ∃ b, (_migrate_user_reminders ≫= f) u
       = f b (o_state (_migrate_user_reminders u)).
Proof.
  intros Hwf.
  pose proof (migrate_silent u) as Htr.
  destruct (migrate_returns u Hwf) as [b Hb].
  destruct (_migrate_user_reminders u) as [s tr r] eqn:E.
  cbn [o_state o_trace o_result] in *. subst tr r.
  exists b.
  rewrite (bind_outcome _ _ _ _ _ _ E). cbn [app]. apply outcome_eta.
Qed.

(** [cb_missed_yes], lines 445-450, on any record with integer counters. *)
Lemma missed_top_up_outcome (s : dict) (d k : Z) :
  as_int (get_or s "currentDay" (VInt 1)) = ok d →
  as_int (get_or s "takenToday" (VInt 0)) = ok k →
  missed_top_up s
  = Outcome
      (<["takenToday" := VInt (get_required_doses d)]>
         (<["postponedReminderTimestamp" := VNone]>
            (<["nextReminderTimestamp" := VNone]> s)))
      [] (ok (d, get_required_doses d)).
Proof.
  intros Hd Hk.
  unfold missed_top_up. steps. rewrite Hd. steps. rewrite Hk. steps.
  replace (k + (get_required_doses d - k)) with (get_required_doses d)
    by lia.
  reflexivity.
Qed.

(** What [cb_missed_yes] does to any record it does not fail on: the
    count is topped up to the requirement of the day, both timers are
    cleared, and the day advances. *)
Lemma missed_yes_outcome (u : dict) (d k : Z) :
  wf_pending u = true →
  as_int (get_or u "currentDay" (VInt 1)) = ok d →
  as_int (get_or u "takenToday" (VInt 0)) = ok k →
  let u1 := <["takenToday" := VInt (get_required_doses d)]>
              (<["postponedReminderTimestamp" := VNone]>
                 (<["nextReminderTimestamp" := VNone]>
                    (o_state (_migrate_user_reminders u)))) in
  let u2 := <["lastMorningMessageDate" := VNone]>
              (<["takenToday" := VInt 0]>
                 (<["currentDay" := VInt (d + 1)]> u1)) in
  (_migrate_user_reminders;; missed_top_up) u
  = Outcome u1 [] (ok (d, get_required_doses d))
  ∧ cb_missed_yes_user u
    = Outcome u2 [Saved u2; Edited NoteMissedDone] (ok tt).
Proof.
  intros Hwf Hd Hk u1 u2.
  assert (Etop : missed_top_up (o_state (_migrate_user_reminders u))
                 = Outcome u1 [] (ok (d, get_required_doses d))).
  { apply (missed_top_up_outcome _ d k);
      by rewrite migrate_frame_get_or. }
  split.
  - destruct (migrate_then (λ _, missed_top_up) u Hwf) as (b & ->).
    exact Etop.
  - unfold cb_missed_yes_user.
    destruct (migrate_then
                (λ _, '(day, required) ← missed_top_up;
                      missed_advance day required;; save;;
                      emit (Edited NoteMissedDone)) u Hwf) as (b & ->).
    rewrite (bind_outcome _ _ _ _ _ _ Etop). cbn [app].
    rewrite outcome_eta.
    unfold missed_advance. steps.
    replace (get u1 "takenToday") with (VInt (get_required_doses d))
      by (unfold u1; by rewrite get_insert_eq).
    cbn [as_int]. steps. decide_tests. steps.
    rewrite bind_save. reflexivity.
Qed.

(** C4.  For a record whose course is not completed and whose count of
    the day is below the requirement, the missed-dose resolution first
    clears both reminder timers and tops the count up to exactly the
    requirement of the current day, the day being still the same; then it
    advances the day by one, resets the count to 0 and clears
    lastMorningMessageDate; it saves that record with nextReminderTimestamp
    still null. *)
Theorem missed_resolution_tops_up (u : dict) (d k : Z) :
  wf_pending u = true →
  truthy (get u "courseCompleted") = false →
  as_int (get_or u "currentDay" (VInt 1)) = ok d →
  as_int (get_or u "takenToday" (VInt 0)) = ok k →
  k < get_required_doses d →
  ∃ u1 u2 : dict,
    (_migrate_user_reminders;; missed_top_up) u
    = Outcome u1 [] (ok (d, get_required_doses d))
    ∧ get u1 "takenToday" = VInt (get_required_doses d)
    ∧ get_or u1 "currentDay" (VInt 1) = get_or u "currentDay" (VInt 1)
    ∧ get u1 "nextReminderTimestamp" = VNone
    ∧ get u1 "postponedReminderTimestamp" = VNone
    ∧ cb_missed_yes_user u
      = Outcome u2 [Saved u2; Edited NoteMissedDone] (ok tt)
    ∧ u2 = <["lastMorningMessageDate" := VNone]>
             (<["takenToday" := VInt 0]>
                (<["currentDay" := VInt (d + 1)]> u1))
    ∧ get u2 "currentDay" = VInt (d + 1)
    ∧ get u2 "takenToday" = VInt 0
    ∧ get u2 "lastMorningMessageDate" = VNone
    ∧ get u2 "nextReminderTimestamp" = VNone
    ∧ get u2 "postponedReminderTimestamp" = VNone.
Proof.
  intros Hwf _ Hd Hk _.
  destruct (missed_yes_outcome u d k Hwf Hd Hk) as [H1 H2].
  match type of H1 with _ = Outcome ?a _ _ => exists a end.
  match type of H2 with _ = Outcome ?a _ _ => exists a end.
  split; [exact H1|].
  dict_simpl. rewrite migrate_frame_get_or by done.
  split; [done|]. split; [done|]. split; [done|]. split; [done|].
  split; [exact H2|]. done.
Qed.

(** ** Completed courses *)

(** A handler body that starts with the upgrade and then returns at once
    for a completed course makes no call, whatever the record. *)
Lemma completed_guard_silent (rest : M unit) (u : dict) :
  truthy (get u "courseCompleted") = true →
  o_trace ((_migrate_user_reminders;;
            u' ← read;
            if truthy (get u' "courseCompleted") then mret tt else rest) u)
  = [].
Proof.
  intros Hc.
  pose proof (migrate_silent u) as Htr.
  pose proof (migrate_frame_get u "courseCompleted") as Hfr.
  destruct (_migrate_user_reminders u) as [s tr [e|b]] eqn:E;
    cbn [o_state o_trace] in *; subst tr.
  - by rewrite (bind_raised _ _ _ _ _ _ E).
  - rewrite (bind_outcome _ _ _ _ _ _ E). cbn [o_trace app].
    rewrite bind_read, Hfr, Hc by done. reflexivity.
Qed.

Lemma run_callback_silent (before : list event) (body : M unit)
    (uid : string) (users : gmap string dict) (u : dict) :
  users !! uid = Some u → o_trace (body u) = [] →
  run_callback before body uid users = (users, before).
Proof.
  intros Hu Htr. unfold run_callback. rewrite Hu, Htr. cbn [persisted].
  by rewrite insert_id, app_nil_r.
Qed.

(** For a completed course, "dose taken" only acknowledges the button. *)
Lemma cb_taken_completed (now : datetime) (uid : string)
    (users : gmap string dict) (u : dict) :
  users !! uid = Some u → truthy (get u "courseCompleted") = true →
  cb_taken now uid users = (users, [Answered false]).
Proof.
  intros Hu Hc. apply (run_callback_silent _ _ _ _ u Hu).
  by apply completed_guard_silent.
Qed.

(** For a completed course, "remind later" leaves the record as it is and
    sends or edits no message; the button is answered with its popup text,
    which the handler shows before it looks at the record. *)
Lemma cb_postpone_completed (now : datetime) (uid : string)
    (users : gmap string dict) (u : dict) :
  users !! uid = Some u → truthy (get u "courseCompleted") = true →
  cb_postpone now uid users = (users, [Answered true]).
Proof.
  intros Hu Hc. apply (run_callback_silent _ _ _ _ u Hu).
  unfold cb_postpone_user. by rewrite bind_read, Hc.
Qed.

Lemma cb_first_ready_completed (now : datetime) (uid : string)
    (users : gmap string dict) (u : dict) :
  users !! uid = Some u → truthy (get u "courseCompleted") = true →
  cb_first_ready now uid users = (users, []).
Proof.
  intros Hu Hc. apply (run_callback_silent _ _ _ _ u Hu).
  by apply completed_guard_silent.
Qed.

(** The scheduler skips a completed course. *)
Lemma tick_user_completed (now_utc clock_date clock_time : datetime)
    (next_delivered post_delivered : bool) (u : dict) :
  truthy (get u "courseCompleted") = true →
  tick_user now_utc clock_date clock_time next_delivered post_delivered u
  = Outcome u [] (ok tt).
Proof. intros Hc. unfold tick_user. by rewrite bind_read, Hc. Qed.

(** [cb_missed_yes] does not look at courseCompleted: on a completed
    record as on any other it advances the day, saves and edits the
    message. *)
Lemma cb_missed_yes_ignores_completion (uid : string)
    (users : gmap string dict) (u : dict) (d k : Z) :
  users !! uid = Some u →
  wf_pending u = true →
  truthy (get u "courseCompleted") = true →
  as_int (get_or u "currentDay" (VInt 1)) = ok d →
  as_int (get_or u "takenToday" (VInt 0)) = ok k →
  ∃ u2, cb_missed_yes uid users
        = (<[uid := u2]> users,
           [Answered false; Saved u2; Edited NoteMissedDone])
        ∧ get u2 "currentDay" = VInt (d + 1).
Proof.
  intros Hu Hwf _ Hd Hk.
  destruct (missed_yes_outcome u d k Hwf Hd Hk) as [_ H2].
  match type of H2 with _ = Outcome ?a _ _ => exists a end.
  split.
  - unfold cb_missed_yes, run_callback. rewrite Hu, H2. reflexivity.
  - by dict_simpl.
Qed.

(** C1, where the code departs from it.  The record of a user who has
    just completed the course has courseCompleted true and is on day 26;
    pressing "yes" on an earlier missed-dose prompt saves a different
    record, on day 27, and edits the message. *)
Theorem missed_yes_mutates_completed :
  let users : gmap string dict := {[ "42" := finished_user ]} in
  let after := cb_missed_yes "42" users in
  truthy (get finished_user "courseCompleted") = true
  ∧ get finished_user "currentDay" = VInt 26
  ∧ (λ u : dict, get u "currentDay") <$> (after.1 !! "42") = Some (VInt 27)
  ∧ after.1 !! "42" ≠ users !! "42"
  ∧ (∃ u2, after.2 = [Answered false; Saved u2; Edited NoteMissedDone]).
Proof.
  intros users after.
  split; [vm_compute; reflexivity|]. split; [vm_compute; reflexivity|].
  split; [vm_compute; reflexivity|].
  split.
  - intros H.
    apply (f_equal (fmap (λ u : dict, get u "currentDay"))) in H.
    vm_compute in H. discriminate.
  - unfold after, cb_missed_yes, run_callback, users.
    rewrite lookup_singleton_eq. cbn [snd].
    destruct (missed_yes_outcome finished_user 26 0) as [_ ->];
      [vm_compute; reflexivity ..|].
    eexists. reflexivity.
Qed.

(** ** The scheduler *)

(** The test of the source on the text [HH:MM] holds inside the window. *)
Lemma morning_window_test (local : datetime) :
  morning_window local →
  String.leb "07:59" (strftime_HM local)
  && String.leb (strftime_HM local) "08:01" = true.
Proof.
  unfold strftime_HM.
  intros [[-> ->] | [-> Hm]]; [reflexivity|].
  assert (minute local = 0 ∨ minute local = 1) as [-> | ->] by lia;
    reflexivity.
Qed.

(** On a valid time of day, the test of the source on the text [HH:MM] is
    the window 07:59-08:01, bounds included. *)
Lemma morning_window_iff (local : datetime) :
  0 ≤ hour local ≤ 23 → 0 ≤ minute local ≤ 59 →
  String.leb "07:59" (strftime_HM local)
  && String.leb (strftime_HM local) "08:01" = true
  ↔ morning_window local.
Proof.
  intros Hh Hm. split; [|apply morning_window_test].
  unfold strftime_HM, morning_window.
  assert (Hall :
    forallb (λ h, forallb (λ m,
      implb (String.leb "07:59" (pad 2 h +:+ ":" +:+ pad 2 m)
             && String.leb (pad 2 h +:+ ":" +:+ pad 2 m) "08:01")
            ((h =? 7) && (m =? 59) || (h =? 8) && (0 <=? m) && (m <=? 1)))
      (seqZ 0 60)) (seqZ 0 24) = true) by (vm_compute; reflexivity).
  rewrite forallb_forall in Hall.
  specialize (Hall (hour local)).
  rewrite forallb_forall in Hall.
  specialize (Hall ltac:(apply list_elem_of_In, elem_of_seqZ; lia)
                (minute local)
                ltac:(apply list_elem_of_In, elem_of_seqZ; lia)).
  intros Hw. rewrite Hw in Hall. cbn [implb] in Hall.
  apply orb_true_iff in Hall as [H|H].
  - apply andb_true_iff in H as [H1 H2]. left. lia.
  - apply andb_true_iff in H as [H H3]. apply andb_true_iff in H as [H1 H2].
    right. lia.
Qed.

(** For a user whose course is not completed, with an integer time zone
    and a day within the course, the tick runs the three checks. *)
Lemma tick_user_active (u : dict) (now_utc clock_date clock_time : datetime)
    (local_date local_time : datetime) (tz d : Z) (nd pd : bool) :
  truthy (get u "courseCompleted") = false →
  int_of_value (get_or u "timezone" (VInt 0)) = ok tz →
  user_local_now clock_date tz = ok local_date →
  user_local_now clock_time tz = ok local_time →
  as_int (get_or u "currentDay" (VInt 1)) = ok d →
  d ≤ 25 →
  tick_user now_utc clock_date clock_time nd pd u
  = (morning_check (strftime_Ymd local_date) (strftime_HM local_time) d
       (get_required_doses d);;
     missed_check (strftime_Ymd local_date) (strftime_HM local_time)
       (get_required_doses d);;
     reminders_due now_utc d nd pd) u.
Proof.
  intros Hc Htz Hld Hlt Hd Hle.
  unfold tick_user. rewrite bind_read, Hc, Htz.
  unfold user_local_date_str, user_local_time_str. rewrite Hld, Hlt.
  change (mbind ?f (ok ?x)) with (f x). cbv beta.
  rewrite !bind_lift_ok, Hd, bind_lift_ok.
  decide_tests. reflexivity.
Qed.

Lemma ne_str_same (s : string) : ne_str (VStr s) s = false.
Proof. unfold ne_str. by rewrite String.eqb_refl. Qed.

(** The morning check inside the window. *)
Lemma morning_check_in_window (u : dict) (today hm : string) (d required : Z) :
  String.leb "07:59" hm && String.leb hm "08:01" = true →
  morning_check today hm d required u
  = if ne_str (get u "lastMorningMessageDate") today then
      Outcome (<["lastMorningMessageDate" := VStr today]> u)
        [Saved (<["lastMorningMessageDate" := VStr today]> u);
         Sent (MorningPrompt d required (get_interval_hours d))]
        (ok tt)
    else Outcome u [] (ok tt).
Proof.
  intros Hw. unfold morning_check. rewrite Hw, bind_read.
  destruct (ne_str _ _); [|reflexivity].
  rewrite bind_store, bind_save. reflexivity.
Qed.

(** C7.  For a user whose course is not completed and whose local time
    lies in the window 07:59-08:01, the tick runs the morning check.  The
    check sends the morning prompt and sets lastMorningMessageDate to today
    (saving it) when lastMorningMessageDate differs from today, and only
    then: otherwise it sends nothing and changes nothing.  Run again with
    the same calendar day, at any time of the window, on the record it has
    left, it sends nothing and changes nothing, so that two runs in one day
    send the prompt exactly once when the date differed at first (and never
    when it did not). *)
Theorem morning_prompt_once (u : dict)
    (now_utc clock_date clock_time local_date local_time local2 : datetime)
    (tz d : Z) (nd pd : bool) :
  truthy (get u "courseCompleted") = false →
  int_of_value (get_or u "timezone" (VInt 0)) = ok tz →
  as_int (get_or u "currentDay" (VInt 1)) = ok d →
  d ≤ 25 →
  user_local_now clock_date tz = ok local_date →
  user_local_now clock_time tz = ok local_time →
  morning_window local_time →
  morning_window local2 →
  let today := strftime_Ymd local_date in
  let required := get_required_doses d in
  let prompt := MorningPrompt d required (get_interval_hours d) in
  let u' := <["lastMorningMessageDate" := VStr today]> u in
  let first := morning_check today (strftime_HM local_time) d required in
  let second := morning_check today (strftime_HM local2) d required in
  let differs := ne_str (get u "lastMorningMessageDate") today in
  tick_user now_utc clock_date clock_time nd pd u
  = (first;;
     missed_check today (strftime_HM local_time) required;;
     reminders_due now_utc d nd pd) u
  ∧ first u
    = (if differs then Outcome u' [Saved u'; Sent prompt] (ok tt)
       else Outcome u [] (ok tt))
  ∧ second u' = Outcome u' [] (ok tt)
  ∧ sent (o_trace ((first;; second) u)) = (if differs then [prompt] else [])
  ∧ o_state ((first;; second) u) = (if differs then u' else u).
Proof.
  intros Hc Htz Hd Hle Hld Hlt Hw Hw2
    today required prompt u' first second differs.
  assert (H1 : first u
               = if differs then Outcome u' [Saved u'; Sent prompt] (ok tt)
                 else Outcome u [] (ok tt)).
  { unfold first. by rewrite morning_check_in_window
      by (by apply morning_window_test). }
  assert (H2 : second u' = Outcome u' [] (ok tt)).
  { unfold second. rewrite morning_check_in_window
      by (by apply morning_window_test).
    unfold u'. by rewrite get_insert_eq, ne_str_same. }
  assert (H3 : differs = false → second u = Outcome u [] (ok tt)).
  { intros Hdf. unfold second. rewrite morning_check_in_window
      by (by apply morning_window_test).
    fold differs. by rewrite Hdf. }
  split; [by apply (tick_user_active u _ _ _ local_date local_time tz)|].
  split; [exact H1|]. split; [exact H2|].
  destruct differs.
  - rewrite (bind_outcome _ _ _ _ _ _ H1), H2. split; reflexivity.
  - rewrite (bind_outcome _ _ _ _ _ _ H1), H3 by done. split; reflexivity.
Qed.

(** ** The reminder timers *)

(** A timer whose text parses to an aware datetime cannot be compared with
    the naive [now_utc]: the comparison raises, the handler clears the
    timer, and no reminder is sent, whether the timer is due or not. *)
Lemma fire_timer_aware (key : string) (ts : value) (dt now_utc : datetime)
    (off : timedelta) (d : Z) (delivered : bool) (u : dict) :
  truthy ts = true →
  parse_timestamp ts = ok dt →
  tzinfo dt = Some off → tzinfo now_utc = None →
  fire_timer key ts now_utc d delivered u
  = Outcome (<[key := VNone]> u) [] (ok true).
Proof.
  intros Ht Hp Hdt Hnow. unfold fire_timer. rewrite Ht, Hp.
  change (mbind ?f (ok ?x)) with (f x). cbv beta.
  unfold datetime_ge, datetime_cmp. rewrite Hdt, Hnow.
  cbn [mbind result_bind]. rewrite bind_store. reflexivity.
Qed.

(** A timer whose text does not parse is cleared without a reminder. *)
Lemma fire_timer_unparseable (key : string) (ts : value) (e : exn)
    (now_utc : datetime) (d : Z) (delivered : bool) (u : dict) :
  truthy ts = true →
  parse_timestamp ts = throw e →
  fire_timer key ts now_utc d delivered u
  = Outcome (<[key := VNone]> u) [] (ok true).
Proof.
  intros Ht Hp. unfold fire_timer. rewrite Ht, Hp.
  cbn [mbind result_bind]. rewrite bind_store. reflexivity.
Qed.

(** A timer whose text parses to a naive datetime has the semantics of the
    specification: nothing happens before it is due; once due, the
    reminder is sent once and the timer cleared, whether or not the
    delivery succeeds. *)
Lemma fire_timer_naive (key : string) (ts : value) (dt now_utc : datetime)
    (d : Z) (delivered : bool) (u : dict) :
  truthy ts = true →
  parse_timestamp ts = ok dt →
  tzinfo dt = None → tzinfo now_utc = None →
  fire_timer key ts now_utc d delivered u
  = if wall_us now_utc <? wall_us dt then Outcome u [] (ok false)
    else Outcome (<[key := VNone]> u) [Sent (DoseReminder d)] (ok true).
Proof.
  intros Ht Hp Hdt Hnow. unfold fire_timer. rewrite Ht, Hp.
  change (mbind ?f (ok ?x)) with (f x). cbv beta.
  unfold datetime_ge, datetime_cmp. rewrite Hdt, Hnow.
  cbn [mbind result_bind]. rewrite Z.ltb_compare.
  destruct (wall_us now_utc ?= wall_us dt); [| reflexivity |];
    rewrite bind_emit; destruct delivered; rewrite bind_store; reflexivity.
Qed.

(** C8, where the code departs from it.  [_apply_taken] has set the timer
    of the sample record to 12:00:00 UTC.  A tick one second before that
    sends nothing but clears the timer, and a tick one second after it
    clears the timer without sending the reminder: the stored text parses
    to an aware datetime, which cannot be ordered against the naive
    [now_utc]. *)
Theorem reminder_timer_never_fires :
  get reminded_user "nextReminderTimestamp" = VStr "2025-03-01T12:00:00Z"
  ∧ parse_timestamp (VStr "2025-03-01T12:00:00Z")
    = ok (mk_datetime 2025 3 1 12 0 0 0 (Some 0))
  ∧ datetime_ge before_due (mk_datetime 2025 3 1 12 0 0 0 (Some 0))
    = throw TypeError
  ∧ (let o := tick_user before_due before_due before_due true true
                reminded_user in
     o_result o = ok tt ∧ sent (o_trace o) = []
     ∧ get (o_state o) "nextReminderTimestamp" = VNone
     ∧ get (persisted reminded_user (o_trace o)) "nextReminderTimestamp"
       = VNone)
  ∧ (let o := tick_user after_due after_due after_due true true
                reminded_user in
     o_result o = ok tt ∧ sent (o_trace o) = []
     ∧ get (o_state o) "nextReminderTimestamp" = VNone).
Proof. vm_compute. repeat split; reflexivity. Qed.

(** ** Texts of any characters *)

Lemma ascii_digit_inv (c : N) (d : Z) :
  ascii_digit c = Some d → 0 ≤ d ≤ 9 ∧ c = (48 + Z.to_N d)%N.
Proof.
  unfold ascii_digit.
  destruct (N.leb_spec 48 c); [|intros H'; discriminate H'].
  destruct (N.leb_spec c 57); [|intros H'; discriminate H'].
  cbn [andb]. intros H'. injection H' as <-. lia.
Qed.

Lemma ascii_digit_char (d : Z) :
  0 ≤ d ≤ 9 → ascii_digit (48 + Z.to_N d) = Some d.
Proof.
  intros Hd. unfold ascii_digit.
  destruct (N.leb_spec 48 (48 + Z.to_N d)); [|lia].
  destruct (N.leb_spec (48 + Z.to_N d) 57); [|lia].
  cbn [andb]. f_equal. lia.
Qed.

Lemma decimal_in_range (zs : list N) (c : N) (d : Z) :
  decimal_in zs c = Some d → 0 ≤ d ≤ 9.
Proof.
  induction zs as [|z zs IH]; [intros H; discriminate H|].
  cbn [decimal_in].
  destruct (N.leb_spec z c); [|exact IH].
  destruct (N.ltb_spec c (z + 10)); [|exact IH].
  cbn [andb]. intros H'. injection H' as <-. lia.
Qed.

Lemma todecimal_range (zeros : list N) (c : N) (d : Z) :
  todecimal zeros c = Some d → 0 ≤ d ≤ 9.
Proof.
  unfold todecimal. destruct (c <? 128)%N.
  - intros H. by apply ascii_digit_inv in H as [H _].
  - apply decimal_in_range.
Qed.

Lemma isdecimal_value (zeros : list N) (c : N) :
  isdecimal zeros c = true → ∃ d, todecimal zeros c = Some d ∧ 0 ≤ d ≤ 9.
Proof.
  unfold isdecimal. destruct (todecimal zeros c) as [d|] eqn:E;
    [|intros H; discriminate H].
  intros _. exists d. split; [done|]. by apply (todecimal_range zeros c).
Qed.

Lemma todecimal_isdecimal (zeros : list N) (c : N) (d : Z) :
  todecimal zeros c = Some d → isdecimal zeros c = true.
Proof. unfold isdecimal. by intros ->. Qed.

(** Below 128 the decimal digits are the ASCII digits. *)
Lemma todecimal_ascii (zeros : list N) (c : N) :
  (c < 128)%N → todecimal zeros c = ascii_digit c.
Proof.
  intros Hc. unfold todecimal. by destruct (N.ltb_spec c 128); [|lia].
Qed.

Lemma ascii_digit_todecimal (zeros : list N) (c : N) (d : Z) :
  ascii_digit c = Some d → todecimal zeros c = Some d.
Proof.
  intros H. rewrite todecimal_ascii; [done|].
  apply ascii_digit_inv in H as [? ->]. lia.
Qed.

(** A decimal digit is none of the other ASCII characters. *)
Lemma isdecimal_neq (zeros : list N) (c k : N) :
  isdecimal zeros c = true → (k < 128)%N → ascii_digit k = None →
  (c =? k)%N = false ∧ (k =? c)%N = false.
Proof.
  intros Hc Hk Hn.
  assert (c ≠ k).
  { intros ->. unfold isdecimal in Hc. rewrite todecimal_ascii in Hc by done.
    by rewrite Hn in Hc. }
  split; apply N.eqb_neq; congruence.
Qed.

Lemma rstrip_by_last (P : N → bool) (s p : text) (c : N) :
  rstrip_by P s = (p ++ [c])%list → P c = false.
Proof.
  revert p. induction s as [|a s IH]; intros p H.
  - destruct p; discriminate H.
  - cbn [rstrip_by] in H. destruct (rstrip_by P s) as [|x r] eqn:E.
    + destruct (P a) eqn:Ea.
      * destruct p; discriminate H.
      * destruct p as [|b [|b' p]]; cbn in H; try discriminate H.
        by injection H as ->.
    + destruct p as [|b p]; cbn in H; [discriminate H|].
      injection H as -> H. by apply (IH p).
Qed.

Lemma rstrip_by_none (P : N → bool) (s : text) :
  forallb (λ c, negb (P c)) s = true → rstrip_by P s = s.
Proof.
  induction s as [|c s IH]; [done|]. cbn [forallb rstrip_by].
  intros [Hc Hs]%andb_true_iff. rewrite (IH Hs).
  destruct s; [|done]. by destruct (P c).
Qed.

Lemma lstrip_by_none (P : N → bool) (s : text) :
  forallb (λ c, negb (P c)) s = true → lstrip_by P s = s.
Proof.
  destruct s as [|c s]; [done|]. cbn [forallb lstrip_by].
  intros [Hc Hs]%andb_true_iff. by destruct (P c).
Qed.

Lemma rstrip_by_idem (P : N → bool) (s : text) :
  rstrip_by P (rstrip_by P s) = rstrip_by P s.
Proof.
  induction s as [|c r IH]; [reflexivity|].
  cbn [rstrip_by]. destruct (rstrip_by P r) as [|x r'] eqn:E.
  - destruct (P c) eqn:Hc; [reflexivity|].
    cbn [rstrip_by]. by rewrite Hc.
  - cbn [rstrip_by] in *. by rewrite IH.
Qed.

Lemma lstrip_rstrip_by (P : N → bool) (s : text) :
  lstrip_by P (rstrip_by P (lstrip_by P s)) = rstrip_by P (lstrip_by P s).
Proof.
  induction s as [|c r IH]; [reflexivity|].
  cbn [lstrip_by]. destruct (P c) eqn:Hc; [exact IH|].
  cbn [rstrip_by]. destruct (rstrip_by P r); rewrite ?Hc; cbn [lstrip_by];
    by rewrite Hc.
Qed.

Lemma strip_text_idem (s : text) : strip_text (strip_text s) = strip_text s.
Proof. unfold strip_text. by rewrite lstrip_rstrip_by, rstrip_by_idem. Qed.

(** After [strip], [$] can only match at the very end. *)
Lemma at_end_after_strip (s p r : text) :
  strip_text s = (p ++ r)%list → at_end r = true → r = [].
Proof.
  intros Hs Hr. destruct r as [|c [|]]; [done| |discriminate Hr].
  cbn [at_end] in Hr. apply N.eqb_eq in Hr as ->.
  apply rstrip_by_last in Hs. discriminate Hs.
Qed.

Section TextFacts.

Variable zeros : list N.
Hypothesis Hok : digits_ok zeros = true.

Lemma isspace_not_decimal (c : N) :
  isspace c = true → isdecimal zeros c = false.
Proof.
  unfold isspace. intros (x & Hin & Hx%N.eqb_eq)%existsb_exists. subst x.
  pose proof Hok as H. unfold digits_ok in H. rewrite forallb_forall in H.
  specialize (H _ Hin). by destruct (isdecimal zeros c).
Qed.

(** [int] reads a decimal digit as the ASCII digit of the same value. *)
Lemma int_char_digit (c : N) (d : Z) :
  todecimal zeros c = Some d → ascii_digit (int_char zeros c) = Some d.
Proof.
  intros Hd. pose proof (todecimal_range _ _ _ Hd) as Hr.
  unfold int_char. destruct (N.ltb_spec c 127).
  - by rewrite todecimal_ascii in Hd by lia.
  - destruct (isspace c) eqn:Hs.
    + apply isspace_not_decimal in Hs.
      by rewrite (todecimal_isdecimal _ _ _ Hd) in Hs.
    + rewrite Hd. by apply ascii_digit_char.
Qed.

Lemma ascii_digit_not_space (x : N) (d : Z) :
  ascii_digit x = Some d →
  c_isspace x = false ∧ (x =? 45)%N = false ∧ (x =? 43)%N = false.
Proof.
  intros [Hd ->]%ascii_digit_inv. unfold c_isspace.
  repeat match goal with
         | |- context [(?a <=? ?b)%N] => destruct (N.leb_spec a b)
         | |- context [(?a =? ?b)%N] => destruct (N.eqb_spec a b)
         end; try lia; done.
Qed.

(** The digits that [int] reads in a text of decimal digits. *)
Lemma int_digits_decimal (ds : text) (acc : Z) (prev : bool) :
  all_digits zeros ds = true → ds ≠ [] ∨ prev = true →
  int_digits prev acc (int_char zeros <$> ds)
  = Some (fold_left (λ acc c, 10 * acc + default 0 (todecimal zeros c))
            ds acc).
Proof.
  revert acc prev. induction ds as [|c ds IH]; intros acc prev Hd Hne.
  - destruct Hne as [?| ->]; done.
  - cbn [all_digits forallb] in Hd. apply andb_true_iff in Hd as [Hc Hd].
    apply isdecimal_value in Hc as (d & Hc & _).
    cbn [fmap list_fmap int_digits]. rewrite (int_char_digit c d Hc).
    rewrite (IH _ true Hd) by by right.
    cbn [fold_left]. by rewrite Hc.
Qed.

Lemma digits_not_space (ds : text) :
  all_digits zeros ds = true →
  forallb (λ c, negb (c_isspace c)) (int_char zeros <$> ds) = true.
Proof.
  induction ds as [|c ds IH]; [done|].
  cbn [all_digits forallb fmap list_fmap].
  intros [Hc Hd]%andb_true_iff.
  apply isdecimal_value in Hc as (d & Hc & _).
  apply int_char_digit, ascii_digit_not_space in Hc as (-> & _).
  exact (IH Hd).
Qed.

(** [int] on an optionally signed text of decimal digits. *)
Lemma int_text_signed (sgn body : text) :
  sgn = [] ∨ sgn = [43%N] ∨ sgn = [45%N] →
  body ≠ [] → all_digits zeros body = true →
  int_text zeros (sgn ++ body)%list
  = ok (if bool_decide (sgn = [45%N]) then - decimal zeros body
        else decimal zeros body).
Proof.
  intros Hs Hne Hd. unfold int_text.
  pose proof (digits_not_space body Hd) as Hsp.
  pose proof (int_digits_decimal body 0 false Hd (or_introl Hne)) as Hint.
  fold (decimal zeros body) in Hint.
  rewrite fmap_app.
  destruct Hs as [-> | [-> | ->]]; cbn [fmap list_fmap app].
  - rewrite lstrip_by_none, rstrip_by_none by done.
    destruct body as [|c body]; [done|].
    cbn [all_digits forallb] in Hd. apply andb_true_iff in Hd as [Hc _].
    apply isdecimal_value in Hc as (d & Hc & _).
    cbn [fmap list_fmap] in *.
    apply int_char_digit, ascii_digit_not_space in Hc as (_ & -> & ->).
    by rewrite Hint.
  - change (int_char zeros 43) with 43%N.
    rewrite lstrip_by_none, rstrip_by_none by (cbn [forallb]; by rewrite Hsp).
    change (43 =? 45)%N with false. change (43 =? 43)%N with true. cbv iota.
    by rewrite Hint.
  - change (int_char zeros 45) with 45%N.
    rewrite lstrip_by_none, rstrip_by_none by (cbn [forallb]; by rewrite Hsp).
    change (45 =? 45)%N with true. cbv iota.
    by rewrite Hint.
Qed.

End TextFacts.

(** ** Time-zone input *)

Lemma match_minutes_inv (zeros : list N) (s : text) (g2 : option text) :
  match_minutes zeros s = Some g2 →
  match g2 with
  | None => at_end s = true
  | Some g => ∃ a b, g = [a; b]
  end.
Proof.
  unfold match_minutes.
  destruct s as [|c [|a [|b r]]];
    repeat match goal with
           | |- context [if ?b then _ else _] => destruct b eqn:?
           end; intros H; try discriminate H; injection H as <-; eauto.
Qed.

(** The shape of a text that the pattern matches. *)
Lemma match_timezone_inv (zeros : list N) (t g1 : text) (g2 : option text) :
  match_timezone zeros t = Some (g1, g2) →
  ∃ sgn ds rest : text,
    t = (sgn ++ ds ++ rest)%list ∧ g1 = (sgn ++ ds)%list
    ∧ (sgn = [] ∨ sgn = [43%N] ∨ sgn = [45%N])
    ∧ (length ds = 1 ∨ length ds = 2)%nat
    ∧ all_digits zeros ds = true
    ∧ match_minutes zeros rest = Some g2.
Proof.
  assert (Hbody : ∀ sgn r,
    match r with
    | d1 :: r1 =>
        if isdecimal zeros d1 then
          let one :=
            g2 ← match_minutes zeros r1; Some ((sgn ++ [d1])%list, g2) in
          match r1 with
          | d2 :: r2 =>
              if isdecimal zeros d2 then
                match match_minutes zeros r2 with
                | Some g2 => Some ((sgn ++ [d1; d2])%list, g2)
                | None => one
                end
              else one
          | [] => one
          end
        else None
    | [] => None
    end = Some (g1, g2) →
    ∃ ds rest : text,
      r = (ds ++ rest)%list ∧ g1 = (sgn ++ ds)%list
      ∧ (length ds = 1 ∨ length ds = 2)%nat
      ∧ all_digits zeros ds = true
      ∧ match_minutes zeros rest = Some g2).
  { intros sgn r H. destruct r as [|d1 r1]; [discriminate H|].
    destruct (isdecimal zeros d1) eqn:E1; [|discriminate H]. cbv zeta in H.
    assert (Hone :
      (g2 ← match_minutes zeros r1; Some ((sgn ++ [d1])%list, g2))
      = Some (g1, g2) →
      ∃ ds rest : text,
        d1 :: r1 = (ds ++ rest)%list ∧ g1 = (sgn ++ ds)%list
        ∧ (length ds = 1 ∨ length ds = 2)%nat
        ∧ all_digits zeros ds = true
        ∧ match_minutes zeros rest = Some g2).
    { intros H1. destruct (match_minutes zeros r1) as [g|] eqn:Em;
        [|discriminate H1].
      cbn in H1. injection H1 as <- <-.
      exists [d1], r1.
      unfold all_digits. cbn. rewrite E1. auto. }
    destruct r1 as [|d2 r2]; [by apply Hone|].
    destruct (isdecimal zeros d2) eqn:E2; [|by apply Hone].
    destruct (match_minutes zeros r2) as [g|] eqn:Em; [|by apply Hone].
    injection H as <- <-.
    exists [d1; d2], r2.
    unfold all_digits. cbn. rewrite E1, E2. auto. }
  unfold match_timezone. destruct t as [|c r].
  - intros H. discriminate H.
  - destruct ((c =? 43)%N || (c =? 45)%N) eqn:Es.
    + intros H.
      destruct (Hbody [c] r H) as (ds & rest & -> & -> & Hl & Hd & Hm).
      exists [c], ds, rest.
      apply orb_true_iff in Es as [->%N.eqb_eq | ->%N.eqb_eq];
        repeat split; auto.
    + intros H.
      destruct (Hbody [] (c :: r) H) as (ds & rest & Hr & -> & Hl & Hd & Hm).
      exists [], ds, rest. repeat split; auto.
Qed.

(** A signed number of one or two digits is matched whole, without
    minutes, and [int] gives its value. *)
Lemma whole_hours_parsed (zeros : list N) (t : text) (h : Z) :
  digits_ok zeros = true →
  whole_hours zeros t h →
  match_timezone zeros t = Some (t, None) ∧ int_text zeros t = ok h.
Proof.
  intros Hok (sgn & body & -> & Hs & Hl & Hd & ->).
  split.
  - assert (Hbody : ∀ sign : text,
      match body with
      | d1 :: r1 =>
          if isdecimal zeros d1 then
            let one :=
              g2 ← match_minutes zeros r1; Some ((sign ++ [d1])%list, g2) in
            match r1 with
            | d2 :: r2 =>
                if isdecimal zeros d2 then
                  match match_minutes zeros r2 with
                  | Some g2 => Some ((sign ++ [d1; d2])%list, g2)
                  | None => one
                  end
                else one
            | [] => one
            end
          else None
      | [] => None
      end = Some ((sign ++ body)%list, None)).
    { intros sign. unfold all_digits in Hd.
      destruct body as [|c1 [|c2 [|c3 body]]]; cbn in Hl;
        try (exfalso; lia); cbn [forallb] in Hd.
      - rewrite andb_true_r in Hd. by rewrite Hd.
      - apply andb_true_iff in Hd as [H1 H2]. rewrite andb_true_r in H2.
        by rewrite H1, H2. }
    unfold match_timezone.
    destruct Hs as [-> | [-> | ->]]; cbn [app].
    + destruct body as [|c1 body]; [cbn in Hl; lia|].
      pose proof Hd as Hc. cbn [all_digits forallb] in Hc.
      apply andb_true_iff in Hc as [Hc _].
      destruct (isdecimal_neq zeros c1 43 Hc) as [-> _]; [done..|].
      destruct (isdecimal_neq zeros c1 45 Hc) as [-> _]; [done..|].
      cbn [orb]. apply (Hbody []).
    + change ((43 =? 43)%N || (43 =? 45)%N) with true. cbv iota.
      apply (Hbody [43%N]).
    + change ((45 =? 43)%N || (45 =? 45)%N) with true. cbv iota.
      apply (Hbody [45%N]).
  - apply int_text_signed; [done..| |done].
    intros ->. cbn in Hl. lia.
Qed.

(** A signed number of one or two digits has no minutes part. *)
Lemma whole_hours_no_minutes (zeros : list N) (p : text) (a b : N) (h : Z) :
  ¬ whole_hours zeros (p ++ [58%N; a; b])%list h.
Proof.
  intros (sgn & body & E & Hs & Hl & Hd & _).
  assert (Hlen : (length p + 3 = length sgn + length body)%nat).
  { apply (f_equal length) in E. rewrite !length_app in E. cbn in E. lia. }
  unfold all_digits in Hd.
  destruct Hs as [-> | [-> | ->]]; cbn [length] in Hlen.
  - lia.
  - destruct p as [|p1 p]; [|cbn in Hlen; lia].
    cbn in E. destruct body; discriminate E.
  - destruct p as [|p1 p]; [|cbn in Hlen; lia].
    cbn in E. destruct body; discriminate E.
Qed.

(** C10.  Whatever the table of the decimal digits (no white space being
    a digit), [parse_timezone] never raises; it returns the integer [h]
    exactly when the trimmed input is an optionally signed number of one or
    two decimal digits, with no minutes part, whose value [h] lies between
    -12 and 14; for every other input it returns None, and in particular
    whenever the trimmed input ends in a minutes part [:MM]. *)
Theorem parse_timezone_whole_hours (zeros : list N) (s : text) :
  digits_ok zeros = true →
  (∀ h, parse_timezone zeros s = ok (Some h)
        ↔ whole_hours zeros (strip_text s) h ∧ -12 ≤ h ≤ 14)
  ∧ (parse_timezone zeros s = ok None
     ∨ ∃ h, parse_timezone zeros s = ok (Some h))
  ∧ (∀ p a b, strip_text s = (p ++ [58%N; a; b])%list →
              parse_timezone zeros s = ok None).
Proof.
  intros Hok.
  assert (Hmain :
    (∀ h, parse_timezone zeros s = ok (Some h)
          ↔ whole_hours zeros (strip_text s) h ∧ -12 ≤ h ≤ 14)
    ∧ (parse_timezone zeros s = ok None
       ∨ ∃ h, parse_timezone zeros s = ok (Some h))).
  { unfold parse_timezone. cbv zeta.
    destruct (match_timezone zeros (strip_text s)) as [[g1 g2]|] eqn:Em.
    - destruct (match_timezone_inv _ _ _ _ Em)
        as (sgn & ds & rest & Et & -> & Hs & Hl & Hd & Hm).
      set (h0 := if bool_decide (sgn = [45%N]) then - decimal zeros ds
                 else decimal zeros ds).
      assert (Hw : whole_hours zeros (sgn ++ ds)%list h0)
        by (exists sgn, ds; auto).
      destruct (whole_hours_parsed _ _ _ Hok Hw) as [Hm0 ->].
      cbn [mbind result_bind].
      apply match_minutes_inv in Hm.
      destruct g2 as [g|].
      + destruct Hm as (a & b & ->).
        split; [|by left].
        intros h. split; [intros H; discriminate H|].
        intros [Hh _]. apply (whole_hours_parsed _ _ _ Hok) in Hh as [Hh _].
        rewrite Em in Hh. discriminate Hh.
      + rewrite app_assoc in Et.
        pose proof (at_end_after_strip _ _ _ Et Hm) as ->.
        rewrite app_nil_r in Et.
        destruct ((h0 <? -12) || (h0 >? 14)) eqn:Er.
        * split; [|by left].
          intros h. split; [intros H; discriminate H|].
          intros [Hh Hr]. rewrite Et in Hh.
          apply (whole_hours_parsed _ _ _ Hok) in Hh as [_ Hh].
          rewrite (proj2 (whole_hours_parsed _ _ _ Hok Hw)) in Hh.
          injection Hh as <-.
          apply orb_true_iff in Er as [Er|Er]; lia.
        * apply orb_false_iff in Er as [Er1 Er2].
          split; [|right; by exists h0].
          intros h. split.
          -- intros H. injection H as <-. rewrite Et. split; [done|]. lia.
          -- intros [Hh _]. rewrite Et in Hh.
             apply (whole_hours_parsed _ _ _ Hok) in Hh as [_ Hh].
             rewrite (proj2 (whole_hours_parsed _ _ _ Hok Hw)) in Hh.
             by injection Hh as <-.
    - split; [|by left].
      intros h. split; [intros H; discriminate H|].
      intros [Hh _]. apply (whole_hours_parsed _ _ _ Hok) in Hh as [Hh _].
      rewrite Em in Hh. discriminate Hh. }
  destruct Hmain as [Hiff Htot]. split; [exact Hiff|]. split; [exact Htot|].
  intros p a b Ep. destruct Htot as [H|[h H]]; [exact H|].
  apply Hiff in H as [H _]. rewrite Ep in H.
  by apply whole_hours_no_minutes in H.
Qed.

Lemma append_cons (x : ascii) (a b : string) :
  String x a +:+ b = String x (a +:+ b).
Proof. reflexivity. Qed.

Lemma append_assoc (a b c : string) : (a +:+ b) +:+ c = a +:+ (b +:+ c).
Proof.
  induction a as [|x a IH]; [done|]. by rewrite !append_cons, IH.
Qed.

Lemma append_nil_r (a : string) : a +:+ EmptyString = a.
Proof. induction a as [|x a IH]; [done|]. by rewrite append_cons, IH. Qed.

(** ** The text of a stored instant parses to an aware datetime *)

Lemma digit_val_char (d : Z) : 0 ≤ d < 10 → digit_val (digit_char d) = Some d.
Proof.
  intros H.
  assert (d = 0 ∨ d = 1 ∨ d = 2 ∨ d = 3 ∨ d = 4 ∨ d = 5 ∨ d = 6 ∨ d = 7
          ∨ d = 8 ∨ d = 9) as Hd by lia.
  decompose [or] Hd; subst; reflexivity.
Qed.

Lemma take_digits_cons (n : nat) (acc : Z) (c : ascii) (r : string) :
  take_digits (S n) acc (String c r)
  = match digit_val c with
    | Some d => take_digits n (10 * acc + d) r
    | None => None
    end.
Proof. reflexivity. Qed.

(** Reading [S w] digits is reading [w] digits and then one more. *)
Lemma take_digits_last (w : nat) (acc : Z) (s : string) :
  take_digits (S w) acc s
  = match take_digits w acc s with
    | Some (v, String c r) =>
        match digit_val c with
        | Some d => Some (10 * v + d, r)
        | None => None
        end
    | _ => None
    end.
Proof.
  revert acc s. induction w as [|w IH]; intros acc s.
  - cbn [take_digits]. destruct s as [|c r]; [done|].
    by destruct (digit_val c).
  - destruct s as [|c r]; [done|].
    rewrite (take_digits_cons (S w)), (take_digits_cons w).
    destruct (digit_val c) as [d|]; [|done].
    apply IH.
Qed.

Lemma pad_S (w : nat) (n : Z) :
  pad (S w) n = pad w (n / 10) +:+ String (digit_char (n mod 10)) EmptyString.
Proof. reflexivity. Qed.

(** [take_digits] reads back what [pad] writes. *)
Lemma take_digits_pad (w : nat) (n acc : Z) (rest : string) :
  0 ≤ n < 10 ^ Z.of_nat w →
  take_digits w acc (pad w n +:+ rest) = Some (acc * 10 ^ Z.of_nat w + n, rest).
Proof.
  revert n rest. induction w as [|w IH]; intros n rest Hn.
  - cbn [take_digits pad]. change (10 ^ Z.of_nat 0) with 1 in *.
    f_equal. f_equal. lia.
  - rewrite Nat2Z.inj_succ, Z.pow_succ_r in * by lia.
    rewrite take_digits_last, pad_S, append_assoc, append_cons.
    change (EmptyString +:+ rest) with rest.
    rewrite IH by (split; [apply Z.div_pos; lia
                          | apply Z.div_lt_upper_bound; lia]).
    rewrite digit_val_char by (apply Z.mod_pos_bound; lia).
    f_equal. f_equal.
    pose proof (Z.div_mod n 10 ltac:(lia)). lia.
Qed.

Lemma length_append (a b : string) :
  String.length (a +:+ b) = (String.length a + String.length b)%nat.
Proof.
  induction a as [|x a IH]; [done|]. rewrite append_cons. cbn. by rewrite IH.
Qed.

Lemma length_pad (w : nat) (n : Z) : String.length (pad w n) = w.
Proof.
  revert n. induction w as [|w IH]; intros n; [done|].
  rewrite pad_S, length_append, IH. cbn. lia.
Qed.

Lemma string_forall_append (P : ascii → bool) (a b : string) :
  string_forall P (a +:+ b) = string_forall P a && string_forall P b.
Proof.
  induction a as [|x a IH]; [done|].
  rewrite append_cons. cbn. by rewrite IH, andb_assoc.
Qed.

Lemma is_digit_digit_char (n : Z) : is_digit (digit_char (n mod 10)) = true.
Proof.
  unfold is_digit. rewrite digit_val_char; [done|].
  apply Z.mod_pos_bound. lia.
Qed.

Lemma string_forall_pad (w : nat) (n : Z) : string_forall is_digit (pad w n) = true.
Proof.
  revert n. induction w as [|w IH]; intros n; [done|].
  rewrite pad_S, string_forall_append, IH. cbn.
  by rewrite is_digit_digit_char.
Qed.

Lemma string_forall_impl (P Q : ascii → bool) (s : string) :
  (∀ c, P c = true → Q c = true) →
  string_forall P s = true → string_forall Q s = true.
Proof.
  intros HPQ. induction s as [|c r IH]; [done|]. cbn.
  intros [Hc Hr]%andb_true_iff. rewrite (HPQ c Hc). by apply IH.
Qed.

Lemma iso_char_not_Z (c : ascii) : iso_char c = true → Ascii.eqb c "Z" = false.
Proof.
  destruct c as [[] [] [] [] [] [] [] []]; vm_compute; intros H;
    try discriminate H; reflexivity.
Qed.

Lemma time_char_not_sign (c : ascii) :
  time_char c = true → Ascii.eqb c "+" = false ∧ Ascii.eqb c "-" = false.
Proof.
  destruct c as [[] [] [] [] [] [] [] []]; vm_compute; intros H;
    try discriminate H; split; reflexivity.
Qed.

(** Replacing ["Z"] in a text that has a single one, at its end. *)
Lemma replace_Z_at_end (s new : string) :
  string_forall iso_char s = true →
  replace "Z" new (s +:+ "Z") = s +:+ new.
Proof.
  unfold replace. induction s as [|c r IH]; intros H.
  - change (new +:+ EmptyString = new). apply append_nil_r.
  - cbn in H. apply andb_true_iff in H as [Hc Hr].
    rewrite !append_cons. cbn [replace_from].
    replace (String.prefix "Z" (String c (r +:+ "Z"))) with false.
    + by rewrite (IH Hr).
    + apply iso_char_not_Z in Hc. cbn [String.prefix].
      destruct (ascii_dec "Z" c) as [<-|]; [discriminate Hc|done].
Qed.

(** Splitting a time text followed by an offset with sign ['+']. *)
Lemma split_at_plus (t z : string) :
  string_forall time_char t = true →
  split_at_sign (t +:+ String "+" z) = (t, Some (false, z)).
Proof.
  induction t as [|c r IH]; intros H; [done|].
  cbn in H. apply andb_true_iff in H as [Hc Hr].
  rewrite append_cons. cbn [split_at_sign].
  destruct (time_char_not_sign c Hc) as [-> ->].
  by rewrite (IH Hr).
Qed.

Lemma append_nil_l (a : string) : EmptyString +:+ a = a.
Proof. reflexivity. Qed.

Section StampRoundTrip.

#[local] Opaque pad take_digits.

Lemma time_text_chars (h mi s us : Z) :
  string_forall time_char (time_text h mi s us) = true.
Proof.
  assert (Hpad : ∀ w n, string_forall time_char (pad w n) = true).
  { intros w n. apply (string_forall_impl is_digit); [|apply string_forall_pad].
    intros c Hc. unfold time_char. by rewrite Hc. }
  unfold time_text. rewrite !string_forall_append, !Hpad.
  destruct (us =? 0); [reflexivity|].
  rewrite string_forall_append, Hpad. reflexivity.
Qed.

Lemma parse_time_text (h mi s us : Z) :
  0 ≤ h < 100 → 0 ≤ mi < 100 → 0 ≤ s < 100 → 0 ≤ us < 1000000 →
  parse_hh_mm_ss_ff (time_text h mi s us) = Some (h, mi, s, us).
Proof.
  intros Hh Hmi Hs Hus. unfold parse_hh_mm_ss_ff, time_text.
  rewrite !append_cons, !append_nil_l.
  rewrite take_digits_pad by (change (10 ^ Z.of_nat 2) with 100; lia).
  cbn [mbind option_bind negb Ascii.eqb Bool.eqb].
  rewrite take_digits_pad by (change (10 ^ Z.of_nat 2) with 100; lia).
  cbn [mbind option_bind negb Ascii.eqb Bool.eqb].
  rewrite take_digits_pad by (change (10 ^ Z.of_nat 2) with 100; lia).
  cbn [mbind option_bind].
  destruct (Z.eqb_spec us 0) as [->|Hne].
  - reflexivity.
  - cbn [negb Ascii.eqb Bool.eqb].
    rewrite length_pad. cbn [Nat.eqb].
    rewrite <- (append_nil_r (pad 6 us)).
    rewrite take_digits_pad by (change (10 ^ Z.of_nat 6) with 1000000; lia).
    reflexivity.
Qed.

(** [isoformat] of a naive datetime, followed by an offset of zero, parses
    to the same fields with [tzinfo] UTC. *)
Lemma parse_isoformat_utc (d : datetime) :
  valid_fields d = true → tzinfo d = None →
  parse_isoformat (isoformat d +:+ "+00:00")
  = Some (mk_datetime (year d) (month d) (day d) (hour d) (minute d)
            (second d) (microsecond d) (Some 0)).
Proof.
  intros Hv Hn. unfold valid_fields in Hv.
  repeat match type of Hv with
         | _ && _ = true => apply andb_true_iff in Hv as [Hv ?]
         end.
  repeat match goal with
         | H : (_ <=? _) = true |- _ => apply Z.leb_le in H
         end.
  assert (Hdim : _days_in_month (year d) (month d) ≤ 31).
  { unfold _days_in_month.
    destruct ((month d =? 2) && _is_leap (year d)); [lia|].
    assert (Hm : month d = 1 ∨ month d = 2 ∨ month d = 3 ∨ month d = 4
                 ∨ month d = 5 ∨ month d = 6 ∨ month d = 7 ∨ month d = 8
                 ∨ month d = 9 ∨ month d = 10 ∨ month d = 11
                 ∨ month d = 12) by lia.
    decompose [or] Hm;
      match goal with H : month d = _ |- _ => rewrite H end;
      cbn [_DAYS_IN_MONTH]; lia. }
  unfold isoformat. rewrite Hn. cbn [format_offset].
  rewrite append_nil_r.
  fold (time_text (hour d) (minute d) (second d) (microsecond d)).
  rewrite !append_assoc, !append_cons, !append_nil_l.
  unfold parse_isoformat.
  rewrite take_digits_pad by (change (10 ^ Z.of_nat 4) with 10000; lia).
  cbn [mbind option_bind expect Ascii.eqb Bool.eqb].
  rewrite take_digits_pad by (change (10 ^ Z.of_nat 2) with 100; lia).
  cbn [mbind option_bind expect Ascii.eqb Bool.eqb].
  rewrite take_digits_pad by (change (10 ^ Z.of_nat 2) with 100; lia).
  cbn [mbind option_bind].
  change "+00:00" with (String "+" "00:00").
  rewrite split_at_plus by apply time_text_chars.
  rewrite parse_time_text by lia.
  cbn [mbind option_bind].
  change (parse_offset false "00:00") with (Some 0).
  cbn [mbind option_bind]. reflexivity.
Qed.

End StampRoundTrip.

Lemma isoformat_chars (d : datetime) :
  tzinfo d = None → string_forall iso_char (isoformat d) = true.
Proof.
  intros Hn.
  assert (Hpad : ∀ w n, string_forall iso_char (pad w n) = true).
  { intros w n. apply (string_forall_impl is_digit); [|apply string_forall_pad].
    intros c Hc. unfold iso_char. by rewrite Hc. }
  unfold isoformat. rewrite Hn. cbn [format_offset].
  rewrite !string_forall_append, !Hpad.
  destruct (microsecond d =? 0); [reflexivity|].
  rewrite string_forall_append, Hpad. reflexivity.
Qed.

(** The text the program stores for a naive instant [d] is read back by
    the scheduler as the aware datetime [d] UTC. *)
Lemma stamp_parses_aware (d : datetime) :
  valid_fields d = true → tzinfo d = None →
  parse_timestamp (stamp d)
  = ok (mk_datetime (year d) (month d) (day d) (hour d) (minute d)
          (second d) (microsecond d) (Some 0)).
Proof.
  intros Hv Hn. unfold parse_timestamp, stamp.
  cbn [as_str mbind result_bind].
  rewrite replace_Z_at_end by (by apply isoformat_chars).
  unfold fromisoformat. rewrite parse_isoformat_utc by done.
  unfold valid_datetime. cbn [year month day hour minute second microsecond tzinfo].
  unfold valid_fields in *.
  cbn [year month day hour minute second microsecond]. rewrite Hv.
  reflexivity.
Qed.

Lemma stamp_truthy (d : datetime) : truthy (stamp d) = true.
Proof.
  unfold stamp, truthy, isoformat.
  destruct (pad 4 (year d)) eqn:E.
  - pose proof (length_pad 4 (year d)) as H. rewrite E in H. discriminate H.
  - reflexivity.
Qed.

(** No timer that the program has written itself ever fires: whatever the
    naive [now_utc], before or after the instant [d], the scheduler clears
    it without sending the reminder. *)
Lemma own_timer_never_fires (key : string) (d now_utc : datetime) (dd : Z)
    (delivered : bool) (u : dict) :
  valid_fields d = true → tzinfo d = None → tzinfo now_utc = None →
  fire_timer key (stamp d) now_utc dd delivered u
  = Outcome (<[key := VNone]> u) [] (ok true).
Proof.
  intros Hv Hn Hnow.
  apply (fire_timer_aware key (stamp d)
           (mk_datetime (year d) (month d) (day d) (hour d) (minute d)
              (second d) (microsecond d) (Some 0)) now_utc 0);
    [apply stamp_truthy | by apply stamp_parses_aware | reflexivity | exact Hnow].
Qed.

(** ** The calendar *)

Lemma all_below_spec (P : Z → bool) (n : Z) :
  all_below P n = true → ∀ i, 0 ≤ i < n → P i = true.
Proof.
  unfold all_below. destruct n as [|p|p]; [lia| |lia]. cbn [Z.iter].
  set (f := λ st : bool * Z, (fst st && P (snd st), snd st + 1)).
  assert (H : snd (Pos.iter f (true, 0) p) = Z.pos p
              ∧ (fst (Pos.iter f (true, 0) p) = true →
                 ∀ i, 0 ≤ i < Z.pos p → P i = true)).
  { induction p as [|p [IH1 IH2]] using Pos.peano_ind.
    - cbn. split; [reflexivity|]. intros H i Hi.
      assert (i = 0) as -> by lia. exact H.
    - rewrite Pos.iter_succ. unfold f at 1 3. cbn [fst snd].
      rewrite IH1. split; [lia|].
      intros [H1 H2]%andb_true_iff i Hi.
      destruct (decide (i = Z.pos p)) as [->|Hne]; [exact H2|].
      apply (IH2 H1). lia. }
  intros Hf. by apply H.
Qed.

Lemma cycle_days_ok : all_below cycle_day_ok 146097 = true.
Proof. vm_compute. reflexivity. Qed.

Lemma is_leap_shift (k y : Z) : _is_leap (k * 400 + y) = _is_leap y.
Proof.
  unfold _is_leap.
  replace (k * 400 + y) with (y + (k * 100) * 4) at 1 by lia.
  replace (k * 400 + y) with (y + (k * 4) * 100) at 1 by lia.
  replace (k * 400 + y) with (y + k * 400) by lia.
  by rewrite !Z_mod_plus_full.
Qed.

(** [_ord2ymd] works cycle by cycle. *)
Lemma ord2ymd_cycle (n : Z) :
  _ord2ymd n
  = let '(y, m, dd) := _ord2ymd ((n - 1) mod _DI400Y + 1) in
    ((n - 1) / _DI400Y * 400 + y, m, dd).
Proof.
  unfold _ord2ymd. cbv zeta.
  set (r := (n - 1) mod _DI400Y).
  assert (Hr : 0 ≤ r < _DI400Y) by (apply Z.mod_pos_bound; reflexivity).
  replace (r + 1 - 1) with r by lia.
  rewrite (Z.div_small r _DI400Y), (Z.mod_small r _DI400Y) by exact Hr.
  repeat match goal with
         | |- context [if ?b then _ else _] => destruct b
         end; f_equal; f_equal; lia.
Qed.

(** An ordinal within the calendar is a valid date. *)
Lemma ord2ymd_valid (n : Z) :
  0 < n ≤ _MAXORDINAL →
  let '(y, m, dd) := _ord2ymd n in
  1 ≤ y ≤ 9999 ∧ 1 ≤ m ≤ 12 ∧ 1 ≤ dd ≤ _days_in_month y m.
Proof.
  intros Hn. rewrite ord2ymd_cycle.
  set (r := (n - 1) mod _DI400Y). set (k := (n - 1) / _DI400Y).
  assert (Hr : 0 ≤ r < 146097) by (apply Z.mod_pos_bound; reflexivity).
  assert (Hdm : n - 1 = 146097 * k + r) by (apply Z.div_mod; discriminate).
  assert (Hk : 0 ≤ k ≤ 24).
  { unfold _MAXORDINAL in Hn. lia. }
  pose proof (all_below_spec _ _ cycle_days_ok r ltac:(lia)) as Hall.
  unfold cycle_day_ok in Hall.
  destruct (_ord2ymd (r + 1)) as [[y m] dd].
  repeat match type of Hall with
         | _ && _ = true => apply andb_true_iff in Hall as [Hall ?]
         end.
  repeat match goal with
         | H : (_ <=? _) = true |- _ => apply Z.leb_le in H
         end.
  assert (Hlast : k = 24 → y ≤ 399).
  { intros ->. unfold _MAXORDINAL in Hn.
    assert (Hr' : r ≤ 145730) by lia.
    apply Z.leb_le in Hr'. rewrite Hr' in *. cbn [implb] in *.
    by apply Z.leb_le. }
  unfold _days_in_month in *. rewrite is_leap_shift.
  split; [|split; [lia|lia]].
  destruct (decide (k = 24)) as [Hk24|Hk24]; [specialize (Hlast Hk24)|]; lia.
Qed.

(** An instant plus a duration, when it is within the calendar, is a valid
    datetime with the same [tzinfo]. *)
Lemma datetime_add_valid (d : datetime) (delta : timedelta) (t : datetime) :
  datetime_add d delta = ok t →
  valid_fields t = true ∧ tzinfo t = tzinfo d.
Proof.
  unfold datetime_add. cbv zeta.
  set (total := wall_us d + delta).
  destruct ((0 <? total / us_per_day) && (total / us_per_day <=? _MAXORDINAL))
    eqn:Hdays; [|intros H; discriminate H].
  apply andb_true_iff in Hdays as [H1%Z.ltb_lt H2%Z.leb_le].
  pose proof (ord2ymd_valid (total / us_per_day) (conj H1 H2)) as Hymd.
  destruct (_ord2ymd (total / us_per_day)) as [[y m] dd].
  intros H. injection H as <-. split; [|reflexivity].
  unfold valid_fields. cbn [year month day hour minute second microsecond].
  set (rest := total mod us_per_day).
  assert (Hrest : 0 ≤ rest < us_per_day)
    by (apply Z.mod_pos_bound; reflexivity).
  unfold us_per_day, us_per_hour, us_per_minute, us_per_second in *.
  repeat (apply andb_true_iff; split); apply Z.leb_le; try lia;
    Z.to_euclidean_division_equations; lia.
Qed.

Lemma plus_hours_valid (now : datetime) (h : Q) (t : datetime) :
  plus_hours now h = ok t → valid_fields t = true ∧ tzinfo t = tzinfo now.
Proof.
  unfold plus_hours. destruct (timedelta_hours h) as [e|delta];
    [intros H; discriminate H|].
  apply datetime_add_valid.
Qed.

Lemma plus_minutes_valid (now : datetime) (m : Z) (t : datetime) :
  plus_minutes now m = ok t → valid_fields t = true ∧ tzinfo t = tzinfo now.
Proof.
  unfold plus_minutes. destruct (timedelta_minutes m) as [e|delta];
    [intros H; discriminate H|].
  apply datetime_add_valid.
Qed.

(** ** The timers the program sets *)

(** When [_apply_taken] returns without a completion notice, it has set
    the reminder timer to the stamp of an instant [now + interval]. *)
Lemma apply_taken_sets_timer (u st : dict) (now : datetime) (tr : list event) :
  _apply_taken now u = Outcome st tr (ok None) →
  ∃ (h : Q) (t : datetime),
    plus_hours now h = ok t ∧ get st "nextReminderTimestamp" = stamp t.
Proof.
  unfold _apply_taken. rewrite bind_read.
  destruct (as_int (get_or u "takenToday" (VInt 0))) as [e|k];
    [intros H; discriminate H|].
  steps.
  destruct (as_int (get_or u "currentDay" (VInt 1))) as [e|d];
    [intros H; discriminate H|].
  steps. cbv zeta.
  destruct (k + 1 >=? get_required_doses d); steps.
  - cbn [as_int]. steps. destruct (d + 1 >? 25); steps;
      [intros H; discriminate H|].
    destruct (plus_hours now (get_interval_hours (d + 1))) as [e|t] eqn:Ht;
      [intros H; discriminate H|].
    steps. intros H. injection H as <- _.
    exists (get_interval_hours (d + 1)), t. by dict_simpl.
  - destruct (as_int (get_or u "currentDay" (VInt 1))) as [e|d'];
      [intros H; discriminate H|].
    steps. destruct (d' >? 25); steps; [intros H; discriminate H|].
    destruct (plus_hours now (get_interval_hours d')) as [e|t] eqn:Ht;
      [intros H; discriminate H|].
    steps. intros H. injection H as <- _.
    exists (get_interval_hours d'), t. by dict_simpl.
Qed.

(** The timer that a dose event sets never fires: whenever the scheduler
    looks at it, before or after it is due, it clears it without sending
    the reminder. *)
Lemma timer_of_apply_taken_never_fires (u st st' : dict)
    (now now_utc : datetime) (tr : list event) (dd : Z) (delivered : bool) :
  tzinfo now = None → tzinfo now_utc = None →
  _apply_taken now u = Outcome st tr (ok None) →
  fire_timer "nextReminderTimestamp" (get st "nextReminderTimestamp")
    now_utc dd delivered st'
  = Outcome (<["nextReminderTimestamp" := VNone]> st') [] (ok true).
Proof.
  intros Hnow Hutc Hrun.
  destruct (apply_taken_sets_timer _ _ _ _ Hrun) as (h & t & Ht & ->).
  destruct (plus_hours_valid _ _ _ Ht) as [Hv Htz].
  apply own_timer_never_fires; [exact Hv | by rewrite Htz | exact Hutc].
Qed.

(** So does the timer that "remind later" sets. *)
Lemma timer_of_postpone_never_fires (u st st' : dict)
    (now now_utc : datetime) (tr : list event) (dd : Z) (delivered : bool) :
  tzinfo now = None → tzinfo now_utc = None →
  truthy (get u "courseCompleted") = false →
  cb_postpone_user now u = Outcome st tr (ok tt) →
  fire_timer "postponedReminderTimestamp"
    (get st "postponedReminderTimestamp") now_utc dd delivered st'
  = Outcome (<["postponedReminderTimestamp" := VNone]> st') [] (ok true).
Proof.
  intros Hnow Hutc Hc Hrun.
  unfold cb_postpone_user in Hrun. rewrite bind_read, Hc in Hrun.
  destruct (plus_minutes now 15) as [e|t] eqn:Ht; [discriminate Hrun|].
  rewrite bind_lift_ok, bind_store, bind_save in Hrun.
  injection Hrun as <- _.
  destruct (plus_minutes_valid _ _ _ Ht) as [Hv Htz].
  cbn [o_state emit]. rewrite get_insert_eq.
  apply own_timer_never_fires; [exact Hv | by rewrite Htz | exact Hutc].
Qed.

(** ** The properties at sample inputs *)

(** The last dose of the sample record of day 25. *)
Lemma last_dose_completes_witness :
  last_day_user !! "currentDay" = Some (VInt 25)
  ∧ last_day_user !! "takenToday" = Some (VInt 1)
  ∧ truthy (get last_day_user "courseCompleted") = false
  ∧ get_required_doses 25 = 2
  ∧ o_result (_apply_taken last_dose_time last_day_user)
    = ok (Some CompletionNotice)
  ∧ get (o_state (_apply_taken last_dose_time last_day_user)) "currentDay"
    = VInt 26
  ∧ get (o_state (_apply_taken last_dose_time last_day_user)) "courseCompleted"
    = VBool true
  ∧ get (o_state (_apply_taken last_dose_time last_day_user))
      "nextReminderTimestamp" = VNone.
Proof.
  split; [reflexivity|]. split; [reflexivity|]. split; [reflexivity|].
  apply (last_dose_completes last_day_user last_dose_time); reflexivity.
Defined.

(** Postponing at 11:50 for the sample record whose timer is due at 12:00. *)
Lemma postpone_sets_only_postponed_witness :
  let now := mk_datetime 2025 3 1 11 50 0 0 None in
  let t := mk_datetime 2025 3 1 12 5 0 0 None in
  let u' := <["postponedReminderTimestamp" := stamp t]> reminded_user in
  truthy (get reminded_user "courseCompleted") = false
  ∧ plus_minutes now 15 = ok t
  ∧ cb_postpone_user now reminded_user
    = Outcome u' [Saved u'; Edited NotePostponed] (ok tt)
  ∧ (∀ k, k ≠ "postponedReminderTimestamp" → u' !! k = reminded_user !! k)
  ∧ u' !! "nextReminderTimestamp" = reminded_user !! "nextReminderTimestamp".
Proof.
  intros now t u'.
  split; [reflexivity|]. split; [reflexivity|].
  apply (postpone_sets_only_postponed reminded_user now t); reflexivity.
Defined.

(** The six doses of the sample day, for a new user. *)
Lemma six_doses_day_one_witness :
  let u := new_user "2025-03-01" 5 in
  let o := apply_taken_seq dose_times u in
  u !! "currentDay" = Some (VInt 1)
  ∧ u !! "takenToday" = Some (VInt 0)
  ∧ truthy (get u "courseCompleted") = false
  ∧ plus_hours (mk_datetime 2025 3 1 18 0 0 0 None) 2.0
    = ok (mk_datetime 2025 3 1 20 0 0 0 None)
  ∧ get_required_doses 1 = 6
  ∧ o_result o = ok None
  ∧ get (o_state o) "currentDay" = VInt 2
  ∧ get (o_state o) "takenToday" = VInt 0
  ∧ get (o_state o) "nextReminderTimestamp"
    = stamp (mk_datetime 2025 3 1 20 0 0 0 None).
Proof.
  intros u o.
  split; [reflexivity|]. split; [reflexivity|]. split; [reflexivity|].
  split; [reflexivity|].
  apply (six_doses_day_one u
           (mk_datetime 2025 3 1 8 0 0 0 None)
           (mk_datetime 2025 3 1 10 0 0 0 None)
           (mk_datetime 2025 3 1 12 0 0 0 None)
           (mk_datetime 2025 3 1 14 0 0 0 None)
           (mk_datetime 2025 3 1 16 0 0 0 None)
           (mk_datetime 2025 3 1 18 0 0 0 None)
           (mk_datetime 2025 3 1 20 0 0 0 None));
    try reflexivity; eexists; reflexivity.
Defined.

(** C3 as the specification states it fails: after the six dose events of
    the sample day the timer is not 2.5 hours after the sixth event (20:30)
    but 2.0 hours after it (20:00). *)
Lemma six_doses_not_two_and_a_half_hours :
  let u := new_user "2025-03-01" 5 in
  let o := apply_taken_seq dose_times u in
  u !! "currentDay" = Some (VInt 1)
  ∧ u !! "takenToday" = Some (VInt 0)
  ∧ truthy (get u "courseCompleted") = false
  ∧ plus_hours (mk_datetime 2025 3 1 18 0 0 0 None) 2.5
    = ok (mk_datetime 2025 3 1 20 30 0 0 None)
  ∧ get (o_state o) "currentDay" = VInt 2
  ∧ get (o_state o) "nextReminderTimestamp"
    ≠ stamp (mk_datetime 2025 3 1 20 30 0 0 None)
  ∧ get (o_state o) "nextReminderTimestamp" = VStr "2025-03-01T20:00:00Z".
Proof.
  vm_compute. repeat split; try reflexivity. intros H. discriminate H.
Qed.

(** The resolution for the sample record that is three doses short. *)
Lemma missed_resolution_tops_up_witness :
  wf_pending behind_user = true
  ∧ truthy (get behind_user "courseCompleted") = false
  ∧ as_int (get_or behind_user "currentDay" (VInt 1)) = ok 4
  ∧ as_int (get_or behind_user "takenToday" (VInt 0)) = ok 2
  ∧ 2 < get_required_doses 4
  ∧ ∃ u1 u2 : dict,
      (_migrate_user_reminders;; missed_top_up) behind_user
      = Outcome u1 [] (ok (4, get_required_doses 4))
      ∧ get u1 "takenToday" = VInt (get_required_doses 4)
      ∧ get_or u1 "currentDay" (VInt 1)
        = get_or behind_user "currentDay" (VInt 1)
      ∧ get u1 "nextReminderTimestamp" = VNone
      ∧ get u1 "postponedReminderTimestamp" = VNone
      ∧ cb_missed_yes_user behind_user
        = Outcome u2 [Saved u2; Edited NoteMissedDone] (ok tt)
      ∧ u2 = <["lastMorningMessageDate" := VNone]>
               (<["takenToday" := VInt 0]>
                  (<["currentDay" := VInt (4 + 1)]> u1))
      ∧ get u2 "currentDay" = VInt (4 + 1)
      ∧ get u2 "takenToday" = VInt 0
      ∧ get u2 "lastMorningMessageDate" = VNone
      ∧ get u2 "nextReminderTimestamp" = VNone
      ∧ get u2 "postponedReminderTimestamp" = VNone.
Proof.
  split; [reflexivity|]. split; [reflexivity|]. split; [reflexivity|].
  split; [reflexivity|]. split; [reflexivity|].
  apply (missed_resolution_tops_up behind_user 4 2); reflexivity.
Defined.

(** Two morning checks, at 08:00 and 08:01 local time, for a new user. *)
Lemma morning_prompt_once_witness :
  let u := new_user "2025-03-01" 5 in
  let clock := mk_datetime 2025 3 2 3 0 0 0 None in
  let local := mk_datetime 2025 3 2 8 0 0 0 None in
  let local2 := mk_datetime 2025 3 2 8 1 0 0 None in
  let prompt := MorningPrompt 1 6 2.0%Q in
  let u' := <["lastMorningMessageDate" := VStr "2025-03-02"]> u in
  let first := morning_check "2025-03-02" "08:00" 1 6 in
  let second := morning_check "2025-03-02" "08:01" 1 6 in
  truthy (get u "courseCompleted") = false
  ∧ int_of_value (get_or u "timezone" (VInt 0)) = ok 5
  ∧ as_int (get_or u "currentDay" (VInt 1)) = ok 1
  ∧ user_local_now clock 5 = ok local
  ∧ morning_window local ∧ morning_window local2
  ∧ first u = Outcome u' [Saved u'; Sent prompt] (ok tt)
  ∧ second u' = Outcome u' [] (ok tt)
  ∧ sent (o_trace ((first;; second) u)) = [prompt].
Proof.
  intros u clock local local2 prompt u' first second.
  assert (Hw : morning_window local)
    by (right; split; [reflexivity|]; cbn; lia).
  assert (Hw2 : morning_window local2)
    by (right; split; [reflexivity|]; cbn; lia).
  split; [reflexivity|]. split; [reflexivity|]. split; [reflexivity|].
  split; [reflexivity|]. split; [exact Hw|]. split; [exact Hw2|].
  destruct (morning_prompt_once u clock clock clock local local local2
              5 1 true true
              eq_refl eq_refl eq_refl ltac:(lia) eq_refl eq_refl Hw Hw2)
    as (_ & H1 & H2 & H3 & _).
  split; [exact H1|]. split; [exact H2|]. exact H3.
Defined.

(** The upgrade of the sample legacy record. *)
Lemma migrate_user_reminders_spec_witness :
  let o := migrate_with fromisoformat legacy_user in
  wf_pending legacy_user = true
  ∧ returns (o_result o)
  ∧ o_state o !! "pendingReminders" = None
  ∧ get (o_state o) "nextReminderTimestamp" = VStr "2025-03-01T12:00:00Z"
  ∧ get (o_state o) "postponedReminderTimestamp" = VNone
  ∧ migrate_with fromisoformat (o_state o) = Outcome (o_state o) [] (ok false)
  ∧ o = _migrate_user_reminders legacy_user.
Proof.
  intros o.
  destruct (migrate_user_reminders_spec fromisoformat legacy_user)
    as (_ & H1 & H2 & H3).
  destruct (H2 (H1 eq_refl)) as (H4 & _ & _ & H6).
  split; [reflexivity|]. split; [exact (H1 eq_refl)|]. split; [exact H4|].
  split; [reflexivity|]. split; [reflexivity|]. split; [exact H6|].
  exact H3.
Defined.

(** C9 as the specification states it fails.  On a legacy list that holds
    a number the upgrade raises and the pendingReminders key stays, so the
    key is not always removed.  On a list of two reminders, one at 12:00
    with a UTC offset and one at 09:00 of the same day without, the timer
    becomes the one that comes first in the list, 12:00 in one order and
    09:00 in the other: the 12:00 that is stored in the first order is not
    the earliest trigger time of the list, whose other entry reads three
    hours less on the clock. *)
Lemma migrate_user_reminders_counterexample :
  (let o := _migrate_user_reminders malformed_legacy_user in
   o_result o = throw AttributeError
   ∧ o_state o !! "pendingReminders" = Some (VList [VInt 7]))
  ∧ ¬ (∀ u, o_state (_migrate_user_reminders u) !! "pendingReminders" = None)
  ∧ (let o := _migrate_user_reminders (mixed_legacy_user true) in
     let stored := mk_datetime 2025 3 1 12 0 0 0 (Some 0) in
     let other := mk_datetime 2025 3 1 9 0 0 0 None in
     o_result o = ok true
     ∧ mixed_legacy_user true !! "pendingReminders"
       = Some (VList [ VDict {[ "triggerAt" := VStr "2025-03-01T12:00:00Z" ]};
                       VDict {[ "triggerAt" := VStr "2025-03-01T09:00:00" ]} ])
     ∧ triggers [ VDict {[ "triggerAt" := VStr "2025-03-01T12:00:00Z" ]};
                  VDict {[ "triggerAt" := VStr "2025-03-01T09:00:00" ]} ]
       = [stored; other]
     ∧ get (o_state o) "nextReminderTimestamp"
       = VStr (replace "+00:00" "Z" (isoformat stored))
     ∧ wall_us other < wall_us stored
     ∧ ¬ is_earliest stored [stored; other])
  ∧ (let o := _migrate_user_reminders (mixed_legacy_user false) in
     o_result o = ok true
     ∧ get (o_state o) "nextReminderTimestamp" = VStr "2025-03-01T09:00:00").
Proof.
  split; [vm_compute; by split|].
  split.
  { intros H. specialize (H malformed_legacy_user). vm_compute in H.
    discriminate H. }
  split.
  { cbv zeta. split; [by vm_compute|]. split; [by vm_compute|].
    split; [by vm_compute|]. split; [by vm_compute|].
    split; [by vm_compute|].
    intros [_ H].
    specialize (H (mk_datetime 2025 3 1 9 0 0 0 None)
                  ltac:(apply list_elem_of_In; simpl; tauto)).
    vm_compute in H. discriminate H. }
  vm_compute. by split.
Qed.

(** The offset that a user types in Arabic-Indic digits, and an offset
    with minutes. *)
Lemma parse_timezone_whole_hours_witness :
  digits_ok unicode_zeros = true
  ∧ parse_timezone unicode_zeros [32; 43; 0x665; 32]%N = ok (Some 5)
  ∧ whole_hours unicode_zeros [43; 0x665]%N 5
  ∧ parse_timezone unicode_zeros (text_of_string "+05:30") = ok None.
Proof.
  destruct (parse_timezone_whole_hours unicode_zeros [32; 43; 0x665; 32]%N
              eq_refl) as (H1 & _ & _).
  destruct (parse_timezone_whole_hours unicode_zeros
              (text_of_string "+05:30") eq_refl) as (_ & _ & H3).
  split; [reflexivity|]. split; [reflexivity|].
  split; [exact (proj1 (proj1 (H1 5) eq_refl))|].
  exact (H3 [43; 48; 53]%N 51%N 48%N eq_refl).
Defined.

(** * Further properties *)

(** ** Course progress *)

Lemma doses_from_step (d : Z) :
  1 ≤ d ≤ 25 → doses_from d = get_required_doses d + doses_from (d + 1).
Proof.
  intros Hd. unfold doses_from.
  rewrite (seqZ_cons d (26 - d)) by lia. cbn [fmap list_fmap fold_right].
  replace (Z.pred (26 - d)) with (26 - (d + 1)) by lia.
  replace (Z.succ d) with (d + 1) by lia. reflexivity.
Qed.

Lemma doses_from_end : doses_from 26 = 0.
Proof. reflexivity. Qed.

Lemma days_before_year_mono (y : Z) :
  1 ≤ y ≤ 9998 → 0 ≤ _days_before_year y ≤ 3651329.
Proof.
  intros Hy. unfold _days_before_year. cbv zeta.
  Z.to_euclidean_division_equations. lia.
Qed.

Lemma ymd2ord_bounds (now : datetime) :
  valid_fields now = true → year now ≤ 9998 →
  1 ≤ _ymd2ord (year now) (month now) (day now) ≤ 3651695.
Proof.
  intros Hv Hy. unfold valid_fields in Hv.
  repeat match type of Hv with
         | _ && _ = true => apply andb_true_iff in Hv as [Hv ?]
         end.
  repeat match goal with
         | H : (_ <=? _) = true |- _ => apply Z.leb_le in H
         end.
  pose proof (days_before_year_mono (year now) ltac:(lia)) as Hdby.
  unfold _ymd2ord, _days_before_month, _days_in_month in *.
  assert (Hm : month now = 1 ∨ month now = 2 ∨ month now = 3 ∨ month now = 4
               ∨ month now = 5 ∨ month now = 6 ∨ month now = 7
               ∨ month now = 8 ∨ month now = 9 ∨ month now = 10
               ∨ month now = 11 ∨ month now = 12) by lia.
  decompose [or] Hm;
    match goal with H : month now = _ |- _ => rewrite H in * end;
    cbn [_DAYS_BEFORE_MONTH _DAYS_IN_MONTH Z.eqb Pos.eqb Z.gtb Z.compare Pos.compare
         Pos.compare_cont andb] in *;
    destruct (_is_leap (year now)); lia.
Qed.

Lemma wall_us_bounds (now : datetime) :
  valid_fields now = true → year now ≤ 9998 →
  us_per_day ≤ wall_us now < 3651696 * us_per_day.
Proof.
  intros Hv Hy. pose proof (ymd2ord_bounds now Hv Hy) as Hord.
  unfold valid_fields in Hv.
  repeat match type of Hv with
         | _ && _ = true => apply andb_true_iff in Hv as [Hv ?]
         end.
  repeat match goal with
         | H : (_ <=? _) = true |- _ => apply Z.leb_le in H
         end.
  unfold wall_us, us_per_day, us_per_hour, us_per_minute, us_per_second.
  lia.
Qed.

(** Adding up to a day to a reading of the clock stays within the
    calendar. *)
Lemma datetime_add_returns (now : datetime) (delta : timedelta) :
  valid_fields now = true → year now ≤ 9998 →
  0 ≤ delta ≤ us_per_day →
  returns (datetime_add now delta).
Proof.
  intros Hv Hy Hdelta. pose proof (wall_us_bounds now Hv Hy) as Hw.
  unfold datetime_add. cbv zeta.
  set (total := wall_us now + delta).
  assert (Hd : 0 < total / us_per_day ≤ _MAXORDINAL).
  { unfold total, _MAXORDINAL, us_per_day, us_per_second in *.
    Z.to_euclidean_division_equations. lia. }
  destruct Hd as [H1%Z.ltb_lt H2%Z.leb_le]. rewrite H1, H2. cbn [andb].
  destruct (_ord2ymd (total / us_per_day)) as [[y m] dd].
  eexists. reflexivity.
Qed.

Lemma plus_hours_returns (now : datetime) (d : Z) :
  clock_reading now → returns (plus_hours now (get_interval_hours d)).
Proof.
  intros (Hv & _ & Hy). unfold plus_hours.
  assert (Hdelta : ∃ delta, timedelta_hours (get_interval_hours d) = ok delta
                            ∧ 0 ≤ delta ≤ us_per_day).
  { unfold get_interval_hours.
    repeat match goal with
           | |- context [if ?b then _ else _] => destruct b
           end; eexists; (split; [vm_compute; reflexivity|]);
      unfold us_per_day, us_per_second; lia. }
  destruct Hdelta as (delta & -> & Hdelta).
  cbn [mbind result_bind]. by apply datetime_add_returns.
Qed.

Lemma plus_minutes_returns (now : datetime) :
  clock_reading now → returns (plus_minutes now 15).
Proof.
  intros (Hv & _ & Hy). unfold plus_minutes.
  change (timedelta_minutes 15) with (ok 900000000 : result timedelta).
  cbn [mbind result_bind]. apply datetime_add_returns; [done..|].
  unfold us_per_day, us_per_second. lia.
Qed.

Lemma required_doses_nonneg (d : Z) : 0 ≤ get_required_doses d.
Proof.
  unfold get_required_doses.
  repeat match goal with
         | |- context [if ?b then _ else _] => destruct b
         end; lia.
Qed.

Lemma required_doses_pos (d : Z) : 1 ≤ d ≤ 25 → 0 < get_required_doses d.
Proof.
  intros Hd. unfold get_required_doses.
  destruct (Z.ltb_spec d 1); [lia|].
  rewrite Z.gtb_ltb. destruct (Z.ltb_spec 25 d); [lia|]. cbn [orb].
  repeat match goal with
         | |- context [if ?b then _ else _] => destruct b
         end; lia.
Qed.

(** One dose event on a record in the course. *)
Lemma apply_taken_in_course (u : dict) (now : datetime) (d k : Z) :
  in_course u d k → clock_reading now →
  ∃ d' k' : Z,
    let o := _apply_taken now u in
    o_trace o = []
    ∧ as_int (get_or (o_state o) "currentDay" (VInt 1)) = ok d'
    ∧ as_int (get_or (o_state o) "takenToday" (VInt 0)) = ok k'
    ∧ ((d' = d ∧ k' = k + 1) ∨ (d' = d + 1 ∧ k' = 0))
    ∧ doses_left d' k' = doses_left d k - 1
    ∧ get (o_state o) "postponedReminderTimestamp" = VNone
    ∧ get (o_state o) "lastDoseTimestamp" = stamp now
    ∧ (1 < doses_left d k →
       in_course (o_state o) d' k' ∧ o_result o = ok None
       ∧ get (o_state o) "courseCompleted" = get u "courseCompleted"
       ∧ ∃ t, plus_hours now (get_interval_hours d') = ok t
              ∧ get (o_state o) "nextReminderTimestamp" = stamp t)
    ∧ (doses_left d k = 1 →
       d' = 26 ∧ o_result o = ok (Some CompletionNotice)
       ∧ get (o_state o) "courseCompleted" = VBool true
       ∧ get (o_state o) "nextReminderTimestamp" = VNone).
Proof.
  intros (Hd & Hk & Hdr & Hkr) Hnow.
  pose proof (doses_from_step d Hdr) as Hstep.
  pose proof required_doses_pos as Hpos.
  assert (Hfrom : ∀ d0, 1 ≤ d0 ≤ 25 → 0 < doses_from d0).
  { intros d0 H0. rewrite (doses_from_step d0 H0).
    pose proof (Hpos d0 H0).
    assert (0 ≤ doses_from (d0 + 1)); [|lia].
    unfold doses_from.
    induction (seqZ (d0 + 1) (26 - (d0 + 1))) as [|x l IH]; [done|].
    cbn [fmap list_fmap fold_right].
    pose proof (required_doses_nonneg x). lia. }
  unfold doses_left.
  destruct (Z_lt_le_dec (k + 1) (get_required_doses d)) as [Hlt|Hge].
  - (* the day is not finished *)
    destruct (plus_hours_returns now d Hnow) as [t Ht].
    exists d, (k + 1). cbv zeta.
    rewrite (apply_taken_same_day u now t d k Hd Hk Hlt ltac:(lia) Ht).
    cbn [o_state o_trace o_result]. dict_simpl. rewrite Hd. cbn [as_int].
    split; [done|]. split; [done|]. split; [done|].
    split; [by left|]. split; [lia|]. split; [done|]. split; [done|].
    split.
    + intros _. split; [|split; [done|split; [done|by exists t]]].
      unfold in_course. dict_simpl. rewrite Hd. cbn [as_int].
      repeat split; try done; lia.
    + intros H1. exfalso.
      destruct (decide (d = 25)) as [->|Hne].
      * change (25 + 1) with 26 in Hstep.
        rewrite doses_from_end in Hstep. lia.
      * pose proof (Hfrom (d + 1) ltac:(lia)). lia.
  - (* the day is finished *)
    assert (k + 1 = get_required_doses d) as Hk1 by lia.
    destruct (decide (d = 25)) as [->|Hne].
    + exists 26, 0. cbv zeta.
      rewrite (apply_taken_completes u now 25 k Hd Hk Hge ltac:(lia)).
      cbn [o_state o_trace o_result]. dict_simpl. cbn [as_int].
      change (25 + 1) with 26 in Hstep. rewrite doses_from_end in *.
      split; [done|]. split; [done|]. split; [done|].
      split; [by right|]. split; [lia|]. split; [done|]. split; [done|].
      split; [intros H1; lia|]. intros _. done.
    + destruct (plus_hours_returns now (d + 1) Hnow) as [t Ht].
      exists (d + 1), 0. cbv zeta.
      rewrite (apply_taken_next_day u now t d k Hd Hk Hge ltac:(lia) Ht).
      cbn [o_state o_trace o_result]. dict_simpl. cbn [as_int].
      pose proof (Hfrom (d + 1) ltac:(lia)).
      pose proof (Hpos (d + 1) ltac:(lia)).
      split; [done|]. split; [done|]. split; [done|].
      split; [by right|]. split; [lia|]. split; [done|]. split; [done|].
      split.
      * intros _. split; [|split; [done|split; [done|by exists t]]].
        unfold in_course. dict_simpl. cbn [as_int].
        repeat split; try done; lia.
      * intros H1. lia.
Qed.

Lemma doses_left_pos (u : dict) (d k : Z) : in_course u d k → 0 < doses_left d k.
Proof.
  intros (_ & _ & Hd & Hk). unfold doses_left.
  rewrite (doses_from_step d Hd).
  assert (0 ≤ doses_from (d + 1)); [|lia].
  unfold doses_from.
  induction (seqZ (d + 1) (26 - (d + 1))) as [|x l IH]; [done|].
  cbn [fmap list_fmap fold_right].
  pose proof (required_doses_nonneg x). lia.
Qed.

(** Successive dose events on a record in the course, no more than the
    doses left. *)
Lemma apply_taken_seq_in_course (nows : list datetime) :
  ∀ (u : dict) (d k : Z),
    in_course u d k → Forall clock_reading nows →
    Z.of_nat (length nows) ≤ doses_left d k →
    let o := apply_taken_seq nows u in
    o_trace o = []
    ∧ (Z.of_nat (length nows) = doses_left d k →
       o_result o = ok (Some CompletionNotice)
       ∧ get (o_state o) "courseCompleted" = VBool true
       ∧ as_int (get_or (o_state o) "currentDay" (VInt 1)) = ok 26)
    ∧ (Z.of_nat (length nows) < doses_left d k →
       o_result o = ok None
       ∧ get (o_state o) "courseCompleted" = get u "courseCompleted"
       ∧ ∃ d' k', in_course (o_state o) d' k'
                  ∧ doses_left d' k' = doses_left d k - Z.of_nat (length nows)).
Proof.
  induction nows as [|now rest IH]; intros u d k Hin Hnows Hlen.
  - pose proof (doses_left_pos u d k Hin) as Hpos. cbn.
    split; [done|]. split; [intros H; lia|]. intros _.
    split; [done|]. split; [done|]. exists d, k. split; [done|]. lia.
  - apply Forall_cons in Hnows as [Hnow Hrest].
    destruct (apply_taken_in_course u now d k Hin Hnow)
      as (d' & k' & Htr & Hd' & Hk' & _ & Hleft & _ & _ & Hmore & Hlast).
    cbv zeta in *.
    destruct rest as [|now2 rest].
    + cbn [apply_taken_seq length]. split; [done|]. split.
      * intros H1. destruct (Hlast ltac:(lia)) as (-> & Hres & Hcc & _).
        done.
      * intros H1. destruct (Hmore ltac:(lia)) as (Hin' & Hres & Hcc & _).
        split; [done|]. split; [done|]. exists d', k'. split; [done|].
        cbn [length] in *. lia.
    + cbn [length] in Hlen.
      destruct (Hmore ltac:(lia)) as (Hin' & Hres & Hcc & _).
      specialize (IH _ d' k' Hin' Hrest ltac:(cbn [length] in *; lia)).
      cbv zeta in IH. destruct IH as (IHtr & IHlast & IHmore).
      change (apply_taken_seq (now :: now2 :: rest))
        with (_apply_taken now;; apply_taken_seq (now2 :: rest)).
      destruct (_apply_taken now u) as [u1 tr1 r1] eqn:E.
      cbn [o_state o_trace o_result] in *. subst tr1 r1.
      rewrite (bind_outcome _ _ _ _ _ _ E).
      cbn [o_state o_trace o_result app].
      split; [done|]. split.
      * intros H1. apply IHlast. cbn [length] in *. lia.
      * intros H1.
        destruct (IHmore ltac:(cbn [length] in *; lia))
          as (Hres2 & Hcc2 & d2 & k2 & Hin2 & Hleft2).
        split; [done|]. split; [congruence|]. exists d2, k2.
        split; [done|]. cbn [length] in *. lia.
Qed.

(** X2.  A course is 101 doses.  From a record on day 1 with no dose
    taken, the first 100 dose events return no notice and leave
    courseCompleted as it was, the record staying in the course; the 101st
    returns the completion notice and leaves the record on day 26 with
    courseCompleted true. *)
Theorem full_course_is_101_doses (u : dict) (nows : list datetime) :
  in_course u 1 0 → Forall clock_reading nows →
  (length nows ≤ 101)%nat →
  let o := apply_taken_seq nows u in
  ((length nows < 101)%nat →
   o_result o = ok None
   ∧ get (o_state o) "courseCompleted" = get u "courseCompleted"
   ∧ ∃ d k, in_course (o_state o) d k
            ∧ doses_left d k = 101 - Z.of_nat (length nows))
  ∧ (length nows = 101%nat →
     o_result o = ok (Some CompletionNotice)
     ∧ get (o_state o) "courseCompleted" = VBool true
     ∧ as_int (get_or (o_state o) "currentDay" (VInt 1)) = ok 26).
Proof.
  intros Hin Hnows Hlen.
  assert (H101 : doses_left 1 0 = 101) by reflexivity.
  destruct (apply_taken_seq_in_course nows u 1 0 Hin Hnows ltac:(lia))
    as (_ & Hlast & Hmore).
  cbv zeta. rewrite H101 in *. split.
  - intros H. apply Hmore. lia.
  - intros H. apply Hlast. lia.
Qed.

(** ** The dose buttons *)

(** A dose event calls no collaborator, whatever the record. *)
Lemma apply_taken_silent (u : dict) (now : datetime) :
  o_trace (_apply_taken now u) = [].
Proof.
  unfold _apply_taken. rewrite bind_read.
  destruct (as_int (get_or u "takenToday" (VInt 0))) as [e|k]; [reflexivity|].
  steps.
  destruct (as_int (get_or u "currentDay" (VInt 1))) as [e|d]; [reflexivity|].
  steps. cbv zeta.
  destruct (k + 1 >=? get_required_doses d); steps.
  - cbn [as_int]. steps. destruct (d + 1 >? 25); steps; [reflexivity|].
    destruct (plus_hours now (get_interval_hours (d + 1))) as [e|t];
      [reflexivity|].
    steps. reflexivity.
  - destruct (as_int (get_or u "currentDay" (VInt 1))) as [e|d'];
      [reflexivity|].
    steps. destruct (d' >? 25); steps; [reflexivity|].
    destruct (plus_hours now (get_interval_hours d')) as [e|t];
      [reflexivity|].
    steps. reflexivity.
Qed.

(** A dose event raises on a record whose day is not an integer. *)
Lemma apply_taken_needs_day (u : dict) (now : datetime) (e : exn) :
  as_int (get_or u "currentDay" (VInt 1)) = throw e →
  ∃ e', o_result (_apply_taken now u) = throw e'.
Proof.
  intros Hd. unfold _apply_taken. rewrite bind_read.
  destruct (as_int (get_or u "takenToday" (VInt 0))) as [e'|k];
    [by exists e'|].
  steps. rewrite Hd. by exists e.
Qed.

(** The calls of a dose button after the guard: the dose event, then
    [save_data], the edit of the message and the completion notice. *)
Lemma dose_tail_trace (note : edit_note) (now : datetime) (s : dict) :
  o_trace ((completion ← _apply_taken now;
            save;;
            emit (Edited note);;
            match completion with
            | Some m => emit (Sent m)
            | None => mret tt
            end) s)
  = match o_result (_apply_taken now s) with
    | inl _ => []
    | inr c =>
        Saved (o_state (_apply_taken now s)) :: Edited note
        :: match c with Some m => [Sent m] | None => [] end
    end.
Proof.
  pose proof (apply_taken_silent s now) as Htr.
  destruct (_apply_taken now s) as [s' tr [e|c]] eqn:E;
    cbn [o_state o_trace o_result] in *; subst tr.
  - by rewrite (bind_raised _ _ _ _ _ _ E).
  - rewrite (bind_outcome _ _ _ _ _ _ E). cbn [o_trace app].
    rewrite bind_save. cbn [o_trace]. rewrite bind_emit. cbn [o_trace].
    by destruct c.
Qed.

(** X3.  The "ready" button of the morning prompt and the "taken" button
    of a reminder leave the same data on disk, whatever the stored data, the
    user and the instant: they differ only in the popup and in the note
    appended to the message. *)
Theorem first_ready_stores_as_taken (now : datetime) (uid : string)
    (users : gmap string dict) :
  (cb_first_ready now uid users).1 = (cb_taken now uid users).1.
Proof.
  unfold cb_first_ready, cb_taken, run_callback.
  destruct (users !! uid) as [u|]; [|reflexivity].
  cbn [fst]. f_equal.
  unfold cb_first_ready_user, cb_taken_user.
  pose proof (migrate_silent u) as Htr.
  destruct (_migrate_user_reminders u) as [s tr [e|b]] eqn:E;
    cbn [o_trace] in Htr; subst tr.
  - by rewrite !(bind_raised _ _ _ _ _ _ E).
  - rewrite !(bind_outcome _ _ _ _ _ _ E). cbn [o_trace app].
    rewrite !bind_read.
    destruct (truthy (get s "courseCompleted")); [reflexivity|].
    rewrite dose_tail_trace.
    destruct (as_int (get_or s "currentDay" (VInt 1))) as [e|d] eqn:Ed.
    + rewrite bind_lift_throw.
      destruct (apply_taken_needs_day s now e Ed) as [e' ->].
      reflexivity.
    + rewrite bind_lift_ok, bind_emit. cbn [o_trace].
      rewrite dose_tail_trace.
      by destruct (o_result (_apply_taken now s)).
Qed.

(** The upgrade keeps a record in the course. *)
Lemma migrate_in_course (u : dict) (d k : Z) :
  in_course u d k → in_course (o_state (_migrate_user_reminders u)) d k.
Proof.
  intros (Hd & Hk & Hr). unfold in_course.
  by rewrite !migrate_frame_get_or.
Qed.

Lemma migrate_removes_pending (u : dict) :
  wf_pending u = true →
  o_state (_migrate_user_reminders u) !! "pendingReminders" = None.
Proof.
  intros Hwf.
  destruct (migrate_wf_cases u Hwf)
    as [[Hp ->] | [(v & _ & _ & ->) | (l & _ & _ & _ & ->)]];
    cbn [o_state]; [|apply lookup_delete_eq..].
  by rewrite lookup_with_timer_keys.
Qed.

(** A dose event leaves the keys it does not write as they are. *)
Lemma apply_taken_frame (u : dict) (now : datetime) (key : string) :
  key ≠ "takenToday" → key ≠ "lastDoseTimestamp" →
  key ≠ "nextReminderTimestamp" → key ≠ "postponedReminderTimestamp" →
  key ≠ "currentDay" → key ≠ "lastMorningMessageDate" →
  key ≠ "courseCompleted" →
  o_state (_apply_taken now u) !! key = u !! key.
Proof.
  intros H1 H2 H3 H4 H5 H6 H7.
  assert (Hthrow : ∀ A B (e : exn) (f : A → M B) (s : dict),
             o_state ((lift (throw e) ≫= f) s) = s) by reflexivity.
  unfold _apply_taken. rewrite bind_read.
  destruct (as_int (get_or u "takenToday" (VInt 0))) as [e|k]; [reflexivity|].
  steps.
  destruct (as_int (get_or u "currentDay" (VInt 1))) as [e|d];
    [rewrite Hthrow; by rewrite !lookup_insert_ne|].
  steps. cbv zeta.
  destruct (k + 1 >=? get_required_doses d); steps.
  - cbn [as_int]. steps. destruct (d + 1 >? 25); steps;
      [cbn [o_state mret M_ret]; by rewrite !lookup_insert_ne|].
    destruct (plus_hours now (get_interval_hours (d + 1))) as [e|t];
      [rewrite Hthrow; by rewrite !lookup_insert_ne|].
    steps. cbn [o_state mret M_ret]. by rewrite !lookup_insert_ne.
  - destruct (as_int (get_or u "currentDay" (VInt 1))) as [e|d'];
      [rewrite Hthrow; by rewrite !lookup_insert_ne|].
    steps. destruct (d' >? 25); steps;
      [cbn [o_state mret M_ret]; by rewrite !lookup_insert_ne|].
    destruct (plus_hours now (get_interval_hours d')) as [e|t];
      [rewrite Hthrow; by rewrite !lookup_insert_ne|].
    steps. cbn [o_state mret M_ret]. by rewrite !lookup_insert_ne.
Qed.

(** X4.  The "taken" button for a user in the course: besides the
    acknowledgement, the handler saves the record once, after the dose
    event, and edits the message; the completion notice follows exactly
    when the dose was the last of the course.  The saved record has one
    dose less to go, no legacy list, no postponed timer and the instant of
    the dose; it is marked completed exactly when the dose was the
    last. *)
Theorem taken_button_in_course (users : gmap string dict) (uid : string)
    (u : dict) (now : datetime) (d k : Z) :
  users !! uid = Some u →
  wf_pending u = true →
  truthy (get u "courseCompleted") = false →
  in_course u d k → clock_reading now →
  ∃ (s : dict) (d' k' : Z),
    cb_taken now uid users
    = (<[uid := s]> users,
       ([Answered false; Saved s; Edited NoteTaken]
        ++ (if doses_left d k =? 1 then [Sent CompletionNotice] else []))%list)
    ∧ as_int (get_or s "currentDay" (VInt 1)) = ok d'
    ∧ as_int (get_or s "takenToday" (VInt 0)) = ok k'
    ∧ doses_left d' k' = doses_left d k - 1
    ∧ s !! "pendingReminders" = None
    ∧ get s "postponedReminderTimestamp" = VNone
    ∧ get s "lastDoseTimestamp" = stamp now
    ∧ truthy (get s "courseCompleted") = (doses_left d k =? 1).
Proof.
  intros Hu Hwf Hc Hin Hnow.
  pose proof (doses_left_pos u d k Hin) as Hpos.
  set (m := o_state (_migrate_user_reminders u)).
  assert (Hm : in_course m d k) by by apply migrate_in_course.
  assert (Hmc : truthy (get m "courseCompleted") = false)
    by (unfold m; by rewrite migrate_frame_get).
  assert (Hmp : m !! "pendingReminders" = None)
    by by apply migrate_removes_pending.
  destruct (apply_taken_in_course m now d k Hm Hnow)
    as (d' & k' & _ & Hd' & Hk' & _ & Hleft & Hpost & Hdose & Hmore & Hlast).
  cbv zeta in *.
  pose proof (apply_taken_frame m now "pendingReminders"
                ltac:(done) ltac:(done) ltac:(done) ltac:(done)
                ltac:(done) ltac:(done) ltac:(done)) as Hfr.
  exists (o_state (_apply_taken now m)), d', k'.
  split; [|split; [done|split; [done|split; [done|split;
    [by rewrite Hfr|split; [done|split; [done|]]]]]]].
  - unfold cb_taken, run_callback. rewrite Hu.
    unfold cb_taken_user.
    destruct (migrate_then
                (λ _, u0 ← read;
                      if truthy (get u0 "courseCompleted") then mret tt
                      else
                        completion ← _apply_taken now;
                        save;; emit (Edited NoteTaken);;
                        match completion with
                        | Some m0 => emit (Sent m0)
                        | None => mret tt
                        end) u Hwf) as (b & ->).
    fold m. rewrite bind_read, Hmc, dose_tail_trace.
    destruct (Z.eqb_spec (doses_left d k) 1) as [H1|H1].
    + destruct (Hlast H1) as (_ & -> & _). reflexivity.
    + destruct (Hmore ltac:(lia)) as (_ & -> & _). reflexivity.
  - destruct (Z.eqb_spec (doses_left d k) 1) as [H1|H1].
    + destruct (Hlast H1) as (_ & _ & -> & _). reflexivity.
    + destruct (Hmore ltac:(lia)) as (_ & _ & -> & _). exact Hmc.
Qed.

(** X1.  A dose event on a record in the course never raises and makes
    exactly one step of progress: either the count of the day goes up by
    one on the same day, or the day goes up by one and the count is reset;
    the doses left of the course go down by one.  While doses are left the
    record stays in the course, no notice is returned and the next
    reminder is set; with the last dose the record moves to day 26, the
    course is marked completed and the completion notice is returned.
    The event calls no collaborator and writes no key but takenToday,
    currentDay, lastDoseTimestamp, lastMorningMessageDate, courseCompleted
    and the two timers. *)
Theorem dose_event_progress (u : dict) (now : datetime) (d k : Z) :
  in_course u d k → clock_reading now →
  ∃ d' k' : Z,
    let o := _apply_taken now u in
    o_trace o = []
    ∧ as_int (get_or (o_state o) "currentDay" (VInt 1)) = ok d'
    ∧ as_int (get_or (o_state o) "takenToday" (VInt 0)) = ok k'
    ∧ ((d' = d ∧ k' = k + 1) ∨ (d' = d + 1 ∧ k' = 0))
    ∧ doses_left d' k' = doses_left d k - 1
    ∧ get (o_state o) "postponedReminderTimestamp" = VNone
    ∧ get (o_state o) "lastDoseTimestamp" = stamp now
    ∧ (1 < doses_left d k →
       in_course (o_state o) d' k' ∧ o_result o = ok None
       ∧ get (o_state o) "courseCompleted" = get u "courseCompleted"
       ∧ ∃ t, plus_hours now (get_interval_hours d') = ok t
              ∧ get (o_state o) "nextReminderTimestamp" = stamp t)
    ∧ (doses_left d k = 1 →
       d' = 26 ∧ o_result o = ok (Some CompletionNotice)
       ∧ get (o_state o) "courseCompleted" = VBool true
       ∧ get (o_state o) "nextReminderTimestamp" = VNone)
    ∧ (∀ key, key ≠ "takenToday" → key ≠ "lastDoseTimestamp" →
              key ≠ "nextReminderTimestamp" →
              key ≠ "postponedReminderTimestamp" →
              key ≠ "currentDay" → key ≠ "lastMorningMessageDate" →
              key ≠ "courseCompleted" → o_state o !! key = u !! key).
Proof.
  intros Hin Hnow.
  destruct (apply_taken_in_course u now d k Hin Hnow)
    as (d' & k' & H1 & H2 & H3 & H4 & H5 & H6 & H7 & H8 & H9).
  exists d', k'. cbv zeta in *.
  repeat (split; [assumption|]).
  intros key. apply apply_taken_frame.
Qed.

(** ** The scheduler, further *)

(** The tick for a record past day 25 whose course is not marked
    completed. *)
Lemma tick_user_past_course (u : dict) (now_utc clock_date clock_time : datetime)
    (local_date local_time : datetime) (tz d : Z) (nd pd : bool) :
  truthy (get u "courseCompleted") = false →
  int_of_value (get_or u "timezone" (VInt 0)) = ok tz →
  user_local_now clock_date tz = ok local_date →
  user_local_now clock_time tz = ok local_time →
  as_int (get_or u "currentDay" (VInt 1)) = ok d →
  25 < d →
  tick_user now_utc clock_date clock_time nd pd u
  = Outcome (<["courseCompleted" := VBool true]> u)
      [Saved (<["courseCompleted" := VBool true]> u); Sent CompletionNotice]
      (ok tt).
Proof.
  intros Hc Htz Hld Hlt Hd Hgt.
  unfold tick_user. rewrite bind_read, Hc, Htz.
  unfold user_local_date_str, user_local_time_str. rewrite Hld, Hlt.
  change (mbind ?f (ok ?x)) with (f x). cbv beta.
  rewrite !bind_lift_ok, Hd, bind_lift_ok.
  decide_tests. unfold completion_sweep.
  rewrite bind_store, bind_save. reflexivity.
Qed.

(** X5.  The completion notice of the scheduler is sent once.  For a
    record past day 25 that is not marked completed, the tick marks it
    completed, saves it and sends the notice; every later tick, whatever
    the clock, leaves that record as it is and sends nothing. *)
Theorem completion_notice_once (u : dict)
    (now_utc clock_date clock_time local_date local_time : datetime)
    (tz d : Z) (nd pd : bool) :
  truthy (get u "courseCompleted") = false →
  int_of_value (get_or u "timezone" (VInt 0)) = ok tz →
  user_local_now clock_date tz = ok local_date →
  user_local_now clock_time tz = ok local_time →
  as_int (get_or u "currentDay" (VInt 1)) = ok d →
  25 < d →
  let u' := <["courseCompleted" := VBool true]> u in
  tick_user now_utc clock_date clock_time nd pd u
  = Outcome u' [Saved u'; Sent CompletionNotice] (ok tt)
  ∧ ∀ (now2 date2 time2 : datetime) (nd2 pd2 : bool),
      tick_user now2 date2 time2 nd2 pd2 u' = Outcome u' [] (ok tt).
Proof.
  intros Hc Htz Hld Hlt Hd Hgt u'. split.
  - by apply (tick_user_past_course u _ _ _ local_date local_time tz d).
  - intros now2 date2 time2 nd2 pd2. unfold tick_user.
    rewrite bind_read. unfold u'. by rewrite get_insert_eq.
Qed.

(** X6.  "Yes" to the missed-dose prompt on the last day does not
    complete the course: the saved record is on day 26 with
    courseCompleted as it was, and no notice is sent.  It is the next tick
    of the scheduler that marks the course completed and sends the
    notice. *)
Theorem missed_yes_last_day_then_tick (u : dict)
    (now_utc clock_date clock_time local_date local_time : datetime)
    (tz k : Z) (nd pd : bool) :
  wf_pending u = true →
  truthy (get u "courseCompleted") = false →
  in_course u 25 k →
  int_of_value (get_or u "timezone" (VInt 0)) = ok tz →
  user_local_now clock_date tz = ok local_date →
  user_local_now clock_time tz = ok local_time →
  ∃ u2 : dict,
    cb_missed_yes_user u = Outcome u2 [Saved u2; Edited NoteMissedDone] (ok tt)
    ∧ get u2 "currentDay" = VInt 26
    ∧ get u2 "courseCompleted" = get u "courseCompleted"
    ∧ tick_user now_utc clock_date clock_time nd pd u2
      = Outcome (<["courseCompleted" := VBool true]> u2)
          [Saved (<["courseCompleted" := VBool true]> u2);
           Sent CompletionNotice] (ok tt).
Proof.
  intros Hwf Hc (Hd & Hk & _ & _) Htz Hld Hlt.
  destruct (missed_yes_outcome u 25 k Hwf Hd Hk) as [_ H2].
  cbv zeta in H2.
  match type of H2 with _ = Outcome ?a _ _ => exists a end.
  split; [exact H2|]. dict_simpl. split; [reflexivity|].
  rewrite migrate_frame_get by done. split; [reflexivity|].
  apply (tick_user_past_course _ _ _ _ local_date local_time tz 26);
    dict_simpl; rewrite ?migrate_frame_get, ?migrate_frame_get_or by done;
    try done.
Qed.

(** The tests of the source on the text [HH:MM] inside the evening
    window. *)
Lemma evening_window_test (local : datetime) :
  evening_window local →
  String.leb "07:59" (strftime_HM local)
  && String.leb (strftime_HM local) "08:01" = false
  ∧ String.leb "20:59" (strftime_HM local)
    && String.leb (strftime_HM local) "21:02" = true.
Proof.
  unfold strftime_HM.
  intros [[-> ->] | [-> Hm]]; [split; reflexivity|].
  assert (minute local = 0 ∨ minute local = 1 ∨ minute local = 2)
    as [-> | [-> | ->]] by lia; split; reflexivity.
Qed.

(** On a valid time of day, the two tests of the source on the text
    [HH:MM] are the windows 07:59-08:01 and 20:59-21:02, bounds
    included. *)
Lemma window_tests (local : datetime) :
  0 ≤ hour local ≤ 23 → 0 ≤ minute local ≤ 59 →
  (String.leb "07:59" (strftime_HM local)
   && String.leb (strftime_HM local) "08:01" = true
   → morning_window local)
  ∧ (String.leb "20:59" (strftime_HM local)
     && String.leb (strftime_HM local) "21:02" = true
     → evening_window local).
Proof.
  intros Hh Hm. split; [by apply morning_window_iff|].
  unfold strftime_HM, evening_window.
  assert (Hall :
    forallb (λ h, forallb (λ m,
      implb (String.leb "20:59" (pad 2 h +:+ ":" +:+ pad 2 m)
             && String.leb (pad 2 h +:+ ":" +:+ pad 2 m) "21:02")
            ((h =? 20) && (m =? 59) || (h =? 21) && (0 <=? m) && (m <=? 2)))
      (seqZ 0 60)) (seqZ 0 24) = true) by (vm_compute; reflexivity).
  rewrite forallb_forall in Hall.
  specialize (Hall (hour local)).
  rewrite forallb_forall in Hall.
  specialize (Hall ltac:(apply list_elem_of_In, elem_of_seqZ; lia)
                (minute local)
                ltac:(apply list_elem_of_In, elem_of_seqZ; lia)).
  intros Hw. rewrite Hw in Hall. cbn [implb] in Hall.
  apply orb_true_iff in Hall as [H|H].
  - apply andb_true_iff in H as [H1 H2]. left. lia.
  - apply andb_true_iff in H as [H H3]. apply andb_true_iff in H as [H1 H2].
    right. lia.
Qed.

(** The local time of a user is a valid time of day. *)
Lemma user_local_now_valid (clock : datetime) (tz : Z) (local : datetime) :
  user_local_now clock tz = ok local →
  0 ≤ hour local ≤ 23 ∧ 0 ≤ minute local ≤ 59.
Proof.
  unfold user_local_now.
  destruct (mk_timedelta (tz * us_per_hour)) as [e|delta];
    [intros H; discriminate H|].
  cbn [mbind result_bind]. intros H.
  destruct (datetime_add_valid _ _ _ H) as [Hv _].
  unfold valid_fields in Hv.
  repeat match type of Hv with
         | _ && _ = true => apply andb_true_iff in Hv as [Hv ?]
         end.
  repeat match goal with
         | H : (_ <=? _) = true |- _ => apply Z.leb_le in H
         end.
  lia.
Qed.

(** The check of missed doses inside its window. *)
Lemma missed_check_in_window (u : dict) (today hm : string) (required k : Z) :
  String.leb "20:59" hm && String.leb hm "21:02" = true →
  as_int (get_or u "takenToday" (VInt 0)) = ok k →
  missed_check today hm required u
  = if (required - k >? 0) && ne_str (get u "last21Check") today then
      Outcome (<["last21Check" := VStr today]> u)
        [Saved (<["last21Check" := VStr today]> u);
         Sent (MissedPrompt (required - k))]
        (ok tt)
    else Outcome u [] (ok tt).
Proof.
  intros Hw Hk. unfold missed_check. rewrite Hw, bind_read, Hk, bind_lift_ok.
  cbv zeta.
  destruct ((required - k >? 0) && ne_str (get u "last21Check") today);
    [|reflexivity].
  rewrite bind_store, bind_save. reflexivity.
Qed.

(** With no timer set and no legacy list, the third step of the tick only
    makes sure that the record has the two timer keys, and does not save
    it. *)
Lemma reminders_due_idle (u : dict) (now_utc : datetime) (d : Z) (nd pd : bool) :
  no_timers u →
  reminders_due now_utc d nd pd u = Outcome (with_timer_keys u) [] (ok tt).
Proof.
  intros (Hp & Hn & Hq). unfold reminders_due.
  rewrite (bind_outcome _ _ _ _ _ _ (migrate_absent u Hp)).
  cbn [app]. rewrite outcome_eta, bind_read. cbv zeta.
  unfold fire_timer. rewrite !get_with_timer_keys, Hn, Hq.
  rewrite !bind_ret. reflexivity.
Qed.

Lemma no_timers_with_keys (u : dict) :
  no_timers u → no_timers (with_timer_keys u).
Proof.
  intros (Hp & Hn & Hq). unfold no_timers.
  by rewrite lookup_with_timer_keys, !get_with_timer_keys.
Qed.

(** X7.  The evening check of missed doses.  For a user in the evening
    window 20:59-21:02 (local time) with no timer set, the tick sends the
    prompt with the number of doses still to take, stores the local date
    in last21Check and saves, when doses of the day are missing and
    last21Check is not that date; otherwise it sends and saves nothing.
    After a prompt, a later tick of the same local date, at any time of
    the window, sends and saves nothing. *)
Theorem missed_prompt_once (u : dict)
    (now_utc clock_date clock_time local_date local_time : datetime)
    (tz d k : Z) (nd pd : bool) :
  truthy (get u "courseCompleted") = false →
  int_of_value (get_or u "timezone" (VInt 0)) = ok tz →
  as_int (get_or u "currentDay" (VInt 1)) = ok d →
  d ≤ 25 →
  as_int (get_or u "takenToday" (VInt 0)) = ok k →
  no_timers u →
  user_local_now clock_date tz = ok local_date →
  user_local_now clock_time tz = ok local_time →
  evening_window local_time →
  let today := strftime_Ymd local_date in
  let missed := get_required_doses d - k in
  let u' := <["last21Check" := VStr today]> u in
  let asks := (missed >? 0) && ne_str (get u "last21Check") today in
  tick_user now_utc clock_date clock_time nd pd u
  = (if asks
     then Outcome (with_timer_keys u') [Saved u'; Sent (MissedPrompt missed)]
            (ok tt)
     else Outcome (with_timer_keys u) [] (ok tt))
  ∧ ∀ (now2 date2 time2 local_date2 local_time2 : datetime) (nd2 pd2 : bool),
      user_local_now date2 tz = ok local_date2 →
      user_local_now time2 tz = ok local_time2 →
      strftime_Ymd local_date2 = today →
      evening_window local_time2 →
      tick_user now2 date2 time2 nd2 pd2 (with_timer_keys u')
      = Outcome (with_timer_keys u') [] (ok tt).
Proof.
  intros Hc Htz Hd Hle Hk Hnt Hld Hlt Hw today missed u' asks.
  assert (Hnt' : no_timers u').
  { destruct Hnt as (Hp & Hn & Hq). unfold no_timers, u'.
    by rewrite lookup_insert_ne, !get_insert_ne. }
  split.
  - rewrite (tick_user_active u _ _ _ local_date local_time tz d) by done.
    destruct (evening_window_test _ Hw) as [Hm He].
    assert (H1 : morning_check (strftime_Ymd local_date)
                   (strftime_HM local_time) d (get_required_doses d) u
                 = Outcome u [] (ok tt))
      by (unfold morning_check; by rewrite Hm).
    rewrite (bind_outcome _ _ _ _ _ _ H1). cbn [app]. rewrite outcome_eta.
    pose proof (missed_check_in_window u today (strftime_HM local_time)
                  (get_required_doses d) k He Hk) as H2.
    fold missed asks u' in H2. fold today.
    destruct asks.
    + rewrite (bind_outcome _ _ _ _ _ _ H2).
      by rewrite reminders_due_idle.
    + rewrite (bind_outcome _ _ _ _ _ _ H2).
      by rewrite reminders_due_idle.
  - intros now2 date2 time2 ld2 lt2 nd2 pd2 Hld2 Hlt2 Hsame Hw2.
    rewrite (tick_user_active _ _ _ _ ld2 lt2 tz d);
      [| rewrite get_with_timer_keys; unfold u'; by rewrite get_insert_ne
       | unfold get_or; rewrite lookup_with_timer_keys by done;
         unfold u'; by rewrite lookup_insert_ne
       | done | done
       | unfold get_or; rewrite lookup_with_timer_keys by done;
         unfold u'; by rewrite lookup_insert_ne
       | done ].
    destruct (evening_window_test _ Hw2) as [Hm He]. rewrite Hsame.
    assert (H1 : morning_check today (strftime_HM lt2) d
                   (get_required_doses d) (with_timer_keys u')
                 = Outcome (with_timer_keys u') [] (ok tt))
      by (unfold morning_check; by rewrite Hm).
    rewrite (bind_outcome _ _ _ _ _ _ H1). cbn [app]. rewrite outcome_eta.
    assert (Hk' : as_int (get_or (with_timer_keys u') "takenToday" (VInt 0))
                  = ok k).
    { unfold get_or. rewrite lookup_with_timer_keys by done.
      unfold u'. by rewrite lookup_insert_ne. }
    pose proof (missed_check_in_window (with_timer_keys u') today
                  (strftime_HM lt2) (get_required_doses d) k He Hk') as H2.
    assert (Hl : get u' "last21Check" = VStr today)
      by (unfold u'; apply get_insert_eq).
    rewrite get_with_timer_keys, Hl, ne_str_same, andb_false_r in H2.
    rewrite (bind_outcome _ _ _ _ _ _ H2). cbn [app].
    rewrite reminders_due_idle by by apply no_timers_with_keys.
    by rewrite with_timer_keys_idem.
Qed.

(** X8.  Outside the two windows, for a user within the course with no
    timer set, the tick sends nothing and saves nothing: it only makes
    sure that the record in memory has the two timer keys. *)
Theorem quiet_tick (u : dict)
    (now_utc clock_date clock_time local_date local_time : datetime)
    (tz d : Z) (nd pd : bool) :
  truthy (get u "courseCompleted") = false →
  int_of_value (get_or u "timezone" (VInt 0)) = ok tz →
  as_int (get_or u "currentDay" (VInt 1)) = ok d →
  d ≤ 25 →
  no_timers u →
  user_local_now clock_date tz = ok local_date →
  user_local_now clock_time tz = ok local_time →
  ¬ morning_window local_time → ¬ evening_window local_time →
  tick_user now_utc clock_date clock_time nd pd u
  = Outcome (with_timer_keys u) [] (ok tt).
Proof.
  intros Hc Htz Hd Hle Hnt Hld Hlt Hnm Hne.
  rewrite (tick_user_active u _ _ _ local_date local_time tz d) by done.
  destruct (user_local_now_valid _ _ _ Hlt) as [Hh Hmi].
  destruct (window_tests local_time Hh Hmi) as [Hm He].
  assert (H1 : morning_check (strftime_Ymd local_date)
                 (strftime_HM local_time) d (get_required_doses d) u
               = Outcome u [] (ok tt)).
  { unfold morning_check.
    destruct (String.leb "07:59" (strftime_HM local_time)
              && String.leb (strftime_HM local_time) "08:01");
      [by destruct Hnm; apply Hm|reflexivity]. }
  assert (H2 : missed_check (strftime_Ymd local_date)
                 (strftime_HM local_time) (get_required_doses d) u
               = Outcome u [] (ok tt)).
  { unfold missed_check.
    destruct (String.leb "20:59" (strftime_HM local_time)
              && String.leb (strftime_HM local_time) "21:02");
      [by destruct Hne; apply He|reflexivity]. }
  rewrite (bind_outcome _ _ _ _ _ _ H1). cbn [app]. rewrite outcome_eta.
  rewrite (bind_outcome _ _ _ _ _ _ H2). cbn [app].
  by rewrite reminders_due_idle.
Qed.


(** ** The timers, further *)

(** A dose event that returns leaves a record with both timer keys. *)
Lemma apply_taken_has_timer_keys (u : dict) (now : datetime)
    (c : option message) :
  o_result (_apply_taken now u) = ok c →
  is_Some (o_state (_apply_taken now u) !! "nextReminderTimestamp")
  ∧ is_Some (o_state (_apply_taken now u) !! "postponedReminderTimestamp").
Proof.
  assert (Hthrow : ∀ A B (e : exn) (f : A → M B) (s : dict),
             o_result ((lift (throw e) ≫= f) s) = throw e) by reflexivity.
  unfold _apply_taken. rewrite bind_read.
  destruct (as_int (get_or u "takenToday" (VInt 0))) as [e|k];
    [intros H; discriminate H|].
  steps.
  destruct (as_int (get_or u "currentDay" (VInt 1))) as [e|d];
    [rewrite Hthrow; intros H; discriminate H|].
  steps. cbv zeta.
  destruct (k + 1 >=? get_required_doses d); steps.
  - cbn [as_int]. steps. destruct (d + 1 >? 25); steps.
    + intros _. cbn [o_state mret M_ret].
      split; repeat (rewrite lookup_insert_ne by done);
        rewrite lookup_insert_eq; eauto.
    + destruct (plus_hours now (get_interval_hours (d + 1))) as [e|t];
        [rewrite Hthrow; intros H; discriminate H|].
      steps. intros _. cbn [o_state mret M_ret].
      split; repeat (rewrite lookup_insert_ne by done);
        rewrite lookup_insert_eq; eauto.
  - destruct (as_int (get_or u "currentDay" (VInt 1))) as [e|d'];
      [rewrite Hthrow; intros H; discriminate H|].
    steps. destruct (d' >? 25); steps.
    + intros _. cbn [o_state mret M_ret].
      split; repeat (rewrite lookup_insert_ne by done);
        rewrite lookup_insert_eq; eauto.
    + destruct (plus_hours now (get_interval_hours d')) as [e|t];
        [rewrite Hthrow; intros H; discriminate H|].
      steps. intros _. cbn [o_state mret M_ret].
      split; repeat (rewrite lookup_insert_ne by done);
        rewrite lookup_insert_eq; eauto.
Qed.

Lemma fire_timer_unset (key : string) (ts : value) (now_utc : datetime)
    (d : Z) (delivered : bool) (u : dict) :
  truthy ts = false →
  fire_timer key ts now_utc d delivered u = Outcome u [] (ok false).
Proof. intros H. unfold fire_timer. by rewrite H. Qed.

(** X10.  No reminder that the program schedules is ever delivered.  The
    timer that a dose event sets, and the timer that "remind later" sets,
    are both erased by the scheduler the first time it looks at them,
    whatever the time of the look, before or after they are due: the
    record is saved with the timer null and no reminder is sent. *)
Theorem scheduled_reminders_are_dropped (u : dict) (now now_utc : datetime)
    (d k day : Z) (nd pd : bool) :
  u !! "pendingReminders" = None →
  truthy (get u "courseCompleted") = false →
  in_course u d k → 1 < doses_left d k →
  clock_reading now → tzinfo now_utc = None →
  (let st := o_state (_apply_taken now u) in
   let st' := <["nextReminderTimestamp" := VNone]> st in
   truthy (get st "nextReminderTimestamp") = true
   ∧ reminders_due now_utc day nd pd st = Outcome st' [Saved st'] (ok tt))
  ∧ (truthy (get u "nextReminderTimestamp") = false →
     let st := o_state (cb_postpone_user now u) in
     let st' := <["postponedReminderTimestamp" := VNone]> (with_timer_keys st) in
     truthy (get st "postponedReminderTimestamp") = true
     ∧ reminders_due now_utc day nd pd st = Outcome st' [Saved st'] (ok tt)).
Proof.
  intros Hp Hc Hin Hleft Hnow Hutc.
  pose proof Hnow as (Hv & Hnaive & Hy).
  split.
  - destruct (apply_taken_in_course u now d k Hin Hnow)
      as (d' & k' & _ & _ & _ & _ & _ & Hpost & _ & Hmore & _).
    cbv zeta in *.
    destruct (Hmore Hleft) as (_ & Hres & _ & t & Ht & Hnext).
    destruct (apply_taken_has_timer_keys u now None Hres) as [Hk1 Hk2].
    pose proof (apply_taken_frame u now "pendingReminders"
                  ltac:(done) ltac:(done) ltac:(done) ltac:(done)
                  ltac:(done) ltac:(done) ltac:(done)) as Hfr.
    rewrite Hp in Hfr.
    set (st := o_state (_apply_taken now u)) in *.
    destruct (plus_hours_valid _ _ _ Ht) as [Hvt Htz].
    split; [rewrite Hnext; apply stamp_truthy|].
    unfold reminders_due.
    rewrite (bind_outcome _ _ _ _ _ _ (migrate_nothing_to_do st Hk1 Hk2 Hfr)).
    cbn [app]. rewrite outcome_eta, bind_read. cbv zeta.
    rewrite Hnext, Hpost.
    rewrite (bind_outcome _ _ _ _ _ _
               (own_timer_never_fires "nextReminderTimestamp" t now_utc day nd
                  st Hvt ltac:(by rewrite Htz) Hutc)).
    cbn [app]. rewrite outcome_eta.
    rewrite (bind_outcome _ _ _ _ _ _
               (fire_timer_unset "postponedReminderTimestamp" VNone now_utc
                  day pd _ eq_refl)).
    reflexivity.
  - intros Hn. cbv zeta.
    destruct (plus_minutes_returns now Hnow) as [t Ht].
    destruct (plus_minutes_valid _ _ _ Ht) as [Hvt Htz].
    assert (Hst : cb_postpone_user now u
                  = Outcome (<["postponedReminderTimestamp" := stamp t]> u)
                      [Saved (<["postponedReminderTimestamp" := stamp t]> u);
                       Edited NotePostponed] (ok tt)).
    { unfold cb_postpone_user.
      rewrite bind_read, Hc, Ht, bind_lift_ok, bind_store, bind_save.
      reflexivity. }
    rewrite Hst. cbn [o_state].
    set (st := <["postponedReminderTimestamp" := stamp t]> u).
    assert (Hq : get st "postponedReminderTimestamp" = stamp t)
      by apply get_insert_eq.
    split; [rewrite Hq; apply stamp_truthy|].
    assert (Hp' : st !! "pendingReminders" = None)
      by (unfold st; by rewrite lookup_insert_ne).
    unfold reminders_due.
    rewrite (bind_outcome _ _ _ _ _ _ (migrate_absent st Hp')).
    cbn [app]. rewrite outcome_eta, bind_read. cbv zeta.
    rewrite !get_with_timer_keys, Hq.
    replace (get st "nextReminderTimestamp")
      with (get u "nextReminderTimestamp")
      by (unfold st; by rewrite get_insert_ne).
    rewrite (bind_outcome _ _ _ _ _ _
               (fire_timer_unset "nextReminderTimestamp" _ now_utc
                  day nd _ Hn)).
    cbn [app]. rewrite outcome_eta.
    rewrite (bind_outcome _ _ _ _ _ _
               (own_timer_never_fires "postponedReminderTimestamp" t now_utc
                  day pd _ Hvt ltac:(by rewrite Htz) Hutc)).
    reflexivity.
Qed.

(** X11.  A timer whose stored text parses to a naive datetime behaves as
    a timer should.  For a record with no legacy list and no postponed
    timer, the scheduler does nothing before the instant of
    nextReminderTimestamp; from that instant on it sends the reminder of
    the day, clears the timer and saves, whether or not the delivery
    succeeds, and a second look at the record sends nothing more. *)
Theorem naive_timer_fires_when_due (u : dict) (dt now_utc : datetime)
    (day : Z) (nd pd : bool) :
  u !! "pendingReminders" = None →
  truthy (get u "nextReminderTimestamp") = true →
  parse_timestamp (get u "nextReminderTimestamp") = ok dt →
  tzinfo dt = None → tzinfo now_utc = None →
  truthy (get u "postponedReminderTimestamp") = false →
  let u' := <["nextReminderTimestamp" := VNone]> (with_timer_keys u) in
  reminders_due now_utc day nd pd u
  = (if wall_us now_utc <? wall_us dt
     then Outcome (with_timer_keys u) [] (ok tt)
     else Outcome u' [Sent (DoseReminder day); Saved u'] (ok tt))
  ∧ ∀ (now2 : datetime) (nd2 pd2 : bool),
      reminders_due now2 day nd2 pd2 u' = Outcome u' [] (ok tt).
Proof.
  intros Hp Hn Hparse Hdt Hutc Hq u'. split.
  - unfold reminders_due.
    rewrite (bind_outcome _ _ _ _ _ _ (migrate_absent u Hp)).
    cbn [app]. rewrite outcome_eta, bind_read. cbv zeta.
    rewrite !get_with_timer_keys.
    pose proof (fire_timer_naive "nextReminderTimestamp"
                  (get u "nextReminderTimestamp") dt now_utc day nd
                  (with_timer_keys u) Hn Hparse Hdt Hutc) as H1.
    destruct (wall_us now_utc <? wall_us dt).
    + rewrite (bind_outcome _ _ _ _ _ _ H1). cbn [app]. rewrite outcome_eta.
      rewrite (bind_outcome _ _ _ _ _ _
                 (fire_timer_unset "postponedReminderTimestamp" _ now_utc
                    day pd _ Hq)).
      reflexivity.
    + rewrite (bind_outcome _ _ _ _ _ _ H1).
      rewrite (bind_outcome _ _ _ _ _ _
                 (fire_timer_unset "postponedReminderTimestamp" _ now_utc
                    day pd _ Hq)).
      reflexivity.
  - intros now2 nd2 pd2.
    assert (Hnt : no_timers u').
    { unfold no_timers, u'.
      rewrite lookup_insert_ne, lookup_with_timer_keys by done.
      rewrite get_insert_eq, get_insert_ne, get_with_timer_keys by done.
      done. }
    rewrite reminders_due_idle by done. f_equal.
    apply with_timer_keys_id; unfold u'.
    + rewrite lookup_insert_eq. eauto.
    + rewrite lookup_insert_ne, with_timer_keys_post by done. eauto.
Qed.

(** ** Legacy records, further *)

(** The loop of the upgrade raises on an entry that is not a JSON object,
    and only then. *)
Lemma earliest_loop_throws (l : list value) (acc : option datetime) (e : exn) :
  earliest_loop acc l = throw e →
  e = AttributeError ∧ forallb is_dict l = false.
Proof.
  revert acc. induction l as [|pr l IH]; intros acc; [intros H; discriminate H|].
  cbn [earliest_loop forallb].
  destruct pr as [| | | | |d];
    try (cbn; intros H; injection H as <-; by split).
  rewrite earliest_step_dict.
  change (mbind ?f (ok ?x)) with (f x). cbv beta.
  intros H. destruct (IH _ H) as [-> ->]. by split.
Qed.

Lemma iter_values_throws (v : value) (e : exn) :
  iter_values v = throw e →
  e = TypeError ∧ (v = VNone ∨ (∃ b, v = VBool b) ∨ ∃ n, v = VInt n).
Proof.
  destruct v; cbn; intros H; try discriminate H; injection H as <-;
    split; eauto.
Qed.

(** The upgrade only depends on the record with its two timer keys. *)
Lemma migrate_with_timer_keys (u : dict) :
  _migrate_user_reminders (with_timer_keys u) = _migrate_user_reminders u.
Proof. by rewrite (migrate_unfold (with_timer_keys u)), with_timer_keys_idem,
         <- migrate_unfold. Qed.

(** The two ways the upgrade ends, on any record. *)
Lemma migrate_any_cases (u : dict) :
  (∃ (b : bool) (s : dict),
     _migrate_user_reminders u = Outcome s [] (ok b)
     ∧ b = contains u "pendingReminders"
     ∧ s !! "pendingReminders" = None
     ∧ is_Some (s !! "nextReminderTimestamp")
     ∧ is_Some (s !! "postponedReminderTimestamp"))
  ∨ (∃ e : exn,
       _migrate_user_reminders u = Outcome (with_timer_keys u) [] (throw e)
       ∧ (e = TypeError ∨ e = AttributeError)
       ∧ wf_pending u = false
       ∧ truthy (get u "pendingReminders") = true
       ∧ truthy (get u "nextReminderTimestamp") = false).
Proof.
  pose proof (with_timer_keys_next u) as Hkn.
  pose proof (with_timer_keys_post u) as Hkp.
  rewrite migrate_unfold. cbv zeta. unfold contains, wf_pending.
  rewrite lookup_with_timer_keys, !get_with_timer_keys by done.
  destruct (u !! "pendingReminders") as [v|] eqn:Hp;
    [rewrite (get_lookup _ _ _ Hp)
    |replace (get u "pendingReminders") with VNone
       by (unfold get; by rewrite Hp)];
    cbn [negb orb truthy].
  - destruct (truthy v) eqn:Hv; cbn [negb].
    + destruct (truthy (get u "nextReminderTimestamp")) eqn:Hn.
      * left. eexists _, _. split; [reflexivity|]. split; [done|].
        rewrite lookup_delete_eq, !lookup_delete_ne, Hkn, Hkp by done. eauto.
      * destruct (iter_values v) as [e|l] eqn:Hl.
        -- right. exists e. split; [reflexivity|].
           destruct (iter_values_throws _ _ Hl) as [-> Hcases].
           split; [by left|].
           destruct Hcases as [-> | [[b ->] | [n ->]]]; [discriminate Hv|..];
             done.
        -- rewrite bind_lift_ok.
           destruct (earliest_loop None l) as [e|r] eqn:Hloop.
           ++ right. exists e. split; [reflexivity|].
              destruct (earliest_loop_throws _ _ _ Hloop) as [-> Hnd].
              split; [by right|]. split; [|done].
              destruct v as [| | | |l'|]; try done.
              cbn in Hl. by injection Hl as <-.
           ++ left. rewrite bind_lift_ok.
              destruct r as [dt|]; steps; eexists _, _;
                (split; [reflexivity|]); (split; [done|]);
                (split; [apply lookup_delete_eq|]);
                (split;
                 [rewrite lookup_delete_ne, lookup_insert_ne by done;
                  first [rewrite lookup_insert_eq | rewrite Hkn]; eauto
                 |rewrite lookup_delete_ne by done;
                  rewrite lookup_insert_eq; eauto]).
    + left. eexists _, _. split; [reflexivity|]. split; [done|].
      rewrite lookup_delete_eq, !lookup_delete_ne, Hkn, Hkp by done. eauto.
  - left. eexists _, _. split; [reflexivity|]. split; [done|].
    rewrite lookup_with_timer_keys, Hp, Hkn, Hkp by done. eauto.
Qed.

(** X12.  The upgrade on any record, well-formed or not.  It calls no
    collaborator and touches only the two timers and the legacy list.
    When it returns, the result tells whether the record had a
    pendingReminders key, that key is gone and both timer keys are there.
    When it raises (TypeError for a legacy value that cannot be iterated,
    AttributeError for an entry that is not an object), the record keeps
    its legacy list, so that the next call raises in the same way. *)
Theorem migrate_on_any_record (u : dict) :
  let o := _migrate_user_reminders u in
  o_trace o = []
  ∧ (∀ key, key ≠ "nextReminderTimestamp" →
            key ≠ "postponedReminderTimestamp" →
            key ≠ "pendingReminders" → o_state o !! key = u !! key)
  ∧ match o_result o with
    | inr b =>
        b = contains u "pendingReminders"
        ∧ o_state o !! "pendingReminders" = None
        ∧ is_Some (o_state o !! "nextReminderTimestamp")
        ∧ is_Some (o_state o !! "postponedReminderTimestamp")
    | inl e =>
        (e = TypeError ∨ e = AttributeError)
        ∧ wf_pending u = false
        ∧ o_state o !! "pendingReminders" = u !! "pendingReminders"
        ∧ _migrate_user_reminders (o_state o) = o
    end.
Proof.
  intros o. split; [apply migrate_silent|].
  split; [intros key; apply migrate_frame|].
  pose proof (migrate_with_timer_keys u) as Hre.
  unfold o.
  destruct (migrate_any_cases u)
    as [(b & s & E & Hb & Hs) | (e & E & He & Hwf & _)];
    rewrite E in *; cbn [o_result o_state].
  - by split.
  - split; [done|]. split; [done|].
    split; [by apply lookup_with_timer_keys|done].
Qed.

(** Replacing the UTC offset in a text that has it once, at its end. *)
Lemma replace_offset_at_end (s : string) :
  string_forall iso_char s = true →
  replace "+00:00" "Z" (s +:+ "+00:00") = s +:+ "Z".
Proof.
  unfold replace. induction s as [|c r IH]; intros H; [reflexivity|].
  cbn in H. apply andb_true_iff in H as [Hc Hr].
  rewrite !append_cons. cbn [replace_from].
  replace (String.prefix "+00:00" (String c (r +:+ "+00:00"))) with false.
  - by rewrite (IH Hr).
  - change "+00:00" with (String "+" "00:00"). cbn [String.prefix].
    destruct (ascii_dec "+" c) as [<-|]; [discriminate Hc|done].
Qed.

(** The ISO text of an instant in UTC is that of the naive instant
    followed by the offset. *)
Lemma isoformat_utc (y m d h mi s us : Z) :
  isoformat (mk_datetime y m d h mi s us (Some 0))
  = isoformat (mk_datetime y m d h mi s us None) +:+ "+00:00".
Proof.
  unfold isoformat. cbn [year month day hour minute second microsecond tzinfo].
  change (format_offset (Some 0)) with "+00:00".
  change (format_offset None) with EmptyString.
  rewrite !append_assoc.
  destruct (us =? 0); [reflexivity|]. by rewrite !append_assoc.
Qed.

(** The text of a stored instant survives being parsed and written again
    by the upgrade. *)
Lemma stamp_round_trip (d : datetime) :
  valid_fields d = true → tzinfo d = None →
  ∃ dt, parse_timestamp (stamp d) = ok dt
        ∧ VStr (replace "+00:00" "Z" (isoformat dt)) = stamp d.
Proof.
  intros Hv Hn. eexists. split; [by apply stamp_parses_aware|].
  rewrite isoformat_utc.
  assert (Hd : mk_datetime (year d) (month d) (day d) (hour d) (minute d)
                 (second d) (microsecond d) None = d)
    by (destruct d; cbn in *; by subst).
  rewrite Hd, replace_offset_at_end by by apply isoformat_chars.
  reflexivity.
Qed.

(** X13.  A legacy reminder whose trigger time was written by the program
    itself, as the text of a UTC instant ending in "Z", becomes the
    reminder timer with the very same text: parsing the text and writing
    it again gives it back. *)
Theorem migrate_keeps_own_stamp (u entry : dict) (d : datetime) :
  valid_fields d = true → tzinfo d = None →
  u !! "pendingReminders" = Some (VList [VDict entry]) →
  get entry "triggerAt" = stamp d →
  truthy (get u "nextReminderTimestamp") = false →
  let o := _migrate_user_reminders u in
  o_result o = ok true
  ∧ get (o_state o) "nextReminderTimestamp" = stamp d
  ∧ get (o_state o) "postponedReminderTimestamp" = VNone
  ∧ o_state o !! "pendingReminders" = None.
Proof.
  intros Hv Hn Hp Ht Hnext o.
  destruct (stamp_round_trip d Hv Hn) as (dt & Hparse & Hback).
  assert (Hloop : earliest_loop None [VDict entry] = ok (Some dt)).
  { cbn [earliest_loop earliest_step]. rewrite Ht, stamp_truthy, Hparse.
    reflexivity. }
  unfold o.
  rewrite (migrate_upgraded u [VDict entry] (Some dt) Hp ltac:(done) Hnext Hloop).
  cbn [o_state o_result]. split; [done|].
  unfold get. rewrite lookup_delete_eq, !lookup_delete_ne by done.
  rewrite lookup_insert_eq, lookup_insert_ne, lookup_insert_eq by done.
  cbn [default]. by rewrite Hback.
Qed.

(** ** Registration *)

(** The offsets that [parse_timezone] accepts. *)
Lemma parse_timezone_range (zeros : list N) (s : text) (tz : Z) :
  parse_timezone zeros s = ok (Some tz) → -12 ≤ tz ≤ 14.
Proof.
  unfold parse_timezone. cbv zeta.
  destruct (match_timezone zeros (strip_text s)) as [[g1 g2]|];
    [|intros H; discriminate H].
  destruct (int_text zeros g1) as [e|h]; [intros H; discriminate H|].
  cbn [mbind result_bind].
  destruct (match g2 with
            | Some (_ :: _) => true
            | _ => false
            end); [intros H; discriminate H|].
  destruct (Z.ltb_spec h (-12)); [intros H'; discriminate H'|].
  rewrite Z.gtb_ltb.
  destruct (Z.ltb_spec 14 h); [intros H'; discriminate H'|].
  cbn [orb]. intros H'. injection H' as <-. lia.
Qed.

(** X14.  The time zone survives registration.  An offset that
    [parse_timezone] accepts, in the digits of any script and whatever the
    table of the decimal digits, is stored by [_save_new_user] as its
    decimal text in ASCII, and [int()] in the scheduler reads the same
    offset back from the new record, whatever the start date. *)
Theorem timezone_round_trip (zeros : list N) (s : text) (date : string)
    (tz : Z) :
  parse_timezone zeros s = ok (Some tz) →
  get (new_user date tz) "timezone" = VStr (pretty tz)
  ∧ int_of_value (get_or (new_user date tz) "timezone" (VInt 0)) = ok tz.
Proof.
  intros H. apply parse_timezone_range in H.
  unfold new_user. dict_simpl. split; [reflexivity|].
  assert (Hall : forallb (λ z, match int_of_value (VStr (pretty z)) with
                               | inr z' => z' =? z
                               | inl _ => false
                               end) (seqZ (-12) 27) = true)
    by (vm_compute; reflexivity).
  rewrite forallb_forall in Hall.
  specialize (Hall tz ltac:(apply list_elem_of_In, elem_of_seqZ; lia)).
  destruct (int_of_value (VStr (pretty tz))) as [e|z]; [discriminate Hall|].
  apply Z.eqb_eq in Hall. by subst.
Qed.

(** Dates in ASCII digits, and dates with fullwidth digits: in the year
    and in the second place of a day from 10 to 29 they are read, in the
    month they are not. *)
Example parse_date_samples :
  map (λ s, parse_date unicode_zeros (text_of_string s))
      [" 2025-03-01 "; "2024-02-29"; "2025-02-29"; "2025-13-01";
       "2025-00-10"; "0000-01-01"; "2025-3-1"; "01-03-2025"]
  = [ok (Some (text_of_string "2025-03-01"));
     ok (Some (text_of_string "2024-02-29")); ok None; ok None; ok None;
     ok None; ok None; ok None]
  ∧ map (parse_date unicode_zeros)
        [ [0xFF12; 0xFF10; 0xFF12; 0xFF15; 45; 48; 51; 45; 48; 49];
          [50; 48; 50; 53; 45; 48; 51; 45; 49; 0xFF15];
          [50; 48; 50; 53; 45; 0xFF10; 0xFF13; 45; 48; 49];
          [50; 48; 50; 53; 45; 48; 51; 45; 48; 0xFF15] ]%N
    = [ ok (Some [0xFF12; 0xFF10; 0xFF12; 0xFF15; 45; 48; 51; 45; 48; 49]%N);
        ok (Some [50; 48; 50; 53; 45; 48; 51; 45; 49; 0xFF15]%N);
        ok None; ok None ]
  ∧ map (λ s, format_date_dd_mm_yyyy unicode_zeros (text_of_string s))
        ["2025-03-01"; "2025-3-1"; "2025-03-01 "]
    = [ok "01-03-2025"; ok "01-03-2025"; throw ValueError]
  ∧ format_date_dd_mm_yyyy unicode_zeros
      [0xFF12; 0xFF10; 0xFF12; 0xFF15; 45; 48; 51; 45; 49; 0xFF15]%N
    = ok "15-03-2025".
Proof. vm_compute. repeat split; reflexivity. Qed.

(** ** Dates typed by the user *)

Ltac digit_cases v :=
  let H := fresh in
  assert (v = 0 ∨ v = 1 ∨ v = 2 ∨ v = 3 ∨ v = 4 ∨ v = 5 ∨ v = 6 ∨ v = 7
          ∨ v = 8 ∨ v = 9) as H by lia;
  decompose [or] H; clear H; subst v.

Lemma ascii_in_none (lo hi : Z) (c : N) :
  ascii_digit c = None → ascii_in lo hi c = false.
Proof. unfold ascii_in. by intros ->. Qed.

Lemma ascii_digit_none_neq (c k : N) (d : Z) :
  ascii_digit c = None → ascii_digit k = Some d → (c =? k)%N = false.
Proof. intros Hc Hk. apply N.eqb_neq. intros ->. congruence. Qed.

(** [%m] on two decimal digits followed by ["-"]: the month they write,
    when both are ASCII digits and it is one. *)
Lemma strptime_month_digits {B} (zeros : list N) (K : text → text → option B)
    (m1 m2 : N) (rest : text) :
  isdecimal zeros m1 = true → isdecimal zeros m2 = true →
  head (omap (λ '(gm, r), r ← literal 45 r; K gm r)
          (strptime_month (m1 :: m2 :: 45%N :: rest)))
  = match ascii_digit m1, ascii_digit m2 with
    | Some a, Some b =>
        if (1 <=? 10 * a + b) && (10 * a + b <=? 12) then K [m1; m2] rest
        else None
    | _, _ => None
    end.
Proof.
  intros H1 H2.
  destruct (isdecimal_neq zeros m2 45 H2) as [_ Hm2]; [done..|].
  destruct (ascii_digit m2) as [b|] eqn:E2.
  - destruct (ascii_digit m1) as [a|] eqn:E1.
    + apply ascii_digit_inv in E1 as [Ha ->], E2 as [Hb ->].
      digit_cases a; digit_cases b; vm_compute;
        try reflexivity; by destruct (K _ rest).
    + unfold strptime_month.
      rewrite (ascii_digit_none_neq m1 49 1 E1), (ascii_digit_none_neq m1 48 0 E1)
        by done.
      by rewrite (ascii_in_none 1 9 m1 E1).
  - unfold strptime_month. rewrite !(ascii_in_none _ _ m2 E2), !andb_false_r.
    cbn [app]. destruct (ascii_digit m1); destruct (ascii_in 1 9 m1);
      cbn [omap list_omap literal]; rewrite ?Hm2; reflexivity.
Qed.

(** [%d] on two decimal digits: both, when they write a day as the
    pattern has it; otherwise the first digit alone. *)
Lemma strptime_day_digits (zeros : list N) (d1 d2 : N) (rest : text) :
  isdecimal zeros d1 = true → isdecimal zeros d2 = true →
  strptime_day zeros (d1 :: d2 :: rest)
  = match ascii_digit d1 with
    | Some a =>
        if day_taken a d2 then Some ([d1; d2], rest)
        else if 1 <=? a then Some ([d1], d2 :: rest) else None
    | None => None
    end.
Proof.
  intros H1 H2. unfold strptime_day, day_taken. rewrite H2.
  destruct (ascii_digit d1) as [a|] eqn:E1.
  - destruct (ascii_digit d2) as [b|] eqn:E2.
    + apply ascii_digit_inv in E1 as [Ha ->], E2 as [Hb ->].
      digit_cases a; digit_cases b; vm_compute; reflexivity.
    + rewrite !(ascii_in_none _ _ d2 E2).
      apply ascii_digit_inv in E1 as [Ha ->].
      digit_cases a; vm_compute; reflexivity.
  - rewrite (ascii_digit_none_neq d1 51 3 E1), (ascii_digit_none_neq d1 49 1 E1),
      (ascii_digit_none_neq d1 50 2 E1), (ascii_digit_none_neq d1 48 0 E1)
      by done.
    rewrite (ascii_in_none 1 9 d1 E1). cbn [andb orb].
    destruct (isdecimal_neq zeros d1 32 H1) as [-> _]; done.
Qed.

Lemma days_in_month_le (y m : Z) : _days_in_month y m ≤ 31.
Proof.
  unfold _days_in_month, _DAYS_IN_MONTH.
  destruct ((m =? 2) && _is_leap y); [lia|].
  destruct m as [|[[[[]|[]|]|[[]|[]|]|]|[[[]|[]|]|[[]|[]|]|]|]|]; lia.
Qed.

Lemma valid_date_fields (y m d : Z) :
  valid_fields (mk_datetime y m d 0 0 0 0 None) = true ↔ calendar_date y m d.
Proof.
  unfold valid_fields, calendar_date.
  cbn [year month day hour minute second microsecond].
  rewrite !andb_true_iff, !Z.leb_le. intuition lia.
Qed.

Lemma match_date_inv (zeros : list N) (t : text) :
  match_date zeros t = true →
  ∃ (ys : text) (m1 m2 d1 d2 : N) (r : text),
    t = (ys ++ 45%N :: m1 :: m2 :: 45%N :: d1 :: d2 :: r)%list
    ∧ length ys = 4%nat ∧ all_digits zeros ys = true
    ∧ isdecimal zeros m1 = true ∧ isdecimal zeros m2 = true
    ∧ isdecimal zeros d1 = true ∧ isdecimal zeros d2 = true
    ∧ at_end r = true.
Proof.
  unfold match_date.
  destruct t as [|y1 [|y2 [|y3 [|y4 [|h1 [|m1 [|m2 [|h2 [|d1 [|d2 r]]]]]]]]]];
    try (intros H; discriminate H).
  intros H.
  repeat match type of H with
         | _ && _ = true => apply andb_true_iff in H as [H ?]
         end.
  repeat match goal with
         | H : (_ =? _)%N = true |- _ => apply N.eqb_eq in H as ->
         end.
  exists [y1; y2; y3; y4], m1, m2, d1, d2, r.
  unfold all_digits. cbn [forallb app length].
  repeat match goal with H : isdecimal _ _ = true |- _ => rewrite H; clear H end.
  done.
Qed.

Lemma match_date_shape (zeros : list N) (ys : text) (m1 m2 d1 d2 : N) :
  length ys = 4%nat → all_digits zeros ys = true →
  isdecimal zeros m1 = true → isdecimal zeros m2 = true →
  isdecimal zeros d1 = true → isdecimal zeros d2 = true →
  match_date zeros (ys ++ [45; m1; m2; 45; d1; d2]%N)%list = true.
Proof.
  intros Hl Hy H1 H2 H3 H4.
  destruct ys as [|y1 [|y2 [|y3 [|y4 [|]]]]]; try discriminate Hl.
  unfold all_digits in Hy. cbn [forallb] in Hy.
  repeat match type of Hy with
         | _ && _ = true => apply andb_true_iff in Hy as [? Hy]
         end.
  cbn [app match_date at_end].
  repeat match goal with H : isdecimal _ _ = true |- _ => rewrite H; clear H end.
  reflexivity.
Qed.

(** The groups of a text that has the shape of a date. *)
Lemma strptime_groups_shape (zeros : list N) (ys : text) (m1 m2 d1 d2 : N)
    (r : text) :
  length ys = 4%nat → all_digits zeros ys = true →
  isdecimal zeros m1 = true → isdecimal zeros m2 = true →
  isdecimal zeros d1 = true → isdecimal zeros d2 = true →
  strptime_groups zeros (ys ++ 45%N :: m1 :: m2 :: 45%N :: d1 :: d2 :: r)%list
  = match ascii_digit m1, ascii_digit m2, ascii_digit d1 with
    | Some vm1, Some vm2, Some va =>
        if (1 <=? 10 * vm1 + vm2) && (10 * vm1 + vm2 <=? 12) then
          if day_taken va d2 then Some (ys, [m1; m2], [d1; d2], r)
          else if 1 <=? va then Some (ys, [m1; m2], [d1], d2 :: r)
          else None
        else None
    | _, _, _ => None
    end.
Proof.
  intros Hl Hy H1 H2 H3 H4.
  destruct ys as [|y1 [|y2 [|y3 [|y4 [|]]]]]; try discriminate Hl.
  unfold all_digits in Hy. cbn [forallb] in Hy.
  repeat match type of Hy with
         | _ && _ = true => apply andb_true_iff in Hy as [? Hy]
         end.
  unfold strptime_groups. cbn [app strptime_year].
  repeat match goal with
         | H : isdecimal _ ?y = true |- context [isdecimal _ ?y] => rewrite H
         end.
  cbn [andb mbind option_bind literal]. change (45 =? 45)%N with true.
  cbv iota. cbn [mbind option_bind].
  rewrite (strptime_month_digits zeros
             (λ gm r0, '(gd, r1) ← strptime_day zeros r0;
                       Some ([y1; y2; y3; y4], gm, gd, r1))) by done.
  destruct (ascii_digit m1) as [vm1|]; [|reflexivity].
  destruct (ascii_digit m2) as [vm2|]; [|by destruct (ascii_digit d1)].
  rewrite strptime_day_digits by done.
  destruct (ascii_digit d1) as [va|];
    [|by destruct ((1 <=? 10 * vm1 + vm2) && (10 * vm1 + vm2 <=? 12))].
  destruct ((1 <=? 10 * vm1 + vm2) && (10 * vm1 + vm2 <=? 12)); [|reflexivity].
  destruct (day_taken va d2); [reflexivity|].
  by destruct (1 <=? va).
Qed.

Section DateFacts.

Variable zeros : list N.
Hypothesis Hok : digits_ok zeros = true.

(** [int] on a text of decimal digits. *)
Lemma int_text_digits (ds : text) :
  ds ≠ [] → all_digits zeros ds = true →
  int_text zeros ds = ok (decimal zeros ds).
Proof.
  intros Hne Hd.
  exact (int_text_signed zeros Hok [] ds (or_introl eq_refl) Hne Hd).
Qed.

Lemma decimal_two (a b : N) (va vb : Z) :
  todecimal zeros a = Some va → todecimal zeros b = Some vb →
  all_digits zeros [a; b] = true ∧ decimal zeros [a; b] = 10 * va + vb.
Proof.
  intros Ha Hb. unfold all_digits, decimal. cbn [forallb fold_left].
  rewrite (todecimal_isdecimal _ _ _ Ha), (todecimal_isdecimal _ _ _ Hb).
  rewrite Ha, Hb. cbv [default from_option id]. split; [done|lia].
Qed.

(** What [strptime] makes of a text that has the shape of a date. *)
Lemma strptime_Ymd_shape (ys : text) (m1 m2 d1 d2 : N) :
  length ys = 4%nat → all_digits zeros ys = true →
  isdecimal zeros m1 = true → isdecimal zeros m2 = true →
  isdecimal zeros d1 = true → isdecimal zeros d2 = true →
  strptime_Ymd zeros (ys ++ [45; m1; m2; 45; d1; d2]%N)%list
  = match ascii_digit m1, ascii_digit m2, ascii_digit d1 with
    | Some vm1, Some vm2, Some va =>
        let t := mk_datetime (decimal zeros ys) (10 * vm1 + vm2)
                   (10 * va + default 0 (todecimal zeros d2)) 0 0 0 0 None in
        if day_taken va d2 && valid_fields t then ok t else throw ValueError
    | _, _, _ => throw ValueError
    end.
Proof.
  intros Hl Hy H1 H2 H3 H4. unfold strptime_Ymd.
  change (ys ++ [45; m1; m2; 45; d1; d2]%N)%list
    with (ys ++ 45 :: m1 :: m2 :: 45 :: d1 :: d2 :: [])%N%list.
  rewrite strptime_groups_shape by done.
  destruct (ascii_digit m1) as [vm1|] eqn:E1; [|reflexivity].
  destruct (ascii_digit m2) as [vm2|] eqn:E2; [|reflexivity].
  destruct (ascii_digit d1) as [va|] eqn:E3; [|reflexivity].
  cbv zeta.
  apply isdecimal_value in H4 as (vb & H4 & Hvb). rewrite H4. cbv [default from_option id].
  pose proof (ascii_digit_inv _ _ E1) as [Hr1 _].
  pose proof (ascii_digit_inv _ _ E2) as [Hr2 _].
  pose proof (ascii_digit_inv _ _ E3) as [Hr3 _].
  destruct ((1 <=? 10 * vm1 + vm2) && (10 * vm1 + vm2 <=? 12)) eqn:Hm.
  - destruct (day_taken va d2) eqn:Hday.
    + destruct (decimal_two m1 m2 vm1 vm2) as [Hmd Hmv];
        [by apply ascii_digit_todecimal..|].
      destruct (decimal_two d1 d2 va vb) as [Hdd Hdv];
        [by apply ascii_digit_todecimal|done|].
      rewrite (int_text_digits ys), (int_text_digits [m1; m2]),
        (int_text_digits [d1; d2]), Hmv, Hdv; try done.
      intros ->. discriminate Hl.
    + cbn [andb]. by destruct (1 <=? va).
  - destruct (day_taken va d2); [|reflexivity]. cbn [andb].
    destruct (valid_fields _) eqn:Hv; [|reflexivity].
    apply valid_date_fields in Hv as (_ & Hv & _).
    apply andb_false_iff in Hm as [Hm|Hm]; lia.
Qed.

(** [strptime] reads the date that a text writes. *)
Lemma strptime_reads_date (t : text) (y m d : Z) :
  reads_date zeros t y m d → calendar_date y m d →
  match_date zeros t = true
  ∧ strptime_Ymd zeros t = ok (mk_datetime y m d 0 0 0 0 None).
Proof.
  intros (ys & m1 & m2 & a & b & vm1 & vm2 & va & vb & -> & Hl & Hy & ->
          & Hm1 & Hm2 & -> & Ha & Hb & -> & Hcase) Hcal.
  pose proof (todecimal_isdecimal _ _ _ (ascii_digit_todecimal zeros _ _ Hm1)).
  pose proof (todecimal_isdecimal _ _ _ (ascii_digit_todecimal zeros _ _ Hm2)).
  pose proof (todecimal_isdecimal _ _ _ (ascii_digit_todecimal zeros _ _ Ha)).
  pose proof (todecimal_isdecimal _ _ _ Hb).
  split; [by apply match_date_shape|].
  rewrite strptime_Ymd_shape by done. rewrite Hm1, Hm2, Ha, Hb.
  cbv zeta. cbv [default from_option id].
  pose proof Hcal as (_ & _ & Hd). pose proof (days_in_month_le (decimal zeros ys)
                                                 (10 * vm1 + vm2)).
  pose proof (todecimal_range _ _ _ Hb).
  assert (Hday : day_taken va b = true).
  { unfold day_taken. destruct (ascii_digit b) as [vb'|] eqn:Eb.
    - rewrite (ascii_digit_todecimal zeros _ _ Eb) in Hb. injection Hb as ->.
      apply andb_true_iff. rewrite !Z.leb_le. lia.
    - destruct Hcase as [Hcase | [-> | ->]]; [discriminate Hcase|done..]. }
  rewrite Hday. apply valid_date_fields in Hcal. by rewrite Hcal.
Qed.

(** What [parse_date] returns, for every input. *)
Lemma parse_date_cases (s : text) :
  (∀ t, parse_date zeros s = ok (Some t)
        ↔ t = strip_text s
          ∧ ∃ y m d, calendar_date y m d ∧ reads_date zeros t y m d)
  ∧ (parse_date zeros s = ok None
     ∨ parse_date zeros s = ok (Some (strip_text s))).
Proof.
  unfold parse_date. cbv zeta.
  destruct (match_date zeros (strip_text s)) eqn:Hmatch; cbn [negb].
  - destruct (match_date_inv _ _ Hmatch) as
      (ys & m1 & m2 & d1 & d2 & r & Ht & Hl & Hy & H1 & H2 & H3 & H4 & Hr).
    assert (r = []) as ->.
    { apply (at_end_after_strip s (ys ++ [45; m1; m2; 45; d1; d2]%N)%list r);
        [|done]. by rewrite <- app_assoc. }
    rewrite Ht.
    change (ys ++ 45 :: m1 :: m2 :: 45 :: d1 :: d2 :: [])%N%list
      with (ys ++ [45; m1; m2; 45; d1; d2]%N)%list.
    destruct (strptime_Ymd zeros (ys ++ [45; m1; m2; 45; d1; d2]%N)%list)
      as [e|dt] eqn:Hparse.
    + assert (e = ValueError) as ->.
      { rewrite strptime_Ymd_shape in Hparse by done.
        destruct (ascii_digit m1); [|by injection Hparse].
        destruct (ascii_digit m2); [|by injection Hparse].
        destruct (ascii_digit d1); [|by injection Hparse].
        cbv zeta in Hparse.
        destruct (day_taken _ _ && valid_fields _);
          [discriminate Hparse|by injection Hparse]. }
      split; [|by left]. intros t. split; [intros H; discriminate H|].
      intros [-> (y & m & d & Hcal & Hrd)].
      destruct (strptime_reads_date _ y m d Hrd Hcal) as [_ Hp]. congruence.
    + split; [|by right]. intros t. split; [|by intros [-> _]].
      intros H. injection H as <-. split; [done|].
      rewrite strptime_Ymd_shape in Hparse by done.
      destruct (ascii_digit m1) as [vm1|] eqn:E1; [|discriminate Hparse].
      destruct (ascii_digit m2) as [vm2|] eqn:E2; [|discriminate Hparse].
      destruct (ascii_digit d1) as [va|] eqn:E3; [|discriminate Hparse].
      cbv zeta in Hparse.
      destruct (day_taken va d2) eqn:Hday; [|discriminate Hparse].
      destruct (valid_fields _) eqn:Hv; [|discriminate Hparse].
      apply valid_date_fields in Hv.
      pose proof H4 as H4'. apply isdecimal_value in H4' as (vb & Hb & Hvb).
      rewrite Hb in Hv. cbv [default from_option id] in Hv.
      eexists _, _, _. split; [exact Hv|].
      exists ys, m1, m2, d1, d2, vm1, vm2, va, vb.
      repeat (split; [done|]).
      unfold day_taken in Hday. destruct (ascii_digit d2) as [vb'|] eqn:Eb.
      * left. rewrite (ascii_digit_todecimal zeros _ _ Eb) in Hb. congruence.
      * right. apply orb_true_iff in Hday as [?%Z.eqb_eq|?%Z.eqb_eq]; auto.
  - split; [|by left]. intros t. split; [intros H; discriminate H|].
    intros [-> (y & m & d & Hcal & Hrd)].
    destruct (strptime_reads_date _ y m d Hrd Hcal) as [Hm _]. congruence.
Qed.

(** A text that writes a date of the calendar is formatted day first. *)
Lemma format_reads_date (t : text) (y m d : Z) :
  reads_date zeros t y m d → calendar_date y m d →
  format_date_dd_mm_yyyy zeros t
  = ok (pad 2 d +:+ "-" +:+ pad 2 m +:+ "-" +:+ pad 4 y).
Proof.
  intros Hrd Hcal. destruct (strptime_reads_date t y m d Hrd Hcal) as [_ Hp].
  unfold format_date_dd_mm_yyyy. rewrite Hp. reflexivity.
Qed.

End DateFacts.

(** *** Messages of code points below 256 *)

Lemma text_of_string_cons (c : ascii) (s : string) :
  text_of_string (String c s) = N_of_ascii c :: text_of_string s.
Proof. reflexivity. Qed.

Lemma string_of_text_of_string (s : string) :
  string_of_text (text_of_string s) = s.
Proof.
  induction s as [|c s IH]; [reflexivity|].
  rewrite text_of_string_cons. unfold string_of_text in *.
  cbn [fmap list_fmap string_of_list_ascii].
  by rewrite ascii_N_embedding, IH.
Qed.

Lemma text_of_string_inj (s s' : string) :
  text_of_string s = text_of_string s' → s = s'.
Proof.
  intros H. apply (f_equal string_of_text) in H.
  by rewrite !string_of_text_of_string in H.
Qed.

Lemma text_of_string_below (s : string) (c : N) :
  c ∈ text_of_string s → (c < 256)%N.
Proof.
  unfold text_of_string. intros (a & -> & _)%list_elem_of_fmap.
  apply N_ascii_bounded.
Qed.

Lemma isspace_ascii (c : ascii) : isspace (N_of_ascii c) = is_space c.
Proof. destruct c as [[] [] [] [] [] [] [] []]; reflexivity. Qed.

Lemma lstrip_text_of_string (s : string) :
  lstrip_by isspace (text_of_string s) = text_of_string (lstrip s).
Proof.
  induction s as [|c s IH]; [reflexivity|].
  rewrite text_of_string_cons. cbn [lstrip_by lstrip].
  rewrite isspace_ascii. by destruct (is_space c).
Qed.

Lemma rstrip_text_of_string (s : string) :
  rstrip_by isspace (text_of_string s) = text_of_string (rstrip s).
Proof.
  induction s as [|c s IH]; [reflexivity|].
  rewrite text_of_string_cons. cbn [rstrip_by rstrip].
  rewrite IH, isspace_ascii. destruct (rstrip s); [|reflexivity].
  by destruct (is_space c).
Qed.

(** Trimming a message as a text and as a string is the same. *)
Lemma strip_text_of_string (s : string) :
  strip_text (text_of_string s) = text_of_string (strip s).
Proof.
  unfold strip_text, strip.
  by rewrite lstrip_text_of_string, rstrip_text_of_string.
Qed.

Lemma digits_ok_unicode : digits_ok unicode_zeros = true.
Proof. reflexivity. Qed.

Lemma decimal_in_above (zs : list N) (c : N) :
  forallb (λ z, c <? z)%N zs = true → decimal_in zs c = None.
Proof.
  induction zs as [|z zs IH]; [done|]. cbn [forallb decimal_in].
  intros [Hz Hzs]%andb_true_iff. apply N.ltb_lt in Hz.
  destruct (N.leb_spec z c); [lia|]. by apply IH.
Qed.

(** Below 256 the decimal digits are the ten ASCII digits. *)
Lemma todecimal_below (c : N) :
  (c < 256)%N → todecimal unicode_zeros c = ascii_digit c.
Proof.
  intros Hc. unfold todecimal. destruct (N.ltb_spec c 128); [done|].
  replace (ascii_digit c) with (@None Z).
  - apply decimal_in_above. unfold unicode_zeros. cbn [forallb].
    repeat match goal with
           | |- context [(c <? ?z)%N] => destruct (N.ltb_spec c z); [|lia]
           end. reflexivity.
  - unfold ascii_digit. destruct (N.leb_spec c 57); [lia|].
    by rewrite andb_false_r.
Qed.

Lemma N_of_digit_char (v : Z) :
  0 ≤ v ≤ 9 → N_of_ascii (digit_char v) = (48 + Z.to_N v)%N.
Proof.
  intros Hv. unfold digit_char. rewrite N_ascii_embedding by lia. lia.
Qed.

(** The characters of the text of a date. *)
Lemma text_of_date_text (y m d : Z) :
  text_of_string (date_text y m d)
  = [ N_of_ascii (digit_char (y / 10 / 10 / 10 mod 10));
      N_of_ascii (digit_char (y / 10 / 10 mod 10));
      N_of_ascii (digit_char (y / 10 mod 10));
      N_of_ascii (digit_char (y mod 10)); 45%N;
      N_of_ascii (digit_char (m / 10 mod 10));
      N_of_ascii (digit_char (m mod 10)); 45%N;
      N_of_ascii (digit_char (d / 10 mod 10));
      N_of_ascii (digit_char (d mod 10)) ].
Proof. reflexivity. Qed.

Lemma date_text_nonempty (y m d : Z) :
  String.eqb (date_text y m d) EmptyString = false.
Proof. reflexivity. Qed.

(** The text of a date of the calendar writes that date. *)
Lemma date_text_reads (zeros : list N) (y m d : Z) :
  calendar_date y m d →
  reads_date zeros (text_of_string (date_text y m d)) y m d.
Proof.
  intros (Hy & Hm & Hd). pose proof (days_in_month_le y m).
  rewrite text_of_date_text.
  assert (Hdigit : ∀ v, 0 ≤ v ≤ 9 →
            ascii_digit (N_of_ascii (digit_char v)) = Some v).
  { intros v Hv. rewrite N_of_digit_char by done. by apply ascii_digit_char. }
  assert (Hmod : ∀ v, 0 ≤ v mod 10 ≤ 9)
    by (intros v; Z.to_euclidean_division_equations; lia).
  assert (Hdec : ∀ v, todecimal zeros (N_of_ascii (digit_char (v mod 10)))
                      = Some (v mod 10))
    by (intros v; apply ascii_digit_todecimal, Hdigit, Hmod).
  exists [ N_of_ascii (digit_char (y / 10 / 10 / 10 mod 10));
           N_of_ascii (digit_char (y / 10 / 10 mod 10));
           N_of_ascii (digit_char (y / 10 mod 10));
           N_of_ascii (digit_char (y mod 10)) ],
    (N_of_ascii (digit_char (m / 10 mod 10))),
    (N_of_ascii (digit_char (m mod 10))),
    (N_of_ascii (digit_char (d / 10 mod 10))),
    (N_of_ascii (digit_char (d mod 10))),
    (m / 10 mod 10), (m mod 10), (d / 10 mod 10), (d mod 10).
  split; [reflexivity|]. split; [reflexivity|].
  split.
  { unfold all_digits, isdecimal. cbn [forallb]. by rewrite !Hdec. }
  split.
  { unfold decimal. cbn [fold_left]. rewrite !Hdec.
    cbv [default from_option id]. Z.to_euclidean_division_equations; lia. }
  split; [apply Hdigit, Hmod|]. split; [apply Hdigit, Hmod|].
  split; [Z.to_euclidean_division_equations; lia|].
  split; [apply Hdigit, Hmod|].
  split; [apply Hdec|].
  split; [Z.to_euclidean_division_equations; lia|].
  left. apply Hdigit, Hmod.
Qed.

(** A message that writes a date is the text of that date. *)
Lemma reads_date_below (u : string) (y m d : Z) :
  reads_date unicode_zeros (text_of_string u) y m d → calendar_date y m d →
  u = date_text y m d.
Proof.
  intros (ys & m1 & m2 & a & b & vm1 & vm2 & va & vb & Ht & Hl & Hy & ->
          & Hm1 & Hm2 & -> & Ha & Hb & -> & _) (Hyr & Hmr & Hdr).
  apply text_of_string_inj. rewrite Ht, text_of_date_text.
  assert (Hbelow : ∀ c, c ∈ (ys ++ [45; m1; m2; 45; a; b]%N)%list →
                        (c < 256)%N).
  { intros c Hc. rewrite <- Ht in Hc. by apply (text_of_string_below u). }
  destruct ys as [|y1 [|y2 [|y3 [|y4 [|]]]]]; try discriminate Hl.
  unfold all_digits in Hy. cbn [forallb] in Hy.
  repeat match type of Hy with
         | _ && _ = true => apply andb_true_iff in Hy as [? Hy]
         end.
  repeat match goal with
         | H : isdecimal _ ?c = true |- _ =>
             apply isdecimal_value in H as (? & H & ?);
             rewrite todecimal_below in H by (apply Hbelow, list_elem_of_In; simpl; tauto)
         end.
  rewrite todecimal_below in Hb by (apply Hbelow, list_elem_of_In; simpl; tauto).
  pose proof (ascii_digit_inv _ _ Hm1) as [? ->].
  pose proof (ascii_digit_inv _ _ Hm2) as [? ->].
  pose proof (ascii_digit_inv _ _ Ha) as [? ->].
  pose proof (ascii_digit_inv _ _ Hb) as [? ->].
  unfold decimal in *. cbn [fold_left] in *.
  repeat match goal with
         | H : ascii_digit ?c = Some _ |- _ =>
             rewrite (ascii_digit_todecimal unicode_zeros _ _ H) in *;
             apply ascii_digit_inv in H as [? ->]
         end.
  cbv [default from_option id] in *. cbn [app].
  rewrite !N_of_digit_char by (Z.to_euclidean_division_equations; lia).
  repeat f_equal; Z.to_euclidean_division_equations; lia.
Qed.

(** What [parse_date] returns on a message. *)
Lemma parse_date_below (s : string) :
  (∀ t, parse_date unicode_zeros (text_of_string s) = ok (Some t)
        ↔ t = text_of_string (strip s)
          ∧ ∃ y m d, calendar_date y m d ∧ strip s = date_text y m d)
  ∧ (parse_date unicode_zeros (text_of_string s) = ok None
     ∨ parse_date unicode_zeros (text_of_string s)
       = ok (Some (text_of_string (strip s)))).
Proof.
  destruct (parse_date_cases unicode_zeros digits_ok_unicode (text_of_string s))
    as [Hiff Htot].
  rewrite strip_text_of_string in Hiff, Htot. split; [|exact Htot].
  intros t. rewrite Hiff. split.
  - intros [-> (y & m & d & Hcal & Hrd)]. split; [done|].
    exists y, m, d. split; [done|]. by apply reads_date_below.
  - intros [-> (y & m & d & Hcal & ->)]. split; [done|].
    exists y, m, d. split; [done|]. by apply date_text_reads.
Qed.

Lemma parse_timezone_strip (s : string) :
  parse_timezone unicode_zeros (text_of_string (strip s))
  = parse_timezone unicode_zeros (text_of_string s).
Proof.
  unfold parse_timezone.
  by rewrite <- !strip_text_of_string, strip_text_idem.
Qed.

Lemma parse_date_strip (s : string) :
  parse_date unicode_zeros (text_of_string (strip s))
  = parse_date unicode_zeros (text_of_string s).
Proof.
  unfold parse_date. by rewrite <- !strip_text_of_string, strip_text_idem.
Qed.

(** [parse_date] does not raise, and what it accepts is the text of a
    date. *)
Lemma parse_date_result (s : string) :
  parse_date unicode_zeros (text_of_string s) = ok None
  ∨ ∃ y m d, calendar_date y m d
             ∧ parse_date unicode_zeros (text_of_string s)
               = ok (Some (text_of_string (date_text y m d))).
Proof.
  destruct (parse_date_below s) as [Hiff [H|H]]; [by left|right].
  pose proof H as H'. apply Hiff in H' as [_ (y & m & d & Hcal & Heq)].
  exists y, m, d. split; [done|]. by rewrite <- Heq.
Qed.

(** The text of a date of the calendar is formatted day first. *)
Lemma format_date_text (y m d : Z) :
  calendar_date y m d →
  format_date_dd_mm_yyyy unicode_zeros (text_of_string (date_text y m d))
  = ok (pad 2 d +:+ "-" +:+ pad 2 m +:+ "-" +:+ pad 4 y).
Proof.
  intros Hcal. apply (format_reads_date _ digits_ok_unicode); [|done].
  by apply date_text_reads.
Qed.

(** X15.  [parse_date] never raises.  Whatever the table of the decimal
    digits (no white space being a digit), it returns the trimmed input
    exactly when that has the shape YYYY-MM-DD and writes a date of the
    calendar as [strptime] reads it: the year in four decimal digits of
    any script, the month in two ASCII digits, the day in two digits of
    which the first is ASCII, and the second too unless the first is 1 or
    2; a year from 1 to 9999, a month from 1 to 12 and a day that the month
    has in that year.  For every other input it returns None.  On a
    message of code points below 256 the texts accepted are exactly the
    texts YYYY-MM-DD, in ASCII digits, of the dates of the calendar (so
    2024-02-29 is accepted and 2025-02-29 is not). *)
Theorem parse_date_accepts_calendar_dates (zeros : list N) (s : text) :
  digits_ok zeros = true →
  (∀ t, parse_date zeros s = ok (Some t)
        ↔ t = strip_text s
          ∧ ∃ y m d, calendar_date y m d ∧ reads_date zeros t y m d)
  ∧ (parse_date zeros s = ok None
     ∨ parse_date zeros s = ok (Some (strip_text s)))
  ∧ (∀ (msg : string) t,
       parse_date unicode_zeros (text_of_string msg) = ok (Some t)
       ↔ t = text_of_string (strip msg)
         ∧ ∃ y m d, calendar_date y m d ∧ strip msg = date_text y m d)
  ∧ parse_date zeros (text_of_string "2024-02-29")
    = ok (Some (text_of_string "2024-02-29"))
  ∧ parse_date zeros (text_of_string "2025-02-29") = ok None.
Proof.
  intros Hok. destruct (parse_date_cases zeros Hok s) as [H1 H2].
  split; [exact H1|]. split; [exact H2|].
  split; [intros msg; apply (parse_date_below msg)|].
  split; reflexivity.
Qed.

Lemma valid_fields_date (t : datetime) :
  valid_fields t = true → calendar_date (year t) (month t) (day t).
Proof.
  intros Hv. unfold valid_fields in Hv. unfold calendar_date.
  rewrite !andb_true_iff, !Z.leb_le in Hv. intuition lia.
Qed.

(** X16.  The dates the program shows.  Whatever the table of the decimal
    digits (no white space being a digit), [format_date_dd_mm_yyyy] does
    not raise on a text that [parse_date] has accepted, in the digits of
    any script, nor on today's date as [user_local_date_str] writes it,
    and for a year from 1000 on the result is the same date written
    DD-MM-YYYY in ASCII digits: [build_first_day_message] and the
    confirmation prompt do not fail on the dates they get.  A message of
    code points below 256 that [parse_date] accepts is the text
    YYYY-MM-DD of its date. *)
Theorem shown_dates_are_formatted (zeros : list N) :
  digits_ok zeros = true →
  (∀ s t, parse_date zeros s = ok (Some t) →
          ∃ y m d, calendar_date y m d ∧ reads_date zeros t y m d
                   ∧ returns (format_date_dd_mm_yyyy zeros t)
                   ∧ (1000 ≤ y →
                      format_date_dd_mm_yyyy zeros t
                      = ok (pad 2 d +:+ "-" +:+ pad 2 m +:+ "-" +:+ pad 4 y)))
  ∧ (∀ (msg : string) t,
       parse_date unicode_zeros (text_of_string msg) = ok (Some t) →
       ∃ y m d, calendar_date y m d ∧ t = text_of_string (date_text y m d)
                ∧ returns (format_date_dd_mm_yyyy unicode_zeros t)
                ∧ (1000 ≤ y →
                   format_date_dd_mm_yyyy unicode_zeros t
                   = ok (pad 2 d +:+ "-" +:+ pad 2 m +:+ "-" +:+ pad 4 y)))
  ∧ (∀ t : datetime,
       valid_fields t = true →
       returns (format_date_dd_mm_yyyy zeros (text_of_string (strftime_Ymd t)))
       ∧ (1000 ≤ year t →
          format_date_dd_mm_yyyy zeros (text_of_string (strftime_Ymd t))
          = ok (strftime_dmY t))).
Proof.
  intros Hok. split; [|split].
  - intros s t H.
    apply (parse_date_cases zeros Hok s) in H as [_ (y & m & d & Hcal & Hrd)].
    exists y, m, d. split; [done|]. split; [done|].
    rewrite (format_reads_date zeros Hok t y m d Hrd Hcal).
    split; [by eexists|done].
  - intros msg t H.
    apply (parse_date_below msg) in H as [-> (y & m & d & Hcal & ->)].
    exists y, m, d. split; [done|]. split; [done|].
    rewrite (format_date_text y m d Hcal). split; [by eexists|done].
  - intros t Hv.
    pose proof (valid_fields_date t Hv) as Hcal.
    change (strftime_Ymd t) with (date_text (year t) (month t) (day t)).
    rewrite (format_reads_date zeros Hok _ _ _ _
               (date_text_reads zeros _ _ _ Hcal) Hcal).
    split; [by eexists|done].
Qed.

(** ** Onboarding *)

Lemma first_day_message_text (y m d : Z) :
  calendar_date y m d →
  build_first_day_message (date_text y m d)
  = ok (FirstDay (pad 2 d +:+ "-" +:+ pad 2 m +:+ "-" +:+ pad 4 y)).
Proof.
  intros Hcal. unfold build_first_day_message.
  by rewrite (format_date_text y m d Hcal).
Qed.

Lemma user_local_now_fields (clock : datetime) (tz : Z) (local : datetime) :
  user_local_now clock tz = ok local → valid_fields local = true.
Proof.
  unfold user_local_now.
  destruct (mk_timedelta (tz * us_per_hour)) as [e|delta];
    [intros H; discriminate H|].
  cbn [mbind result_bind]. intros H.
  by destruct (datetime_add_valid _ _ _ H).
Qed.

(** Today's date in the time zone of the user is a date of the
    calendar. *)
Lemma user_local_date_text (now : datetime) (tz : Z) (local : datetime) :
  user_local_now now tz = ok local →
  user_local_date_str now tz
  = ok (date_text (year local) (month local) (day local))
  ∧ calendar_date (year local) (month local) (day local).
Proof.
  intros Hl. split.
  - unfold user_local_date_str. by rewrite Hl.
  - apply valid_fields_date. by apply (user_local_now_fields now tz).
Qed.

Lemma world_ok_session (w : world) (uid : string) (ss : session) :
  world_ok w → session_ok ss → data_users w !! uid = None →
  world_ok (World (<[uid := ss]> (pending_onboarding w)) (data_users w)).
Proof.
  intros Hw Hss Hu uid' ss'. cbn [pending_onboarding data_users].
  destruct (decide (uid' = uid)) as [->|Hne].
  - rewrite lookup_insert_eq. intros H. injection H as <-. by split.
  - rewrite lookup_insert_ne by done. apply Hw.
Qed.

Lemma world_ok_register (w : world) (uid : string) (u : dict) :
  world_ok w →
  world_ok (World (delete uid (pending_onboarding w))
              (<[uid := u]> (data_users w))).
Proof.
  intros Hw uid' ss'. cbn [pending_onboarding data_users].
  destruct (decide (uid' = uid)) as [->|Hne].
  - rewrite lookup_delete_eq. intros H. discriminate H.
  - rewrite lookup_delete_ne, lookup_insert_ne by done. apply Hw.
Qed.

Lemma world_ok_update (w : world) (uid : string) (u : dict) :
  world_ok w → pending_onboarding w !! uid = None →
  world_ok (World (pending_onboarding w) (<[uid := u]> (data_users w))).
Proof.
  intros Hw Hp uid' ss'. cbn [pending_onboarding data_users]. intros H.
  destruct (decide (uid' = uid)) as [->|Hne]; [congruence|].
  rewrite lookup_insert_ne by done. by apply Hw.
Qed.

Lemma world_eta (w : world) :
  World (pending_onboarding w) (data_users w) = w.
Proof. by destruct w. Qed.

(** The four handlers of the dialogue keep the sessions well-formed. *)
Lemma cmd_start_ok (uid : string) (w : world) :
  world_ok w →
  world_ok (after (cmd_start uid w))
  ∧ raised (cmd_start uid w) ≠ Some KeyError
  ∧ data_users (after (cmd_start uid w)) = data_users w.
Proof.
  intros Hw. unfold cmd_start.
  destruct (data_users w !! uid) as [u|] eqn:Hu.
  - destruct (truthy (get u "courseCompleted")); [done|].
    destruct (as_int (get_or u "currentDay" (VInt 1))) as [e|day]; [done|].
    by destruct (day >? 25).
  - cbn [after raised data_users]. split; [|done].
    apply world_ok_session; [done| by left |done].
Qed.

Lemma on_text_timezone_ok (uid text : string) (now : datetime) (w : world) :
  world_ok w → data_users w !! uid = None →
  world_ok (after (on_text_timezone uid text now w))
  ∧ raised (on_text_timezone uid text now w) ≠ Some KeyError
  ∧ data_users (after (on_text_timezone uid text now w)) = data_users w.
Proof.
  intros Hw Hu. unfold on_text_timezone.
  destruct (parse_timezone unicode_zeros (text_of_string text))
    as [e|[tz|]] eqn:Htz; [done| |done].
  destruct (user_local_now now tz) as [e|local] eqn:Hl;
    [unfold user_local_date_str; by rewrite Hl|].
  destruct (user_local_date_text now tz local Hl) as [-> Hcal].
  cbn [mbind result_bind]. rewrite (format_date_text _ _ _ Hcal).
  cbn [mbind result_bind after raised data_users]. split; [|done].
  apply world_ok_session; [done| |done].
  right. split; [by left|]. cbn [timezone today_iso].
  eexists tz, _, _, _. split; [done|].
  split; [by apply (parse_timezone_range unicode_zeros (text_of_string text))|].
  done.
Qed.

Lemma on_text_date_ok (uid text : string) (ss : session) (w : world) :
  world_ok w → pending_onboarding w !! uid = Some ss →
  step ss = "optional_date" →
  world_ok (after (on_text_date uid text ss w))
  ∧ raised (on_text_date uid text ss w) = None.
Proof.
  intros Hw Hp Hstep. unfold on_text_date.
  destruct (Hw uid ss Hp) as [[Hs | [_ (tz & y & m & d & Htz & _)]] _];
    [congruence|].
  destruct (parse_date_result text) as [-> | (y' & m' & d' & Hcal & ->)];
    [done|].
  cbv zeta. rewrite string_of_text_of_string.
  rewrite date_text_nonempty, Htz, (first_day_message_text _ _ _ Hcal).
  cbn [after raised]. split; [|done]. by apply world_ok_register.
Qed.

Lemma on_text_ok (uid text : string) (says_taken : bool) (now : datetime)
    (w : world) :
  world_ok w →
  world_ok (after (on_text uid text says_taken now w))
  ∧ raised (on_text uid text says_taken now w) ≠ Some KeyError.
Proof.
  intros Hw. unfold on_text. cbv zeta.
  destruct (pending_onboarding w !! uid) as [ss|] eqn:Hp.
  - destruct (Hw uid ss Hp) as [_ Hu].
    destruct (String.eqb_spec (step ss) "timezone") as [Hs|Hs].
    + destruct (on_text_timezone_ok uid (strip text) now w Hw Hu)
        as (H1 & H2 & _). by split.
    + destruct (String.eqb_spec (step ss) "optional_date") as [Hs'|Hs'];
        [|done].
      destruct (on_text_date_ok uid (strip text) ss w Hw Hp Hs') as [H1 H2].
      split; [done|]. by rewrite H2.
  - unfold on_text_dose.
    destruct (data_users w !! uid) as [u|] eqn:Hu; [|done].
    cbv zeta.
    destruct (o_result (on_text_user says_taken now u)) as [e|[c|]];
      cbn [after raised]; (split; [by apply world_ok_update|done]).
Qed.

Lemma cb_start_confirm_yes_ok (uid : string) (w : world) :
  world_ok w →
  world_ok (after (cb_start_confirm_yes uid w))
  ∧ raised (cb_start_confirm_yes uid w) = None.
Proof.
  intros Hw. unfold cb_start_confirm_yes.
  destruct (pending_onboarding w !! uid) as [ss|] eqn:Hp; [|done].
  destruct (String.eqb_spec (step ss) "confirm_date") as [Hs|Hs]; [|done].
  cbn [negb].
  destruct (Hw uid ss Hp)
    as [[Hs' | [_ (tz & y & m & d & -> & _ & -> & Hcal)]] _]; [congruence|].
  rewrite (first_day_message_text _ _ _ Hcal). cbn [after raised].
  split; [|done]. by apply world_ok_register.
Qed.

Lemma cb_start_confirm_no_ok (uid : string) (w : world) :
  world_ok w →
  world_ok (after (cb_start_confirm_no uid w))
  ∧ raised (cb_start_confirm_no uid w) = None
  ∧ data_users (after (cb_start_confirm_no uid w)) = data_users w.
Proof.
  intros Hw. unfold cb_start_confirm_no.
  destruct (pending_onboarding w !! uid) as [ss|] eqn:Hp; [|done].
  destruct (String.eqb_spec (step ss) "confirm_date") as [Hs|Hs]; [|done].
  cbn [negb after raised data_users]. split; [|done].
  destruct (Hw uid ss Hp) as [[Hs' | [_ Hrest]] Hu]; [congruence|].
  apply world_ok_session; [done| |done].
  right. split; [by right|]. exact Hrest.
Qed.

(** X17.  The sessions of the onboarding dialogue stay well-formed.  If
    every session either waits for the time zone or holds an offset from
    -12 to 14 and the text of a date of the calendar, and belongs to a
    user who is not registered, then the same holds after /start, after a
    text message and after either confirmation button, whatever the user
    and the input.  On such a state no handler raises KeyError on a
    session, and the two confirmation buttons and the reading of the
    start date do not raise at all. *)
Theorem onboarding_sessions_stay_well_formed (w : world) (uid text : string)
    (says_taken : bool) (now : datetime) :
  world_ok w →
  world_ok (after (cmd_start uid w))
  ∧ world_ok (after (on_text uid text says_taken now w))
  ∧ world_ok (after (cb_start_confirm_yes uid w))
  ∧ world_ok (after (cb_start_confirm_no uid w))
  ∧ raised (cmd_start uid w) ≠ Some KeyError
  ∧ raised (on_text uid text says_taken now w) ≠ Some KeyError
  ∧ raised (cb_start_confirm_yes uid w) = None
  ∧ raised (cb_start_confirm_no uid w) = None
  ∧ (∀ ss, pending_onboarding w !! uid = Some ss →
           step ss = "optional_date" →
           raised (on_text uid text says_taken now w) = None).
Proof.
  intros Hw.
  destruct (cmd_start_ok uid w Hw) as (H1 & H2 & _).
  destruct (on_text_ok uid text says_taken now w Hw) as [H3 H4].
  destruct (cb_start_confirm_yes_ok uid w Hw) as [H5 H6].
  destruct (cb_start_confirm_no_ok uid w Hw) as (H7 & H8 & _).
  repeat (split; [assumption|]).
  intros ss Hp Hs. unfold on_text. cbv zeta. rewrite Hp, Hs.
  cbn [String.eqb Ascii.eqb Bool.eqb].
  by destruct (on_text_date_ok uid (strip text) ss w Hw Hp Hs).
Qed.

(** A new record starts the course. *)
Lemma new_user_in_course (start_date : string) (tz : Z) :
  in_course (new_user start_date tz) 1 0
  ∧ truthy (get (new_user start_date tz) "courseCompleted") = false
  ∧ no_timers (new_user start_date tz)
  ∧ get (new_user start_date tz) "startDate" = VStr start_date.
Proof.
  unfold in_course, no_timers, new_user. dict_simpl.
  rewrite !lookup_insert_ne by done.
  repeat split; try reflexivity; lia.
Qed.

(** X18.  Registration.  For a user who is not registered, /start asks
    for the time zone; an accepted offset is answered by the request to
    confirm today's date in that zone, shown day first, and nothing is
    stored yet.  "Confirm" then stores a new record with that date and
    offset, on day 1 with no dose taken, closes the session and sends the
    first-day message; "other date" asks for a date, and a date that
    [parse_date] accepts is stored instead, with the same offset.  None of
    these steps raises, and the records of other users are left as they
    are. *)
Theorem registration_dialogue (w : world) (uid tz_text : string)
    (says_taken : bool) (now local : datetime) (tz : Z) :
  data_users w !! uid = None →
  parse_timezone unicode_zeros (text_of_string tz_text) = ok (Some tz) →
  user_local_now now tz = ok local →
  let today := strftime_Ymd local in
  let r1 := cmd_start uid w in
  let r2 := on_text uid tz_text says_taken now (after r1) in
  let yes := cb_start_confirm_yes uid (after r2) in
  let no := cb_start_confirm_no uid (after r2) in
  (replies r1 = [AskTimezone] ∧ raised r1 = None)
  ∧ (replies r2 = [ConfirmDate (strftime_dmY local)] ∧ raised r2 = None
     ∧ data_users (after r2) = data_users w)
  ∧ (replies yes = [Ack; MarkupRemoved; FirstDay (strftime_dmY local)]
     ∧ raised yes = None
     ∧ data_users (after yes) = <[uid := new_user today tz]> (data_users w)
     ∧ pending_onboarding (after yes) !! uid = None
     ∧ in_course (new_user today tz) 1 0)
  ∧ (replies no = [Ack; MarkupRemoved; AskDate] ∧ raised no = None
     ∧ data_users (after no) = data_users w
     ∧ ∀ (text start : string) (says2 : bool) (now2 : datetime),
         parse_date unicode_zeros (text_of_string text)
         = ok (Some (text_of_string start)) →
         let r4 := on_text uid text says2 now2 (after no) in
         (∃ shown, format_date_dd_mm_yyyy unicode_zeros (text_of_string start)
                   = ok shown
                   ∧ replies r4 = [FirstDay shown])
         ∧ raised r4 = None
         ∧ data_users (after r4) = <[uid := new_user start tz]> (data_users w)
         ∧ pending_onboarding (after r4) !! uid = None).
Proof.
  intros Hu Htz Hl today r1 r2 yes no.
  destruct (user_local_date_text now tz local Hl) as [Hdate Hcal].
  assert (E1 : r1 = Reaction
                 (World (<[uid := Session "timezone" None None]>
                           (pending_onboarding w)) (data_users w))
                 [AskTimezone] None)
    by (unfold r1, cmd_start; by rewrite Hu).
  assert (E2 : r2 = Reaction
                 (World (<[uid := Session "confirm_date" (Some tz) (Some today)]>
                           (pending_onboarding (after r1))) (data_users w))
                 [ConfirmDate (strftime_dmY local)] None).
  { unfold r2, on_text. cbv zeta. rewrite E1.
    cbn [after pending_onboarding data_users]. rewrite lookup_insert_eq.
    cbn [step String.eqb Ascii.eqb Bool.eqb].
    unfold on_text_timezone. rewrite parse_timezone_strip, Htz, Hdate.
    cbn [mbind result_bind]. rewrite (format_date_text _ _ _ Hcal).
    reflexivity. }
  assert (E3 : yes = Reaction
                 (World (delete uid (pending_onboarding (after r2)))
                    (<[uid := new_user today tz]> (data_users w)))
                 [Ack; MarkupRemoved; FirstDay (strftime_dmY local)] None).
  { unfold yes, cb_start_confirm_yes. rewrite E2.
    cbn [after pending_onboarding data_users]. rewrite lookup_insert_eq.
    cbn [step today_iso timezone String.eqb Ascii.eqb Bool.eqb negb].
    change today with (date_text (year local) (month local) (day local)).
    rewrite (first_day_message_text _ _ _ Hcal). reflexivity. }
  assert (E4 : no = Reaction
                 (World (<[uid := Session "optional_date" (Some tz) (Some today)]>
                           (pending_onboarding (after r2))) (data_users w))
                 [Ack; MarkupRemoved; AskDate] None).
  { unfold no, cb_start_confirm_no. rewrite E2.
    cbn [after pending_onboarding data_users]. rewrite lookup_insert_eq.
    reflexivity. }
  split; [by rewrite E1|]. split; [by rewrite E2|]. split.
  - rewrite E3. cbn [replies raised after data_users pending_onboarding].
    rewrite lookup_delete_eq.
    split; [done|]. split; [done|]. split; [done|]. split; [done|].
    apply new_user_in_course.
  - split; [by rewrite E4|]. split; [by rewrite E4|].
    split; [by rewrite E4|].
    intros text start says2 now2 Hparse r4.
    destruct (parse_date_below text) as [Hiff _].
    pose proof Hparse as Hstart.
    apply Hiff in Hstart as [Hstart (y & m & d & Hcal' & Hdate')].
    apply text_of_string_inj in Hstart. rewrite Hdate' in Hstart.
    subst start.
    assert (E5 : r4 = Reaction
                   (World (delete uid (pending_onboarding (after no)))
                      (<[uid := new_user (date_text y m d) tz]> (data_users w)))
                   [FirstDay (pad 2 d +:+ "-" +:+ pad 2 m +:+ "-" +:+ pad 4 y)]
                   None).
    { unfold r4, on_text. cbv zeta. rewrite E4.
      cbn [after pending_onboarding data_users]. rewrite lookup_insert_eq.
      cbn [step String.eqb Ascii.eqb Bool.eqb].
      unfold on_text_date. rewrite parse_date_strip, Hparse.
      cbv zeta. rewrite string_of_text_of_string.
      rewrite date_text_nonempty. cbn [timezone].
      rewrite (first_day_message_text _ _ _ Hcal'). reflexivity. }
    rewrite E5. cbn [replies raised after data_users pending_onboarding].
    rewrite lookup_delete_eq.
    split; [|done]. eexists. split; [by apply format_date_text|done].
Qed.

(** The calls of [on_text] on the record of a registered user. *)
Lemma on_text_user_trace (says_taken : bool) (now : datetime) (u : dict) :
  o_trace (on_text_user says_taken now u)
  = match o_result (_migrate_user_reminders u) with
    | inl _ => []
    | inr _ =>
        let s := o_state (_migrate_user_reminders u) in
        if negb (truthy (get s "courseCompleted")) && says_taken then
          match o_result (_apply_taken now s) with
          | inl _ => []
          | inr _ => [Saved (o_state (_apply_taken now s))]
          end
        else []
    end.
Proof.
  unfold on_text_user.
  pose proof (migrate_silent u) as Htr.
  destruct (_migrate_user_reminders u) as [s tr [e|b]] eqn:E;
    cbn [o_state o_trace o_result] in *; subst tr.
  - by rewrite (bind_raised _ _ _ _ _ _ E).
  - rewrite (bind_outcome _ _ _ _ _ _ E). cbn [o_trace app].
    rewrite bind_read. cbv zeta.
    destruct (negb (truthy (get s "courseCompleted")) && says_taken);
      [|reflexivity].
    pose proof (apply_taken_silent s now) as Htr.
    destruct (_apply_taken now s) as [s' tr [e|c]] eqn:E';
      cbn [o_state o_trace o_result] in *; subst tr.
    + by rewrite (bind_raised _ _ _ _ _ _ E').
    + rewrite (bind_outcome _ _ _ _ _ _ E'). cbn [o_trace app].
      by rewrite bind_save.
Qed.

(** The calls of the "taken" button on the record of the user. *)
Lemma cb_taken_user_trace (now : datetime) (u : dict) :
  persisted u (o_trace (cb_taken_user now u))
  = match o_result (_migrate_user_reminders u) with
    | inl _ => u
    | inr _ =>
        let s := o_state (_migrate_user_reminders u) in
        if truthy (get s "courseCompleted") then u
        else
          match o_result (_apply_taken now s) with
          | inl _ => u
          | inr _ => o_state (_apply_taken now s)
          end
    end.
Proof.
  unfold cb_taken_user.
  pose proof (migrate_silent u) as Htr.
  destruct (_migrate_user_reminders u) as [s tr [e|b]] eqn:E;
    cbn [o_state o_trace o_result] in *; subst tr.
  - by rewrite (bind_raised _ _ _ _ _ _ E).
  - rewrite (bind_outcome _ _ _ _ _ _ E). cbn [o_trace app].
    rewrite bind_read. cbv zeta.
    destruct (truthy (get s "courseCompleted")); [reflexivity|].
    rewrite dose_tail_trace.
    destruct (o_result (_apply_taken now s)) as [e|[m|]]; reflexivity.
Qed.

(** X19.  A text that contains one of the phrases for "taken", sent by a
    user who is not in the onboarding dialogue, leaves the same data on
    disk as the "taken" button, whatever the stored data; a text without
    such a phrase leaves the data as they are and is not answered.  The
    sessions are left as they are in both cases. *)
Theorem taken_phrase_stores_as_taken (w : world) (uid text : string)
    (now : datetime) :
  pending_onboarding w !! uid = None →
  data_users (after (on_text uid text true now w))
  = (cb_taken now uid (data_users w)).1
  ∧ data_users (after (on_text uid text false now w)) = data_users w
  ∧ replies (on_text uid text false now w) = []
  ∧ pending_onboarding (after (on_text uid text true now w))
    = pending_onboarding w.
Proof.
  intros Hp. unfold on_text, cb_taken, run_callback. cbv zeta. rewrite Hp.
  unfold on_text_dose.
  destruct (data_users w !! uid) as [u|] eqn:Hu; [|done].
  cbv zeta.
  assert (H1 : persisted u (o_trace (on_text_user true now u))
               = persisted u (o_trace (cb_taken_user now u))).
  { rewrite cb_taken_user_trace, on_text_user_trace.
    destruct (o_result (_migrate_user_reminders u)); [reflexivity|].
    cbv zeta. rewrite andb_true_r.
    destruct (truthy (get _ "courseCompleted")); [reflexivity|].
    cbn [negb]. by destruct (o_result (_apply_taken now _)). }
  assert (H2 : o_trace (on_text_user false now u) = []).
  { rewrite on_text_user_trace.
    destruct (o_result (_migrate_user_reminders u)); [reflexivity|].
    cbv zeta. by rewrite andb_false_r. }
  assert (H3 : ∀ e : option message,
             o_result (on_text_user false now u) ≠ ok (Some e)).
  { intros e. unfold on_text_user.
    destruct (_migrate_user_reminders u) as [s tr [e'|b]] eqn:E.
    - by rewrite (bind_raised _ _ _ _ _ _ E).
    - rewrite (bind_outcome _ _ _ _ _ _ E). cbn [o_result].
      rewrite bind_read, andb_false_r. done. }
  split; [|split; [|split]].
  - destruct (o_result (on_text_user true now u)) as [e|[c|]];
      cbn [after data_users fst]; by rewrite H1.
  - destruct (o_result (on_text_user false now u)) as [e|[c|]];
      cbn [after data_users]; rewrite H2; cbn [persisted];
      by rewrite insert_id.
  - destruct (o_result (on_text_user false now u)) as [e|[c|]] eqn:E;
      [done| |done]. by destruct (H3 c).
  - by destruct (o_result (on_text_user true now u)) as [e|[c|]].
Qed.

(** X20.  The onboarding dialogue never resets a registered user.  On a
    state whose sessions belong to users who are not registered, /start,
    either confirmation button and a text message leave every stored
    record as it is, except that a text message of the user of the record
    may record a dose when it contains a phrase for "taken". *)
Theorem registered_record_is_not_reset (w : world) (uid uid' text : string)
    (says_taken : bool) (now : datetime) (u : dict) :
  world_ok w →
  data_users w !! uid' = Some u →
  data_users (after (cmd_start uid w)) !! uid' = Some u
  ∧ data_users (after (cb_start_confirm_yes uid w)) !! uid' = Some u
  ∧ data_users (after (cb_start_confirm_no uid w)) !! uid' = Some u
  ∧ (uid' ≠ uid ∨ says_taken = false →
     data_users (after (on_text uid text says_taken now w)) !! uid' = Some u).
Proof.
  intros Hw Hu.
  assert (Hne : ∀ ss, pending_onboarding w !! uid = Some ss → uid' ≠ uid).
  { intros ss Hp ->. destruct (Hw uid ss Hp) as [_ Hnone]. congruence. }
  split; [|split; [|split]].
  - destruct (cmd_start_ok uid w Hw) as (_ & _ & ->). exact Hu.
  - unfold cb_start_confirm_yes.
    destruct (pending_onboarding w !! uid) as [ss|] eqn:Hp; [|exact Hu].
    destruct (negb (String.eqb (step ss) "confirm_date")); [exact Hu|].
    destruct (today_iso ss) as [today|]; [|exact Hu].
    destruct (timezone ss) as [tz|]; [|exact Hu].
    assert (data_users
              (World (delete uid (pending_onboarding w))
                 (_save_new_user uid today tz (data_users w))) !! uid'
            = Some u) as Hgoal.
    { cbn [data_users]. unfold _save_new_user.
      rewrite lookup_insert_ne; [exact Hu|]. intros ->. by apply (Hne ss). }
    by destruct (build_first_day_message today).
  - destruct (cb_start_confirm_no_ok uid w Hw) as (_ & _ & ->). exact Hu.
  - intros Hcase. unfold on_text. cbv zeta.
    destruct (pending_onboarding w !! uid) as [ss|] eqn:Hp.
    + destruct (Hw uid ss Hp) as [_ Hnone].
      destruct (String.eqb_spec (step ss) "timezone") as [Hs|Hs].
      * destruct (on_text_timezone_ok uid (strip text) now w Hw Hnone)
          as (_ & _ & ->). exact Hu.
      * destruct (String.eqb_spec (step ss) "optional_date") as [Hs'|Hs'];
          [|exact Hu].
        unfold on_text_date.
        destruct (parse_date unicode_zeros (text_of_string (strip text)))
          as [e|[start|]]; [exact Hu| |exact Hu].
        cbv zeta.
        destruct (String.eqb (string_of_text start) EmptyString); [exact Hu|].
        destruct (timezone ss) as [tz|]; [|exact Hu].
        assert (data_users
                  (World (delete uid (pending_onboarding w))
                     (_save_new_user uid (string_of_text start) tz
                        (data_users w))) !! uid'
                = Some u) as Hgoal.
        { cbn [data_users]. unfold _save_new_user.
          rewrite lookup_insert_ne; [exact Hu|]. intros ->. by apply (Hne ss). }
        by destruct (build_first_day_message (string_of_text start)).
    + unfold on_text_dose.
      destruct (data_users w !! uid) as [u0|] eqn:Hu0; [|exact Hu].
      cbv zeta.
      assert (data_users
                (World (pending_onboarding w)
                   (<[uid := persisted u0 (o_trace (on_text_user says_taken now u0))]>
                      (data_users w))) !! uid' = Some u) as Hgoal.
      { cbn [data_users].
        destruct (decide (uid' = uid)) as [->|Hneq].
        - destruct Hcase as [Hcase| ->]; [done|].
          rewrite lookup_insert_eq, on_text_user_trace.
          destruct (o_result (_migrate_user_reminders u0));
            [cbn [persisted]; congruence|].
          cbv zeta. rewrite andb_false_r. cbn [persisted]. congruence.
        - by rewrite lookup_insert_ne. }
      by destruct (o_result (on_text_user says_taken now u0)) as [e|[c|]].
Qed.

(** ** The loop of the scheduler *)

Example tick_sample :
  let inp := λ _ : string,
    Inputs (mk_datetime 2025 3 2 3 0 0 0 None)
      (mk_datetime 2025 3 2 3 0 0 0 None) true true in
  let r := tick (mk_datetime 2025 3 2 3 0 0 0 None) inp
             [("1", finished_user); ("2", new_user "2025-03-01" 5)] in
  messages r = [("2", MorningPrompt 1 6 2.0%Q)]
  ∧ outcome_of r = ok tt
  ∧ (in_memory r).*1 = ["1"; "2"]
  ∧ (on_disk r).*1 = ["1"; "2"].
Proof. vm_compute. repeat split; reflexivity. Qed.

Lemma tick_loop_returns (now_utc : datetime) (inp : string → inputs)
    (todo : list (string * dict)) :
  ∀ done disk,
    Forall (returns_for now_utc inp) todo →
    let r := tick_loop now_utc inp done todo disk in
    in_memory r = (done ++ (served now_utc inp <$> todo))%list
    ∧ messages r = mjoin (messages_of now_utc inp <$> todo)
    ∧ outcome_of r = ok tt.
Proof.
  induction todo as [|[uid u] rest IH]; intros done disk Hall.
  - cbn. by rewrite app_nil_r.
  - apply Forall_cons in Hall as [Hu Hrest].
    unfold returns_for in Hu. cbn [fst snd] in Hu.
    cbn [tick_loop]. cbv zeta. rewrite Hu.
    cbn [in_memory messages outcome_of].
    specialize (IH (done ++ [(uid, o_state (tick_user_of now_utc inp uid u))])%list
                  (match last_saved (o_trace (tick_user_of now_utc inp uid u)) with
                   | Some snapshot => (done ++ (uid, snapshot) :: rest)%list
                   | None => disk
                   end) Hrest).
    cbv zeta in IH. destruct IH as (-> & -> & ->).
    split; [|done]. by rewrite <- app_assoc.
Qed.

Lemma tick_loop_raises (now_utc : datetime) (inp : string → inputs)
    (before : list (string * dict)) :
  ∀ done disk uid u later e,
    Forall (returns_for now_utc inp) before →
    o_result (tick_user_of now_utc inp uid u) = throw e →
    let r := tick_loop now_utc inp done (before ++ (uid, u) :: later) disk in
    in_memory r
    = (done ++ (served now_utc inp <$> before)
       ++ (uid, o_state (tick_user_of now_utc inp uid u)) :: later)%list
    ∧ messages r
      = (mjoin (messages_of now_utc inp <$> before)
         ++ messages_of now_utc inp (uid, u))%list
    ∧ outcome_of r = throw e.
Proof.
  induction before as [|[uid0 u0] rest IH];
    intros done disk uid u later e Hall He.
  - cbn [app tick_loop fmap list_fmap mjoin list_join]. cbv zeta. rewrite He.
    done.
  - apply Forall_cons in Hall as [Hu Hrest].
    unfold returns_for in Hu. cbn [fst snd] in Hu.
    rewrite <- app_comm_cons. cbn [tick_loop]. cbv zeta. rewrite Hu.
    cbn [in_memory messages outcome_of].
    specialize (IH (done ++ [(uid0, o_state (tick_user_of now_utc inp uid0 u0))])%list
                  (match last_saved (o_trace (tick_user_of now_utc inp uid0 u0)) with
                   | Some snapshot =>
                       (done ++ (uid0, snapshot) :: rest ++ (uid, u) :: later)%list
                   | None => disk
                   end) uid u later e Hrest He).
    cbv zeta in IH. destruct IH as (-> & -> & ->).
    split; [by rewrite <- app_assoc|]. split; [|done].
    cbn [fmap list_fmap mjoin list_join]. by rewrite app_assoc.
Qed.

(** The loop of the upgrade raises on the first entry that is not a JSON
    object. *)
Lemma earliest_loop_non_dict (l : list value) :
  forallb is_dict l = false →
  ∀ acc, earliest_loop acc l = throw AttributeError.
Proof.
  induction l as [|pr l IH]; [intros H; discriminate H|].
  cbn [forallb]. intros H acc. cbn [earliest_loop].
  destruct pr as [| | | | |d]; try reflexivity.
  rewrite earliest_step_dict.
  change (mbind ?f (ok ?x)) with (f x). cbv beta.
  apply IH. exact H.
Qed.

(** The upgrade raises on a legacy list with such an entry, when no timer
    is set, and leaves the list in the record. *)
Lemma migrate_malformed (s : dict) (l : list value) :
  s !! "pendingReminders" = Some (VList l) →
  forallb is_dict l = false →
  truthy (get s "nextReminderTimestamp") = false →
  _migrate_user_reminders s
  = Outcome (with_timer_keys s) [] (throw AttributeError).
Proof.
  intros Hp Hl Hn. rewrite migrate_unfold. cbv zeta. unfold contains.
  rewrite !get_with_timer_keys, (get_lookup _ _ _ Hp), Hn.
  rewrite lookup_with_timer_keys, Hp by done.
  destruct l as [|x l]; [discriminate Hl|]. cbn [truthy negb orb].
  cbn [iter_values]. rewrite bind_lift_ok.
  by rewrite (earliest_loop_non_dict (x :: l) Hl).
Qed.

(** The morning check returns, and writes lastMorningMessageDate only. *)
Lemma morning_check_frame (today hm : string) (d required : Z) (u : dict) :
  ∃ s tr, morning_check today hm d required u = Outcome s tr (ok tt)
          ∧ ∀ k, k ≠ "lastMorningMessageDate" → s !! k = u !! k.
Proof.
  unfold morning_check.
  destruct (String.leb "07:59" hm && String.leb hm "08:01");
    [|by eexists _, _].
  rewrite bind_read.
  destruct (ne_str (get u "lastMorningMessageDate") today);
    [|by eexists _, _].
  rewrite bind_store, bind_save. eexists _, _. split; [reflexivity|].
  intros k Hk. cbn [o_state emit]. by rewrite lookup_insert_ne.
Qed.

(** The evening check writes last21Check only, also when it raises. *)
Lemma missed_check_frame (today hm : string) (required : Z) (u : dict) :
  ∃ s tr r, missed_check today hm required u = Outcome s tr r
            ∧ ∀ k, k ≠ "last21Check" → s !! k = u !! k.
Proof.
  unfold missed_check.
  destruct (String.leb "20:59" hm && String.leb hm "21:02");
    [|by eexists _, _, _].
  rewrite bind_read.
  destruct (as_int (get_or u "takenToday" (VInt 0))) as [e|k];
    [by eexists _, _, _|].
  rewrite bind_lift_ok. cbv zeta.
  destruct ((required - k >? 0) && ne_str (get u "last21Check") today);
    [|by eexists _, _, _].
  rewrite bind_store, bind_save. eexists _, _, _. split; [reflexivity|].
  intros k' Hk. cbn [o_state emit]. by rewrite lookup_insert_ne.
Qed.

(** The tick raises on a record of the course that has such a legacy
    list, at every time of day, and the record keeps what made it
    raise. *)
Lemma tick_user_malformed (u : dict) (l : list value)
    (now_utc clock_date clock_time local_date local_time : datetime)
    (tz d : Z) (nd pd : bool) :
  u !! "pendingReminders" = Some (VList l) →
  forallb is_dict l = false →
  truthy (get u "nextReminderTimestamp") = false →
  truthy (get u "courseCompleted") = false →
  int_of_value (get_or u "timezone" (VInt 0)) = ok tz →
  user_local_now clock_date tz = ok local_date →
  user_local_now clock_time tz = ok local_time →
  as_int (get_or u "currentDay" (VInt 1)) = ok d →
  d ≤ 25 →
  let o := tick_user now_utc clock_date clock_time nd pd u in
  (∃ e, o_result o = throw e)
  ∧ o_state o !! "pendingReminders" = Some (VList l)
  ∧ truthy (get (o_state o) "nextReminderTimestamp") = false
  ∧ get (o_state o) "courseCompleted" = get u "courseCompleted"
  ∧ get_or (o_state o) "timezone" (VInt 0) = get_or u "timezone" (VInt 0)
  ∧ get_or (o_state o) "currentDay" (VInt 1) = get_or u "currentDay" (VInt 1).
Proof.
  intros Hp Hl Hn Hc Htz Hld Hlt Hd Hle. cbv zeta.
  rewrite (tick_user_active u _ _ _ local_date local_time tz d) by done.
  destruct (morning_check_frame (strftime_Ymd local_date)
              (strftime_HM local_time) d (get_required_doses d) u)
    as (s1 & tr1 & E1 & F1).
  rewrite (bind_outcome _ _ _ _ _ _ E1).
  cbn [o_state o_result].
  destruct (missed_check_frame (strftime_Ymd local_date)
              (strftime_HM local_time) (get_required_doses d) s1)
    as (s2 & tr2 & r2 & E2 & F2).
  assert (F : ∀ k, k ≠ "lastMorningMessageDate" → k ≠ "last21Check" →
                   s2 !! k = u !! k).
  { intros k H1 H2. by rewrite F2, F1. }
  assert (Hfin : ∀ s : dict,
             (∀ k, k ≠ "lastMorningMessageDate" → k ≠ "last21Check" →
                   k ≠ "nextReminderTimestamp" →
                   k ≠ "postponedReminderTimestamp" → s !! k = u !! k) →
             truthy (get s "nextReminderTimestamp") = false →
             s !! "pendingReminders" = Some (VList l)
             ∧ truthy (get s "nextReminderTimestamp") = false
             ∧ get s "courseCompleted" = get u "courseCompleted"
             ∧ get_or s "timezone" (VInt 0) = get_or u "timezone" (VInt 0)
             ∧ get_or s "currentDay" (VInt 1) = get_or u "currentDay" (VInt 1)).
  { intros s Fs Hs. split; [by rewrite Fs|]. split; [exact Hs|].
    unfold get, get_or.
    rewrite (Fs "courseCompleted"), (Fs "timezone"), (Fs "currentDay")
      by done.
    done. }
  destruct r2 as [e|[]].
  - rewrite (bind_raised _ _ _ _ _ _ E2). cbn [o_state o_result].
    split; [by exists e|]. apply Hfin.
    + intros k H1 H2 _ _. by apply F.
    + unfold get. by rewrite F.
  - rewrite (bind_outcome _ _ _ _ _ _ E2). cbn [o_state o_result].
    assert (Hp2 : s2 !! "pendingReminders" = Some (VList l))
      by by rewrite F.
    assert (Hn2 : truthy (get s2 "nextReminderTimestamp") = false)
      by (unfold get; by rewrite F).
    unfold reminders_due.
    rewrite (bind_raised _ _ _ _ _ _ (migrate_malformed s2 l Hp2 Hl Hn2)).
    cbn [o_state o_result]. split; [by exists AttributeError|].
    apply Hfin.
    + intros k H1 H2 H3 H4. rewrite lookup_with_timer_keys by done.
      by apply F.
    + by rewrite get_with_timer_keys.
Qed.

Lemma messages_of_addressee (now_utc : datetime) (inp : string → inputs)
    (l : list (string * dict)) (uid : string) (m : message) :
  (uid, m) ∈ mjoin (messages_of now_utc inp <$> l) → uid ∈ l.*1.
Proof.
  intros H. apply list_elem_of_join in H as (ms & Hin & Hms).
  apply list_elem_of_fmap in Hms as (p & -> & Hp).
  unfold messages_of in Hin.
  apply list_elem_of_fmap in Hin as (m' & Heq & _).
  injection Heq as -> _. apply list_elem_of_fmap. by exists p.
Qed.

(** X21.  One malformed record stops the scheduler for everyone after it
    in the file.  Let a user within the course have a legacy list with an
    entry that is not an object, and no reminder timer.  Then the tick
    raises when it comes to that user, at every time of day: the users
    later in the file are not served, their records stay as they are and
    they get no message.  The record keeps its legacy list, timer, day
    and time zone, so that the same happens at the next tick. *)
Theorem malformed_record_blocks_later_users (now_utc : datetime)
    (inp : string → inputs) (before later : list (string * dict))
    (uid : string) (u : dict) (l : list value)
    (local_date local_time : datetime) (tz d : Z) :
  u !! "pendingReminders" = Some (VList l) →
  forallb is_dict l = false →
  truthy (get u "nextReminderTimestamp") = false →
  truthy (get u "courseCompleted") = false →
  int_of_value (get_or u "timezone" (VInt 0)) = ok tz →
  user_local_now (date_clock (inp uid)) tz = ok local_date →
  user_local_now (time_clock (inp uid)) tz = ok local_time →
  as_int (get_or u "currentDay" (VInt 1)) = ok d →
  d ≤ 25 →
  Forall (returns_for now_utc inp) before →
  let r := tick now_utc inp (before ++ (uid, u) :: later) in
  ∃ (e : exn) (u' : dict),
    outcome_of r = throw e
    ∧ in_memory r
      = ((served now_utc inp <$> before) ++ (uid, u') :: later)%list
    ∧ (∀ uid' m, (uid', m) ∈ messages r → uid' ∈ before.*1 ∨ uid' = uid)
    ∧ u' !! "pendingReminders" = Some (VList l)
    ∧ truthy (get u' "nextReminderTimestamp") = false
    ∧ get u' "courseCompleted" = get u "courseCompleted"
    ∧ get_or u' "timezone" (VInt 0) = get_or u "timezone" (VInt 0)
    ∧ get_or u' "currentDay" (VInt 1) = get_or u "currentDay" (VInt 1).
Proof.
  intros Hp Hl Hn Hc Htz Hld Hlt Hd Hle Hbefore r.
  destruct (tick_user_malformed u l now_utc (date_clock (inp uid))
              (time_clock (inp uid)) local_date local_time tz d
              (next_ok (inp uid)) (post_ok (inp uid))
              Hp Hl Hn Hc Htz Hld Hlt Hd Hle)
    as ([e He] & Hrest).
  fold (tick_user_of now_utc inp uid) in He, Hrest.
  destruct (tick_loop_raises now_utc inp before [] (before ++ (uid, u) :: later)
              uid u later e Hbefore He) as (Hmem & Hmsg & Hout).
  cbv zeta in *. fold (tick now_utc inp (before ++ (uid, u) :: later)) in *.
  exists e, (o_state (tick_user_of now_utc inp uid u)).
  split; [exact Hout|]. split; [exact Hmem|]. split; [|exact Hrest].
  intros uid' m. unfold r. rewrite Hmsg, elem_of_app. intros [H|H].
  - left. by apply (messages_of_addressee now_utc inp before uid' m).
  - right. unfold messages_of in H.
    apply list_elem_of_fmap in H as (m' & Heq & _). by injection Heq.
Qed.

Lemma nodup_fst_inj {A B} (l : list (A * B)) (p p' : A * B) :
  NoDup l.*1 → p ∈ l → p' ∈ l → p.1 = p'.1 → p = p'.
Proof.
  induction l as [|q l IH]; intros Hnd Hp Hp' Heq.
  - by apply elem_of_nil in Hp.
  - cbn [fmap list_fmap] in Hnd. apply NoDup_cons in Hnd as [Hq Hnd].
    apply elem_of_cons in Hp as [->|Hp];
      apply elem_of_cons in Hp' as [->|Hp'].
    + reflexivity.
    + destruct Hq. rewrite Heq. apply list_elem_of_fmap. by exists p'.
    + destruct Hq. rewrite <- Heq. apply list_elem_of_fmap. by exists p.
    + by apply IH.
Qed.

(** X22.  When the body of the loop returns for every user, the tick
    serves each user on their own record: the record in memory and the
    messages of a user are those of the body of the loop on that record,
    and the users stay the same, in the same order.  A user whose course
    is completed keeps the record as it is and gets no message. *)
Theorem tick_serves_each_user_alone (now_utc : datetime)
    (inp : string → inputs) (users : list (string * dict)) :
  NoDup users.*1 →
  Forall (returns_for now_utc inp) users →
  let r := tick now_utc inp users in
  outcome_of r = ok tt
  ∧ in_memory r = served now_utc inp <$> users
  ∧ messages r = mjoin (messages_of now_utc inp <$> users)
  ∧ (in_memory r).*1 = users.*1
  ∧ (∀ p, p ∈ users → truthy (get p.2 "courseCompleted") = true →
          p ∈ in_memory r ∧ ∀ m, (p.1, m) ∉ messages r).
Proof.
  intros Hnd Hall r.
  destruct (tick_loop_returns now_utc inp users [] users Hall)
    as (Hmem & Hmsg & Hout).
  cbv zeta in *. fold (tick now_utc inp users) in *. fold r in Hmem, Hmsg, Hout.
  cbn [app] in Hmem.
  split; [exact Hout|]. split; [exact Hmem|]. split; [exact Hmsg|].
  split.
  - rewrite Hmem, <- list_fmap_compose. by apply list_fmap_ext.
  - intros p Hp Hc.
    assert (Hskip : tick_user_of now_utc inp p.1 p.2 = Outcome p.2 [] (ok tt))
      by (unfold tick_user_of; apply tick_user_completed; exact Hc).
    split.
    + rewrite Hmem. apply list_elem_of_fmap. exists p. split; [|done].
      unfold served. rewrite Hskip. by destruct p.
    + intros m. rewrite Hmsg. intros H.
      apply list_elem_of_join in H as (ms & Hin & Hms).
      apply list_elem_of_fmap in Hms as (p' & -> & Hp').
      unfold messages_of in Hin.
      apply list_elem_of_fmap in Hin as (m' & Heq & Hm').
      injection Heq as Huid _.
      assert (p = p') as <- by by apply (nodup_fst_inj users).
      rewrite Hskip in Hm'. cbn [o_trace sent] in Hm'.
      by apply elem_of_nil in Hm'.
Qed.

(** ** The further properties at sample inputs *)

(** The first dose of a new user. *)
Lemma dose_event_progress_witness :
  let u := new_user "2025-03-01" 5 in
  let o := _apply_taken first_dose_time u in
  in_course u 1 0 ∧ clock_reading first_dose_time
  ∧ o_trace o = []
  ∧ get (o_state o) "lastDoseTimestamp" = stamp first_dose_time
  ∧ get (o_state o) "postponedReminderTimestamp" = VNone
  ∧ ∃ d' k', as_int (get_or (o_state o) "currentDay" (VInt 1)) = ok d'
             ∧ as_int (get_or (o_state o) "takenToday" (VInt 0)) = ok k'
             ∧ doses_left d' k' = doses_left 1 0 - 1.
Proof.
  intros u o.
  assert (Hin : in_course u 1 0)
    by (split; [reflexivity|]; split; [reflexivity|]; vm_compute;
        repeat split; intros H; discriminate H).
  assert (Hnow : clock_reading first_dose_time)
    by (split; [reflexivity|]; split; [reflexivity|]; cbn; lia).
  split; [exact Hin|]. split; [exact Hnow|].
  destruct (dose_event_progress u first_dose_time 1 0 Hin Hnow)
    as (d' & k' & Htr & Hd & Hk & _ & Hleft & Hpost & Hdose & _).
  split; [exact Htr|]. split; [exact Hdose|]. split; [exact Hpost|].
  exists d', k'. split; [exact Hd|]. split; [exact Hk|]. exact Hleft.
Defined.

(** A new user who takes 101 doses. *)
Lemma full_course_is_101_doses_witness :
  let u := new_user "2025-03-01" 5 in
  let nows := replicate 101 first_dose_time in
  let o := apply_taken_seq nows u in
  in_course u 1 0 ∧ Forall clock_reading nows ∧ (length nows ≤ 101)%nat
  ∧ o_result o = ok (Some CompletionNotice)
  ∧ get (o_state o) "courseCompleted" = VBool true.
Proof.
  intros u nows o.
  assert (Hin : in_course u 1 0)
    by (split; [reflexivity|]; split; [reflexivity|]; vm_compute;
        repeat split; intros H; discriminate H).
  assert (Hnows : Forall clock_reading nows).
  { apply Forall_replicate.
    split; [reflexivity|]. split; [reflexivity|]. cbn. lia. }
  assert (Hlen : (length nows ≤ 101)%nat) by (cbn; lia).
  split; [exact Hin|]. split; [exact Hnows|]. split; [exact Hlen|].
  destruct (full_course_is_101_doses u nows Hin Hnows Hlen) as [_ Hlast].
  destruct (Hlast eq_refl) as (H1 & H2 & _).
  split; [exact H1|exact H2].
Defined.

(** The third dose of day 4. *)
Lemma taken_button_in_course_witness :
  let users : gmap string dict := {[ "42" := behind_user ]} in
  users !! "42" = Some behind_user
  ∧ wf_pending behind_user = true
  ∧ truthy (get behind_user "courseCompleted") = false
  ∧ in_course behind_user 4 2 ∧ clock_reading first_dose_time
  ∧ ∃ s, cb_taken first_dose_time "42" users
         = (<["42" := s]> users, [Answered false; Saved s; Edited NoteTaken])
         ∧ get s "lastDoseTimestamp" = stamp first_dose_time
         ∧ truthy (get s "courseCompleted") = false.
Proof.
  intros users.
  assert (Hin : in_course behind_user 4 2)
    by (split; [reflexivity|]; split; [reflexivity|]; vm_compute;
        repeat split; intros H; discriminate H).
  assert (Hnow : clock_reading first_dose_time)
    by (split; [reflexivity|]; split; [reflexivity|]; cbn; lia).
  split; [reflexivity|]. split; [reflexivity|]. split; [reflexivity|].
  split; [exact Hin|]. split; [exact Hnow|].
  destruct (taken_button_in_course users "42" behind_user first_dose_time 4 2
              eq_refl eq_refl eq_refl Hin Hnow)
    as (s & d' & k' & Hrun & _ & _ & _ & _ & _ & Hdose & Hcc).
  exists s. split; [exact Hrun|]. split; [exact Hdose|exact Hcc].
Defined.

(** A record on day 26 that is not marked completed. *)
Lemma completion_notice_once_witness :
  let u := <["currentDay" := VInt 26]> (new_user "2025-03-01" 5) in
  let clock := mk_datetime 2025 3 26 3 0 0 0 None in
  let local := mk_datetime 2025 3 26 8 0 0 0 None in
  let u' := <["courseCompleted" := VBool true]> u in
  truthy (get u "courseCompleted") = false
  ∧ int_of_value (get_or u "timezone" (VInt 0)) = ok 5
  ∧ user_local_now clock 5 = ok local
  ∧ as_int (get_or u "currentDay" (VInt 1)) = ok 26
  ∧ tick_user clock clock clock true true u
    = Outcome u' [Saved u'; Sent CompletionNotice] (ok tt)
  ∧ tick_user clock clock clock true true u' = Outcome u' [] (ok tt).
Proof.
  intros u clock local u'.
  split; [reflexivity|]. split; [reflexivity|]. split; [reflexivity|].
  split; [reflexivity|].
  destruct (completion_notice_once u clock clock clock local local 5 26
              true true eq_refl eq_refl eq_refl eq_refl eq_refl ltac:(lia))
    as [H1 H2].
  split; [exact H1|apply H2].
Defined.

(** "Yes" to the missed-dose prompt on day 25, then a tick. *)
Lemma missed_yes_last_day_then_tick_witness :
  let clock := mk_datetime 2025 3 25 16 0 0 0 None in
  let local := mk_datetime 2025 3 25 21 0 0 0 None in
  wf_pending last_day_user = true
  ∧ truthy (get last_day_user "courseCompleted") = false
  ∧ in_course last_day_user 25 1
  ∧ int_of_value (get_or last_day_user "timezone" (VInt 0)) = ok 5
  ∧ user_local_now clock 5 = ok local
  ∧ ∃ u2, cb_missed_yes_user last_day_user
          = Outcome u2 [Saved u2; Edited NoteMissedDone] (ok tt)
          ∧ get u2 "currentDay" = VInt 26
          ∧ truthy (get u2 "courseCompleted") = false
          ∧ sent (o_trace (tick_user clock clock clock true true u2))
            = [CompletionNotice].
Proof.
  intros clock local.
  assert (Hin : in_course last_day_user 25 1)
    by (split; [reflexivity|]; split; [reflexivity|]; vm_compute;
        repeat split; intros H; discriminate H).
  split; [reflexivity|]. split; [reflexivity|]. split; [exact Hin|].
  split; [reflexivity|]. split; [reflexivity|].
  destruct (missed_yes_last_day_then_tick last_day_user clock clock clock
              local local 5 1 true true eq_refl eq_refl Hin eq_refl eq_refl
              eq_refl)
    as (u2 & H1 & H2 & H3 & H4).
  exists u2. split; [exact H1|]. split; [exact H2|].
  split; [by rewrite H3|]. by rewrite H4.
Defined.

(** The evening check for the sample record of day 4, at 21:00 and again
    at 21:01. *)
Lemma missed_prompt_once_witness :
  let clock := mk_datetime 2025 3 4 16 0 0 0 None in
  let clock2 := mk_datetime 2025 3 4 16 1 0 0 None in
  let local := mk_datetime 2025 3 4 21 0 0 0 None in
  let local2 := mk_datetime 2025 3 4 21 1 0 0 None in
  let u' := <["last21Check" := VStr "2025-03-04"]> behind_user in
  truthy (get behind_user "courseCompleted") = false
  ∧ int_of_value (get_or behind_user "timezone" (VInt 0)) = ok 5
  ∧ as_int (get_or behind_user "currentDay" (VInt 1)) = ok 4
  ∧ as_int (get_or behind_user "takenToday" (VInt 0)) = ok 2
  ∧ no_timers behind_user
  ∧ user_local_now clock 5 = ok local
  ∧ evening_window local
  ∧ tick_user clock clock clock true true behind_user
    = Outcome (with_timer_keys u') [Saved u'; Sent (MissedPrompt 3)] (ok tt)
  ∧ tick_user clock2 clock2 clock2 true true (with_timer_keys u')
    = Outcome (with_timer_keys u') [] (ok tt).
Proof.
  intros clock clock2 local local2 u'.
  assert (Hnt : no_timers behind_user) by (repeat split; reflexivity).
  assert (Hw : evening_window local)
    by (right; split; [reflexivity|]; cbn; lia).
  assert (Hw2 : evening_window local2)
    by (right; split; [reflexivity|]; cbn; lia).
  split; [reflexivity|]. split; [reflexivity|]. split; [reflexivity|].
  split; [reflexivity|]. split; [exact Hnt|]. split; [reflexivity|].
  split; [exact Hw|].
  destruct (missed_prompt_once behind_user clock clock clock local local
              5 4 2 true true eq_refl eq_refl eq_refl ltac:(lia) eq_refl
              Hnt eq_refl eq_refl Hw)
    as [H1 H2].
  split; [exact H1|].
  exact (H2 clock2 clock2 clock2 local2 local2 true true eq_refl eq_refl
           eq_refl Hw2).
Defined.

(** A tick at noon, local time. *)
Lemma quiet_tick_witness :
  let clock := mk_datetime 2025 3 4 7 0 0 0 None in
  let local := mk_datetime 2025 3 4 12 0 0 0 None in
  truthy (get behind_user "courseCompleted") = false
  ∧ int_of_value (get_or behind_user "timezone" (VInt 0)) = ok 5
  ∧ as_int (get_or behind_user "currentDay" (VInt 1)) = ok 4
  ∧ no_timers behind_user
  ∧ user_local_now clock 5 = ok local
  ∧ ¬ morning_window local ∧ ¬ evening_window local
  ∧ tick_user clock clock clock true true behind_user
    = Outcome (with_timer_keys behind_user) [] (ok tt).
Proof.
  intros clock local.
  assert (Hnt : no_timers behind_user) by (repeat split; reflexivity).
  assert (Hm : ¬ morning_window local)
    by (intros [[H _] | [H _]]; discriminate H).
  assert (He : ¬ evening_window local)
    by (intros [[H _] | [H _]]; discriminate H).
  split; [reflexivity|]. split; [reflexivity|]. split; [reflexivity|].
  split; [exact Hnt|]. split; [reflexivity|]. split; [exact Hm|].
  split; [exact He|].
  exact (quiet_tick behind_user clock clock clock local local 5 4 true true
           eq_refl eq_refl eq_refl ltac:(lia) Hnt eq_refl eq_refl Hm He).
Defined.


(** The timers of a first dose at 10:00 and of a "remind later" at 10:00,
    looked at after 12:00. *)
Lemma scheduled_reminders_are_dropped_witness :
  let u := new_user "2025-03-01" 5 in
  let st := o_state (_apply_taken first_dose_time u) in
  let st2 := o_state (cb_postpone_user first_dose_time u) in
  u !! "pendingReminders" = None
  ∧ truthy (get u "courseCompleted") = false
  ∧ in_course u 1 0 ∧ 1 < doses_left 1 0
  ∧ clock_reading first_dose_time ∧ tzinfo after_due = None
  ∧ truthy (get u "nextReminderTimestamp") = false
  ∧ truthy (get st "nextReminderTimestamp") = true
  ∧ sent (o_trace (reminders_due after_due 1 true true st)) = []
  ∧ truthy (get st2 "postponedReminderTimestamp") = true
  ∧ sent (o_trace (reminders_due after_due 1 true true st2)) = [].
Proof.
  intros u st st2.
  assert (Hin : in_course u 1 0)
    by (split; [reflexivity|]; split; [reflexivity|]; vm_compute;
        repeat split; intros H; discriminate H).
  assert (Hnow : clock_reading first_dose_time)
    by (split; [reflexivity|]; split; [reflexivity|]; cbn; lia).
  assert (Hleft : 1 < doses_left 1 0) by reflexivity.
  split; [reflexivity|]. split; [reflexivity|]. split; [exact Hin|].
  split; [exact Hleft|]. split; [exact Hnow|]. split; [reflexivity|].
  split; [reflexivity|].
  destruct (scheduled_reminders_are_dropped u first_dose_time after_due 1 0 1
              true true eq_refl eq_refl Hin Hleft Hnow eq_refl)
    as [[H1 H2] H3].
  destruct (H3 eq_refl) as [H4 H5]. unfold st, st2.
  split; [exact H1|]. split; [by rewrite H2|].
  split; [exact H4|]. by rewrite H5.
Defined.

(** A timer stored without the suffix "Z", looked at one second before
    and one second after it is due. *)
Lemma naive_timer_fires_when_due_witness :
  let u := <["nextReminderTimestamp" := VStr "2025-03-01T12:00:00"]>
             (new_user "2025-03-01" 5) in
  let dt := mk_datetime 2025 3 1 12 0 0 0 None in
  let u' := <["nextReminderTimestamp" := VNone]> (with_timer_keys u) in
  u !! "pendingReminders" = None
  ∧ truthy (get u "nextReminderTimestamp") = true
  ∧ parse_timestamp (get u "nextReminderTimestamp") = ok dt
  ∧ truthy (get u "postponedReminderTimestamp") = false
  ∧ reminders_due before_due 1 true true u
    = Outcome (with_timer_keys u) [] (ok tt)
  ∧ reminders_due after_due 1 true true u
    = Outcome u' [Sent (DoseReminder 1); Saved u'] (ok tt)
  ∧ reminders_due after_due 1 true true u' = Outcome u' [] (ok tt).
Proof.
  intros u dt u'.
  split; [reflexivity|]. split; [reflexivity|]. split; [reflexivity|].
  split; [reflexivity|].
  destruct (naive_timer_fires_when_due u dt before_due 1 true true
              eq_refl eq_refl eq_refl eq_refl eq_refl eq_refl) as [H1 _].
  destruct (naive_timer_fires_when_due u dt after_due 1 true true
              eq_refl eq_refl eq_refl eq_refl eq_refl eq_refl) as [H2 H3].
  split; [exact H1|]. split; [exact H2|]. apply H3.
Defined.

(** A legacy record with one reminder, due at 12:00 UTC. *)
Lemma migrate_keeps_own_stamp_witness :
  let entry : dict := {[ "triggerAt" := VStr "2025-03-01T12:00:00Z" ]} in
  let u := <["pendingReminders" := VList [VDict entry]]>
             (delete "nextReminderTimestamp" (new_user "2025-03-01" 5)) in
  let d := mk_datetime 2025 3 1 12 0 0 0 None in
  valid_fields d = true
  ∧ u !! "pendingReminders" = Some (VList [VDict entry])
  ∧ get entry "triggerAt" = stamp d
  ∧ truthy (get u "nextReminderTimestamp") = false
  ∧ get (o_state (_migrate_user_reminders u)) "nextReminderTimestamp"
    = VStr "2025-03-01T12:00:00Z".
Proof.
  intros entry u d.
  split; [reflexivity|]. split; [reflexivity|]. split; [reflexivity|].
  split; [reflexivity|].
  destruct (migrate_keeps_own_stamp u entry d eq_refl eq_refl eq_refl eq_refl
              eq_refl) as (_ & H & _).
  exact H.
Defined.

(** The answer "+5", typed with the Arabic-Indic digit five, to the
    question of the time zone. *)
Lemma timezone_round_trip_witness :
  parse_timezone unicode_zeros [32; 43; 0x665; 32]%N = ok (Some 5)
  ∧ get (new_user "2025-03-01" 5) "timezone" = VStr "5"
  ∧ int_of_value (get_or (new_user "2025-03-01" 5) "timezone" (VInt 0))
    = ok 5.
Proof.
  split; [reflexivity|].
  exact (timezone_round_trip unicode_zeros [32; 43; 0x665; 32]%N
           "2025-03-01" 5 eq_refl).
Defined.

(** A date typed with fullwidth digits in the year and in the day. *)
Lemma parse_date_accepts_calendar_dates_witness :
  let typed := [0xFF12; 0xFF10; 0xFF12; 0xFF15; 45; 48; 51; 45; 49; 0xFF15]%N in
  digits_ok unicode_zeros = true
  ∧ parse_date unicode_zeros (32%N :: typed) = ok (Some typed)
  ∧ ∃ y m d, calendar_date y m d ∧ reads_date unicode_zeros typed y m d.
Proof.
  intros typed.
  destruct (parse_date_accepts_calendar_dates unicode_zeros (32%N :: typed)
              eq_refl) as (H1 & _).
  split; [reflexivity|]. split; [reflexivity|].
  exact (proj2 (proj1 (H1 typed) eq_refl)).
Defined.

(** The same date, shown day first in ASCII digits. *)
Lemma shown_dates_are_formatted_witness :
  let typed := [0xFF12; 0xFF10; 0xFF12; 0xFF15; 45; 48; 51; 45; 49; 0xFF15]%N in
  digits_ok unicode_zeros = true
  ∧ parse_date unicode_zeros typed = ok (Some typed)
  ∧ format_date_dd_mm_yyyy unicode_zeros typed = ok "15-03-2025"
  ∧ returns (format_date_dd_mm_yyyy unicode_zeros typed).
Proof.
  intros typed.
  destruct (shown_dates_are_formatted unicode_zeros eq_refl) as (H1 & _).
  destruct (H1 typed typed eq_refl) as (y & m & d & _ & _ & Hret & _).
  split; [reflexivity|]. split; [reflexivity|]. split; [reflexivity|].
  exact Hret.
Defined.

(** A state with one session and one registered user. *)
Lemma onboarding_sessions_stay_well_formed_witness :
  let w := World {[ "7" := Session "timezone" None None ]}
             {[ "42" := behind_user ]} in
  let clock := mk_datetime 2025 3 1 3 0 0 0 None in
  world_ok w
  ∧ world_ok (after (on_text "7" "+5" false clock w))
  ∧ raised (on_text "7" "+5" false clock w) ≠ Some KeyError
  ∧ raised (cb_start_confirm_yes "7" w) = None.
Proof.
  intros w clock.
  assert (Hw : world_ok w).
  { intros uid ss H. unfold w in H. cbn [pending_onboarding] in H.
    apply lookup_singleton_Some in H as [<- <-].
    split; [by left|reflexivity]. }
  split; [exact Hw|].
  destruct (onboarding_sessions_stay_well_formed w "7" "+5" false clock Hw)
    as (_ & H2 & _ & _ & _ & H6 & H7 & _).
  split; [exact H2|]. split; [exact H6|exact H7].
Defined.

(** The registration of a first user, at 08:00 local time. *)
Lemma registration_dialogue_witness :
  let w := World ∅ ∅ in
  let clock := mk_datetime 2025 3 1 3 0 0 0 None in
  let local := mk_datetime 2025 3 1 8 0 0 0 None in
  let r2 := on_text "42" " +5 " false clock (after (cmd_start "42" w)) in
  let yes := cb_start_confirm_yes "42" (after r2) in
  data_users w !! "42" = None
  ∧ parse_timezone unicode_zeros (text_of_string " +5 ") = ok (Some 5)
  ∧ user_local_now clock 5 = ok local
  ∧ replies r2 = [ConfirmDate "01-03-2025"]
  ∧ replies yes = [Ack; MarkupRemoved; FirstDay "01-03-2025"]
  ∧ data_users (after yes) = <["42" := new_user "2025-03-01" 5]> ∅.
Proof.
  intros w clock local r2 yes.
  split; [reflexivity|]. split; [reflexivity|]. split; [reflexivity|].
  destruct (registration_dialogue w "42" " +5 " false clock local 5
              eq_refl eq_refl eq_refl)
    as (_ & (H2 & _) & (H3 & _ & H4 & _) & _).
  split; [exact H2|]. split; [exact H3|exact H4].
Defined.

(** A text with a phrase for "taken" from the sample user of day 4. *)
Lemma taken_phrase_stores_as_taken_witness :
  let w := World ∅ {[ "42" := behind_user ]} in
  pending_onboarding w !! "42" = None
  ∧ data_users (after (on_text "42" "ok" true first_dose_time w))
    = (cb_taken first_dose_time "42" (data_users w)).1
  ∧ data_users (after (on_text "42" "ok" false first_dose_time w))
    = data_users w.
Proof.
  intros w. split; [reflexivity|].
  destruct (taken_phrase_stores_as_taken w "42" "ok" first_dose_time eq_refl)
    as (H1 & H2 & _).
  split; [exact H1|exact H2].
Defined.

(** A user in the dialogue and a registered user. *)
Lemma registered_record_is_not_reset_witness :
  let w := World {[ "7" := Session "confirm_date" (Some 5)
                             (Some (date_text 2025 3 1)) ]}
             {[ "42" := behind_user ]} in
  world_ok w
  ∧ data_users w !! "42" = Some behind_user
  ∧ data_users (after (cb_start_confirm_yes "7" w)) !! "42" = Some behind_user
  ∧ data_users (after (cmd_start "42" w)) !! "42" = Some behind_user.
Proof.
  intros w.
  assert (Hw : world_ok w).
  { intros uid ss H. unfold w in H. cbn [pending_onboarding] in H.
    apply lookup_singleton_Some in H as [<- <-].
    split; [|reflexivity]. right. split; [by left|].
    exists 5, 2025, 3, 1. repeat split; try reflexivity; cbn; lia. }
  split; [exact Hw|]. split; [reflexivity|].
  destruct (registered_record_is_not_reset w "7" "42" "" false
              first_dose_time behind_user Hw eq_refl) as (_ & H2 & _).
  destruct (registered_record_is_not_reset w "42" "42" "" false
              first_dose_time behind_user Hw eq_refl) as (H1 & _).
  split; [exact H2|exact H1].
Defined.

(** Three users; the second has a legacy list with a number in it.  The
    tick runs at 08:00 local time, when the third is due the morning
    prompt. *)
Lemma malformed_record_blocks_later_users_witness :
  let clock := mk_datetime 2025 3 2 3 0 0 0 None in
  let local := mk_datetime 2025 3 2 8 0 0 0 None in
  let inp := λ _ : string, Inputs clock clock true true in
  let u := <["pendingReminders" := VList [VInt 7]]> (new_user "2025-03-01" 5) in
  let third := ("3", new_user "2025-03-01" 5) in
  let r := tick clock inp [("1", finished_user); ("2", u); third] in
  u !! "pendingReminders" = Some (VList [VInt 7])
  ∧ forallb is_dict [VInt 7] = false
  ∧ truthy (get u "courseCompleted") = false
  ∧ user_local_now clock 5 = ok local
  ∧ Forall (returns_for clock inp) [("1", finished_user)]
  ∧ (∃ e, outcome_of r = throw e)
  ∧ third ∈ in_memory r
  ∧ ∀ m, ("3", m) ∉ messages r.
Proof.
  intros clock local inp u third r.
  assert (Hbefore : Forall (returns_for clock inp) [("1", finished_user)])
    by (repeat constructor).
  split; [reflexivity|]. split; [reflexivity|]. split; [reflexivity|].
  split; [reflexivity|]. split; [exact Hbefore|].
  destruct (malformed_record_blocks_later_users clock inp
              [("1", finished_user)] [third] "2" u [VInt 7] local local 5 1
              eq_refl eq_refl eq_refl eq_refl eq_refl eq_refl eq_refl eq_refl
              ltac:(lia) Hbefore)
    as (e & u' & Hout & Hmem & Hmsg & _).
  cbn [app] in Hout, Hmem, Hmsg. fold u third r in Hout, Hmem, Hmsg.
  split; [by exists e|]. split.
  - rewrite Hmem. apply elem_of_app. right.
    apply elem_of_cons. right. apply elem_of_cons. by left.
  - intros m Hm. apply Hmsg in Hm as [Hm | Hm]; [|discriminate Hm].
    cbn in Hm. apply elem_of_cons in Hm as [Hm | Hm]; [discriminate Hm|].
    by apply elem_of_nil in Hm.
Defined.

(** A user whose course is completed and a new user, at 08:00 local
    time. *)
Lemma tick_serves_each_user_alone_witness :
  let clock := mk_datetime 2025 3 2 3 0 0 0 None in
  let inp := λ _ : string, Inputs clock clock true true in
  let users := [("1", finished_user); ("2", new_user "2025-03-01" 5)] in
  let r := tick clock inp users in
  NoDup users.*1
  ∧ Forall (returns_for clock inp) users
  ∧ outcome_of r = ok tt
  ∧ (in_memory r).*1 = ["1"; "2"]
  ∧ ("1", finished_user) ∈ in_memory r
  ∧ ∀ m, ("1", m) ∉ messages r.
Proof.
  intros clock inp users r.
  assert (Hnd : NoDup users.*1).
  { cbn. apply NoDup_cons. split.
    - intros H. apply elem_of_cons in H as [H | H]; [discriminate H|].
      by apply elem_of_nil in H.
    - apply NoDup_singleton. }
  assert (Hall : Forall (returns_for clock inp) users)
    by (repeat constructor).
  split; [exact Hnd|]. split; [exact Hall|].
  destruct (tick_serves_each_user_alone clock inp users Hnd Hall)
    as (H1 & _ & _ & H4 & H5).
  split; [exact H1|]. split; [exact H4|].
  apply (H5 ("1", finished_user)); [|reflexivity].
  apply elem_of_cons. by left.
Defined.
